(** * remote_training: launching a training notebook on a hosted platform

    A shallow embedding of [src/remote_training/remote_training.py] and the
    properties of its template substitution, its kernel metadata and the
    order and the failure behaviour of its effects.

    Python [str] values are [string]s whose characters are read as code
    points below 256; [bytes] are lists of [byte].  Calls that leave the
    script (subprocesses, [argparse], the file system, the platform's API
    client) are operations answered by an environment, and every answer is
    recorded in a trace. *)

From Stdlib Require Import String Ascii List ZArith Bool Lia Arith.
From Stdlib Require Import Strings.Byte DecimalString.
From Stdlib Require DecimalPos.
Import ListNotations.
Open Scope string_scope.
Set Warnings "-register-all".

(** ** Python strings *)

Module PyStr.

(** [x in s] for strings: [x] occurs in [s] as a substring. *)
Fixpoint contains (x s : string) : bool :=
  prefix x s ||
  match s with
  | EmptyString => false
  | String _ s' => contains x s'
  end.

(** Left-to-right scan of [str.replace] for a non-empty [old]: [skip] counts
    the characters of the occurrence being replaced that are still to be
    passed over. *)
Fixpoint replace_scan (old new : string) (skip : nat) (s : string) : string :=
  match s with
  | EmptyString => EmptyString
  | String c s' =>
      match skip with
      | S k => replace_scan old new k s'
      | O =>
          if prefix old s
          then new ++ replace_scan old new (String.length old - 1) s'
          else String c (replace_scan old new 0 s')
      end
  end.

(** With an empty [old], Python puts [new] before every character and at the
    end. *)
Fixpoint replace_empty (new s : string) : string :=
  match s with
  | EmptyString => new
  | String c s' => new ++ String c (replace_empty new s')
  end.

(** [s.replace(old, new)]: every non-overlapping occurrence of [old], found
    from the left, is replaced by [new]. *)
Definition replace (old new s : string) : string :=
  match old with
  | EmptyString => replace_empty new s
  | String _ _ => replace_scan old new 0 s
  end.

(** [sep.join(parts)]. *)
Definition join (sep : string) (parts : list string) : string :=
  String.concat sep parts.

(** [str.lower()] on code points below 256: the upper-case letters are
    A-Z and the Latin-1 range 192-222 without the multiplication sign 215;
    each is 32 below its lower-case letter. *)
Definition lower_char (c : ascii) : ascii :=
  let n := nat_of_ascii c in
  if (((65 <=? n) && (n <=? 90)) ||
      ((192 <=? n) && (n <=? 222) && negb (n =? 215)))%nat
  then ascii_of_nat (n + 32)
  else c.

Fixpoint lower (s : string) : string :=
  match s with
  | EmptyString => EmptyString
  | String c s' => String (lower_char c) (lower s')
  end.

(** [str(n)] and [f"{n}"] for an [int]. *)
Definition of_int (n : Z) : string :=
  NilZero.string_of_int (Z.to_int n).

Fixpoint zeros (k : nat) : string :=
  match k with
  | O => EmptyString
  | S k' => String "0" (zeros k')
  end.

(** [f"{n:05d}"]: the sign comes first and zeros fill up to five
    characters. *)
Definition format_05d (n : Z) : string :=
  let digits := of_int (Z.abs n) in
  if (n <? 0)%Z
  then "-" ++ zeros (4 - String.length digits) ++ digits
  else zeros (5 - String.length digits) ++ digits.

End PyStr.

(** ** Python values, exceptions and results *)

(** The exceptions the script raises itself or receives from a call; an
    exception class the script never names is [OtherError] with its name
    ([SystemExit] from [parse_args], [FileNotFoundError] from [open], ...). *)
Inductive exn : Type :=
| CalledProcessError (returncode : Z)
| AssertionError (msg : string)
| NotImplementedError
| KeyError (key : option string)
| UnicodeDecodeError
| ArgumentError (flag : string)
| OtherError (name : string).

(** [except subprocess.CalledProcessError] takes this class only. *)
Definition is_CalledProcessError (e : exn) : bool :=
  match e with
  | CalledProcessError _ => true
  | _ => false
  end.

Inductive result (A : Type) : Type :=
| Ok (a : A)
| Raise (e : exn).
Arguments Ok {A} a.
Arguments Raise {A} e.

(** The values given to [exp], [iteration] and [dataset_files], and the
    defaults of command-line arguments. *)
Inductive pyval : Type :=
| PyNone
| PyBool (b : bool)
| PyInt (n : Z)
| PyStr (s : string)
| PyList (xs : list pyval).

Section Format.

(** [repr] of a [str] is Python's own (quote choice and escapes) and is
    taken as given. *)
Variable repr_str : string -> string.

Fixpoint repr (v : pyval) : string :=
  match v with
  | PyNone => "None"
  | PyBool true => "True"
  | PyBool false => "False"
  | PyInt n => PyStr.of_int n
  | PyStr s => repr_str s
  | PyList xs => "[" ++ PyStr.join ", " (map repr xs) ++ "]"
  end.

(** [f"{v}"]: a [str] is inserted as it is, any other value by its
    [repr]. *)
Definition format (v : pyval) : string :=
  match v with
  | PyStr s => s
  | _ => repr v
  end.

End Format.

(** A [dict] with string keys, in insertion order. *)
Definition dict (V : Type) : Type := list (string * V).

Fixpoint dict_get {V : Type} (d : dict V) (k : string) : option V :=
  match d with
  | [] => None
  | (k', v) :: d' => if String.eqb k' k then Some v else dict_get d' k
  end.

Definition keys {V : Type} (d : dict V) : list string := map fst d.

(** [d[k]] raises [KeyError] on a missing key. *)
Definition subscript {V : Type} (d : dict V) (k : string) : result V :=
  match dict_get d k with
  | Some v => Ok v
  | None => Raise (KeyError (Some k))
  end.

(** The values of the kernel metadata. *)
Inductive json : Type :=
| JStr (s : string)
| JList (xs : list json).

(** ** argparse parsers *)

Inductive action : Type := Store | StoreTrue | Help.

Record argument : Type := Argument {
  option_strings : list string;
  arg_action : action;
  arg_type_str : bool;                 (* [type=str] was given *)
  arg_help : string;
  arg_default : pyval;
  arg_choices : option (list string)
}.

(** [conflict_handler]: what [add_argument] does with a flag the parser
    has already; ['error'] is the default of [ArgumentParser]. *)
Inductive handler : Type := OnError | OnResolve.

Record parser : Type := Parser {
  description : string;
  conflict_handler : handler;
  arguments : list argument
}.

(** [argparse.ArgumentParser(description=...)]: a new parser has the help
    flag, whose default is the [SUPPRESS] marker. *)
Definition help_argument : argument :=
  Argument ["-h"; "--help"] Help false "show this help message and exit"
           (PyStr "==SUPPRESS==") None.

Definition ArgumentParser (descr : string) : parser :=
  Parser descr OnError [help_argument].

Definition mem_string (x : string) (l : list string) : bool :=
  existsb (String.eqb x) l.

(** The flag of [a] that some argument of [p] has already, if any. *)
Definition conflict (p : parser) (a : argument) : option string :=
  find (fun f => existsb (fun b => mem_string f (option_strings b)) (arguments p))
       (option_strings a).

(** The flags of [a] that some argument of [p] has already. *)
Definition conflicts (p : parser) (a : argument) : list string :=
  filter (fun f => existsb (fun b => mem_string f (option_strings b))
                           (arguments p))
         (option_strings a).

(** The handler ['resolve']: an argument loses the flags that are [taken]
    from it, and goes when it had one of them and keeps none. *)
Definition remove_flags (taken : list string) (b : argument)
  : list argument :=
  let kept :=
    filter (fun f => negb (mem_string f taken)) (option_strings b) in
  if existsb (fun f => mem_string f taken) (option_strings b)
  then match kept with
       | [] => []
       | _ :: _ =>
           [Argument kept (arg_action b) (arg_type_str b) (arg_help b)
                     (arg_default b) (arg_choices b)]
       end
  else [b].

(** [parser.add_argument(...)]: with the handler ['error'] a flag that the
    parser has already is an [ArgumentError], which carries the first such
    flag here; with ['resolve'] the older arguments lose the flags.  The
    argument is added after the others. *)
Definition add_argument (p : parser) (a : argument) : result parser :=
  match conflict_handler p, conflict p a with
  | OnError, Some f => Raise (ArgumentError f)
  | OnError, None =>
      Ok (Parser (description p) OnError (arguments p ++ [a]))
  | OnResolve, _ =>
      Ok (Parser (description p) OnResolve
                 (flat_map (remove_flags (conflicts p a)) (arguments p)
                  ++ [a]))
  end.

(** The namespace [parse_args] returns: the six arguments of [init_parser]
    and the five that [main] reads and that [get_parser] declares. *)
Record Args : Type := MkArgs {
  notebook_id : string;
  user : option string;
  branch : string;
  cpu : bool;
  push : bool;
  download : bool;
  exp : list Z;
  iteration : list Z;
  full : bool;
  learning : bool;
  testing : bool
}.

(** ** Operations, traces and the monad of the script *)

(** What the script asks of the world:
    - [CheckOutput cmd]: [subprocess.check_output(cmd)], the bytes printed;
    - [ParseArgs p argv]: [p.parse_args(argv)];
    - [LoadConfig u]: [kaggle.api._load_config(u)];
    - [Makedirs path]: [os.makedirs(path, exist_ok=True)];
    - [KernelsOutput kernel path]: [kaggle.api.kernels_output_cli];
    - [SubprocessRun cmd]: [subprocess.run(cmd)];
    - [Rmtree path]: [shutil.rmtree(path, ignore_errors=True)];
    - [OpenRead path], [Readlines path]: [open(path)] and [f.readlines()];
    - [OpenWrite path], [FileWrite path text]: [open(path, "w")] and
      [w.write(text)];
    - [PathExists path]: [os.path.exists(path)];
    - [JsonDump path config indent]: [json.dump(config, f, indent=indent)]
      on the file opened at [path];
    - [KernelsPush folder]: [kaggle.api.kernels_push_cli(folder)].
    A [with] block closes its file; closing is not an operation here. *)
Inductive Op : Type -> Type :=
| CheckOutput (cmd : list string) : Op (list byte)
| ParseArgs (p : parser) (argv : list string) : Op Args
| LoadConfig (kaggle_user : dict string) : Op unit
| Makedirs (path : string) : Op unit
| KernelsOutput (kernel path : string) : Op unit
| SubprocessRun (cmd : list string) : Op unit
| Rmtree (path : string) : Op unit
| OpenRead (path : string) : Op unit
| Readlines (path : string) : Op (list string)
| OpenWrite (path : string) : Op unit
| FileWrite (path text : string) : Op unit
| PathExists (path : string) : Op bool
| JsonDump (path : string) (config : dict json) (indent : nat) : Op unit
| KernelsPush (folder : string) : Op unit.

(** An operation with the answer it got. *)
Inductive Event : Type :=
| Ev {R : Type} (op : Op R) (answer : result R).

Definition Trace : Type := list Event.

(** The environment answers an operation from the trace so far. *)
Definition Env : Type := Trace -> forall R : Type, Op R -> result R.

Definition M (A : Type) : Type := Trace -> Trace * result A.

Definition ret {A : Type} (a : A) : M A := fun tr => (tr, Ok a).

Definition raise {A : Type} (e : exn) : M A := fun tr => (tr, Raise e).

Definition bind {A B : Type} (m : M A) (k : A -> M B) : M B :=
  fun tr =>
    match m tr with
    | (tr', Ok a) => k a tr'
    | (tr', Raise e) => (tr', Raise e)
    end.

Definition lift {A : Type} (r : result A) : M A := fun tr => (tr, r).

(** [assert b, msg]. *)
Definition assert (b : bool) (msg : string) : M unit :=
  if b then ret tt else raise (AssertionError msg).

(** [try: body except C: handler], where [catches] tells the exceptions of
    class [C]. *)
Definition try_except {A : Type} (body : M A) (catches : exn -> bool)
           (handler : M A) : M A :=
  fun tr =>
    match body tr with
    | (tr', Ok a) => (tr', Ok a)
    | (tr', Raise e) => if catches e then handler tr' else (tr', Raise e)
    end.

Declare Scope py_scope.
Delimit Scope py_scope with py.
Notation "x <- m ;; k" := (bind m (fun x => k))
  (at level 61, m at next level, right associativity) : py_scope.
Notation "m ;; k" := (bind m (fun _ => k))
  (at level 61, right associativity) : py_scope.
Open Scope py_scope.

(** ** Helpers of the standard library the script calls *)

(** ASCII whitespace, as [bytes.strip()] removes it. *)
Definition is_space (b : byte) : bool :=
  match b with
  | x09 | x0a | x0b | x0c | x0d | x20 => true
  | _ => false
  end.

Fixpoint lstrip (bs : list byte) : list byte :=
  match bs with
  | [] => []
  | b :: bs' => if is_space b then lstrip bs' else bs
  end.

Definition strip (bs : list byte) : list byte :=
  rev (lstrip (rev (lstrip bs))).

(** [os.path.join(a, b)] on POSIX paths. *)
Definition ends_with_slash (a : string) : bool :=
  match rev (list_ascii_of_string a) with
  | c :: _ => Ascii.eqb c "/"
  | [] => false
  end.

Definition os_path_join (a b : string) : string :=
  if prefix "/" b then b
  else if String.eqb a "" || ends_with_slash a then a ++ b
  else a ++ "/" ++ b.

(** The constants of [src.configs.constants] the script reads; the module is
    not part of the sources at hand, its values are parameters. *)
Record Constants : Type := MkConstants {
  NOTEBOOK_ID : string;
  REMOTE_TRAINING_FOLDER : string;
  OUTPUT_FOLDER : string;
  KAGGLE_DATASET_LIST : list string;
  GIT_USER : string;
  GIT_REPO : string
}.

(** ** The script *)

Section RemoteTraining.

(** Answers of the world outside the script. *)
Variable env : Env.
(** [src.configs.constants]. *)
Variable constants : Constants.
(** [remote_training.__kaggle_login.kaggle_users]: per user, the
    credentials dictionary. *)
Variable kaggle_users : dict (dict string).
(** [src.pipeline.train.get_parser], which adds the arguments of the
    training pipeline to the parser it is given. *)
Variable get_parser : parser -> result parser.
(** [bytes.decode()]; [None] stands for [UnicodeDecodeError]. *)
Variable decode : list byte -> option string.
Variable repr_str : string -> string.

(** Perform an operation: the environment answers, the answer is
    recorded, an exception is raised in the script. *)
Definition call {R : Type} (op : Op R) : M R :=
  fun tr => let r := env tr R op in ((tr ++ [Ev op r])%list, r).

Definition sentinel : string :=
  "Error: Could not determine the Git branch name.".

Definition git_branch_cmd : list string :=
  ["git"; "branch"; "--show-current"].

Definition get_git_branch_name : M string :=
  try_except
    (out <- call (CheckOutput git_branch_cmd) ;;
     match decode (strip out) with
     | Some branch_name => ret branch_name
     | None => raise UnicodeDecodeError
     end)
    is_CalledProcessError
    (ret sentinel).

Definition init_parser (parser0 : option parser) : M parser :=
  let p :=
    match parser0 with
    | None => ArgumentParser "Train a model on Kaggle using a script"
    | Some p => p
    end in
  (* Notebook flag *)
  p <- lift (add_argument p
         (Argument ["-n"; "--notebook_id"] Store true
                   "Notebook name in kaggle"
                   (PyStr (NOTEBOOK_ID constants)) None)) ;;
  (* User flag *)
  p <- lift (add_argument p
         (Argument ["-u"; "--user"] Store true "Kaggle user"
                   PyNone (Some (keys kaggle_users)))) ;;
  (* Branch flag *)
  branch_default <- get_git_branch_name ;;
  p <- lift (add_argument p
         (Argument ["--branch"] Store true "Git branch name"
                   (PyStr branch_default) None)) ;;
  (* CPU flag *)
  p <- lift (add_argument p
         (Argument ["--cpu"] StoreTrue false "Force CPU"
                   (PyBool false) None)) ;;
  (* Push flag *)
  p <- lift (add_argument p
         (Argument ["-p"; "--push"] StoreTrue false "Push"
                   (PyBool false) None)) ;;
  (* Download flag *)
  p <- lift (add_argument p
         (Argument ["-d"; "--download"] StoreTrue false "Download results"
                   (PyBool false) None)) ;;
  ret p.

(** [f"!!!{expr}!!!"]. *)
Definition placeholder (expr : string) : string :=
  "!!!" ++ expr ++ "!!!".

Definition quoted (s : string) : string := "'" ++ s ++ "'".

Definition expressions (exp iteration : pyval) (branch git_user git_repo
    pipeline : string) (output_dir : option string)
    (dataset_files : option (list pyval)) : list (string * string) :=
  [ ("exp", format repr_str exp);
    ("iteration", format repr_str iteration);
    ("branch", quoted branch);
    ("git_user", quoted git_user);
    ("git_repo", quoted git_repo);
    ("pipeline", quoted pipeline);
    ("output_dir",
      match output_dir with None => "None" | Some d => quoted d end);
    ("dataset_files",
      match dataset_files with
      | None => "None"
      | Some files => format repr_str (PyList files)
      end) ].

(** One turn of the inner loop on the line [li] as it was read, with
    [cur] the line as it is by then. *)
Definition step (li : string) (cur : string) (e : string * string)
  : string :=
  if PyStr.contains (placeholder (fst e)) li
  then PyStr.replace (placeholder (fst e)) (snd e) cur
  else cur.

(** The inner loop on one line. *)
Definition substitute_line (exprs : list (string * string)) (li : string)
  : string :=
  fold_left (step li) exprs li.

Definition substitute (exprs : list (string * string))
           (template_nb : list string) : string :=
  PyStr.join "" (map (substitute_line exprs) template_nb).

Definition default_template_nb_path : string :=
  os_path_join (REMOTE_TRAINING_FOLDER constants) "remote_training.ipynb".

Definition prepare_notebook (output_nb_path : string)
    (exp iteration : pyval) (branch : string)
    (git_user git_repo : option string) (pipeline : string)
    (template_nb_path : string) (output_dir : option string)
    (dataset_files : option (list pyval)) : M unit :=
  match git_user with
  | None => raise (AssertionError "Please provide a git username for the repo")
  | Some git_user =>
  match git_repo with
  | None => raise (AssertionError "Please provide a git repo name for the repo")
  | Some git_repo =>
    let exprs := expressions exp iteration branch git_user git_repo
                             pipeline output_dir dataset_files in
    call (OpenRead template_nb_path) ;;
    template_nb <- call (Readlines template_nb_path) ;;
    let template_nb := substitute exprs template_nb in
    call (OpenWrite output_nb_path) ;;
    call (FileWrite output_nb_path template_nb)
  end
  end.

(** The call with every optional argument left out. *)
Definition prepare_notebook_defaults (output_nb_path : string)
    (exp iteration : pyval) (branch : string) : M unit :=
  prepare_notebook output_nb_path exp iteration branch None None "full"
    default_template_nb_path (Some (OUTPUT_FOLDER constants)) None.

Definition true_false (b : bool) : json :=
  JStr (if b then "true" else "false").

Definition define_config (args : Args) (kaggle_user : dict string)
    (exp_str notebook_id : string) : result (dict json) :=
  match subscript kaggle_user "username" with
  | Raise e => Raise e
  | Ok username =>
    Ok [ ("id", JStr (username ++ "/" ++ exp_str));
         ("title", JStr (PyStr.lower notebook_id));
         ("code_file", JStr (notebook_id ++ ".ipynb"));
         ("language", JStr "python");
         ("kernel_type", JStr "notebook");
         ("is_private", JStr "true");
         ("enable_gpu", true_false (negb (cpu args)));
         ("enable_tpu", JStr "false");
         ("enable_internet", JStr "true");
         ("full_pipeline", true_false (full args));
         ("learning_pipeline", true_false (learning args));
         ("testing_pipeline", true_false (testing args));
         ("dataset_sources", JList (map JStr (KAGGLE_DATASET_LIST constants)));
         ("competition_sources", JList []);
         ("kernel_sources", JList []);
         ("model_sources", JList []) ]
  end.

(** Lines 178-180 of [main]: the parser is built and [argv] parsed. *)
Definition cli_args (argv : list string) : M Args :=
  parser <- init_parser None ;;
  parser <- lift (get_parser parser) ;;
  call (ParseArgs parser argv).

(** [kaggle_users[args.user]]; a user that was not given is [None], which
    is no key of the dictionary. *)
Definition lookup_user (u : option string) : result (dict string) :=
  match u with
  | None => Raise (KeyError None)
  | Some name => subscript kaggle_users name
  end.

(** Lines 181-226 of [main]: what is done with the parsed arguments. *)
Definition launch (args : Args) : M unit :=
  let notebook_id := notebook_id args in
  let exp_str := PyStr.join "_" (map PyStr.format_05d (exp args)) in
  let iteration_str :=
    PyStr.join "_" (map PyStr.format_05d (iteration args)) in
  pipeline <-
    (if full args then ret "full"
     else if learning args then ret "learning"
     else if testing args then ret "testing"
     else raise NotImplementedError) ;;
  kaggle_user <- lift (lookup_user (user args)) ;;
  uname_kaggle <- lift (subscript kaggle_user "username") ;;
  call (LoadConfig kaggle_user) ;;
  (* If needed, download results *)
  if download args then
    let tmp_dir := "__tmp_" ++ exp_str ++ "_" ++ iteration_str in
    call (Makedirs tmp_dir) ;;
    username <- lift (subscript kaggle_user "username") ;;
    call (KernelsOutput (username ++ "/" ++ notebook_id) tmp_dir) ;;
    call (SubprocessRun
            ["tar"; "-xzf"; tmp_dir ++ "/output.tgz";
             OUTPUT_FOLDER constants]) ;;
    call (Rmtree tmp_dir) ;;
    ret tt
  else
    (* Launch notebook *)
    let kernel_root := "__nb_" ++ uname_kaggle in
    let kernel_path := kernel_root ++ "/" ++ exp_str in
    call (Makedirs kernel_path) ;;
    let branch := branch args in
    config <- lift (define_config args kaggle_user exp_str notebook_id) ;;
    prepare_notebook
      ((kernel_path ++ "/" ++ notebook_id) ++ ".ipynb")
      (PyList (map PyInt (exp args)))
      (PyList (map PyInt (iteration args)))
      branch
      (Some (GIT_USER constants)) (Some (GIT_REPO constants))
      pipeline
      default_template_nb_path
      (Some (OUTPUT_FOLDER constants))
      None ;;
    exists_nb <-
      call (PathExists ((kernel_path ++ "/" ++ notebook_id) ++ ".ipynb")) ;;
    assert exists_nb "" ;;
    call (OpenWrite (kernel_path ++ "/kernel-metadata.json")) ;;
    call (JsonDump (kernel_path ++ "/kernel-metadata.json") config 4) ;;
    if push args then call (KernelsPush kernel_path) else ret tt.

Definition main (argv : list string) : M unit :=
  args <- cli_args argv ;;
  launch args.

End RemoteTraining.

(** ** Filling a template in one pass

    The substitution in the words of the specification: every occurrence of
    a placeholder is replaced by its rendered value and all other text is
    left unchanged.  A line is read from the left; where a placeholder
    starts its value is put and the placeholder is passed over, any other
    character is kept. *)

Definition matching (exprs : list (string * string)) (s : string)
  : option (string * string) :=
  find (fun e => prefix (placeholder (fst e)) s) exprs.

Fixpoint fill_scan (exprs : list (string * string)) (skip : nat) (s : string)
  : string :=
  match s with
  | EmptyString => EmptyString
  | String c s' =>
      match skip with
      | S k => fill_scan exprs k s'
      | O =>
          match matching exprs s with
          | Some e =>
              snd e ++
              fill_scan exprs (String.length (placeholder (fst e)) - 1) s'
          | None => String c (fill_scan exprs 0 s')
          end
      end
  end.

Definition fill (exprs : list (string * string)) (s : string) : string :=
  fill_scan exprs 0 s.

Definition fill_all (exprs : list (string * string)) (lines : list string)
  : string :=
  PyStr.join "" (map (fill exprs) lines).

(** [s[k:]]. *)
Fixpoint drop (k : nat) (s : string) : string :=
  match k, s with
  | O, _ => s
  | S k', String _ s' => drop k' s'
  | S _, EmptyString => EmptyString
  end.

Definition starts_placeholder (exprs : list (string * string)) (s : string)
  : bool :=
  match matching exprs s with
  | Some _ => true
  | None => false
  end.

(** No placeholder starts inside an occurrence of a placeholder. *)
Fixpoint non_overlapping (exprs : list (string * string)) (s : string)
  : bool :=
  match s with
  | EmptyString => true
  | String _ s' =>
      match matching exprs s with
      | Some e =>
          forallb (fun i => negb (starts_placeholder exprs (drop i s)))
                  (seq 1 (String.length (placeholder (fst e)) - 1))
      | None => true
      end && non_overlapping exprs s'
  end.

(** [v] contains none of the placeholders. *)
Definition placeholder_free (exprs : list (string * string)) (v : string)
  : bool :=
  forallb (fun e => negb (PyStr.contains (placeholder (fst e)) v)) exprs.

Definition values_placeholder_free (exprs : list (string * string)) : bool :=
  forallb (fun e => placeholder_free exprs (snd e)) exprs.

(** No placeholder is the beginning of the placeholder of another name. *)
Definition distinct_placeholders (exprs : list (string * string)) : bool :=
  forallb
    (fun e =>
       forallb
         (fun e' =>
            implb (prefix (placeholder (fst e)) (placeholder (fst e')))
                  (String.eqb (fst e) (fst e')))
         exprs)
    exprs.

(** The characters placeholders are made of. *)
Definition placeholder_char (exprs : list (string * string)) (c : ascii)
  : bool :=
  existsb
    (fun e =>
       existsb (Ascii.eqb c) (list_ascii_of_string (placeholder (fst e))))
    exprs.

Definition first_char (s : string) : option ascii :=
  match s with
  | EmptyString => None
  | String c _ => Some c
  end.

Fixpoint last_char (s : string) : option ascii :=
  match s with
  | EmptyString => None
  | String c EmptyString => Some c
  | String _ s' => last_char s'
  end.

Definition foreign (exprs : list (string * string)) (c : option ascii)
  : bool :=
  match c with
  | Some c => negb (placeholder_char exprs c)
  | None => false
  end.

(** A value that begins with a character no placeholder has, and that ends
    with such a character or has no exclamation mark. *)
Definition sealed (exprs : list (string * string)) (v : string) : bool :=
  foreign exprs (first_char v) &&
  (foreign exprs (last_char v) || negb (PyStr.contains "!" v)).

(** A line cut into the placeholders in it and the characters between
    them; [render done] writes a placeholder by its value once its name is
    in [done]. *)
Inductive token : Type :=
| Txt (c : ascii)
| Hole (name : string).

Definition render_token (done : dict string) (t : token) : string :=
  match t with
  | Txt c => String c EmptyString
  | Hole n =>
      match dict_get done n with
      | Some v => v
      | None => placeholder n
      end
  end.

Fixpoint render (done : dict string) (ts : list token) : string :=
  match ts with
  | [] => EmptyString
  | t :: ts' => render_token done t ++ render done ts'
  end.

(** [q] is made of characters of placeholders. *)
Definition only_placeholder_chars (exprs : list (string * string))
           (q : string) : Prop :=
  forall c, In c (list_ascii_of_string q) -> placeholder_char exprs c = true.

(** Tokens that read a line as the one-pass fill does: a character where no
    placeholder starts, a placeholder with no placeholder starting inside
    it. *)
Fixpoint well_formed (exprs : list (string * string)) (ts : list token)
  : Prop :=
  match ts with
  | [] => True
  | Txt c :: ts' =>
      matching exprs (String c (render [] ts')) = None /\
      well_formed exprs ts'
  | Hole n :: ts' =>
      (exists v, In (n, v) exprs) /\
      (forall i, 0 < i < String.length (placeholder n) ->
         starts_placeholder exprs (drop i (placeholder n ++ render [] ts'))
         = false) /\
      well_formed exprs ts'
  end.

(** The characters of [str(n)]. *)
Definition decimal_char (c : ascii) : bool :=
  existsb (Ascii.eqb c) (list_ascii_of_string "-0123456789").

(** ** The values [main] computes from the arguments *)

(** The parser [init_parser] makes when it is given none, with [b] the
    branch name it got. *)
Definition built_parser (constants : Constants)
           (kaggle_users : dict (dict string)) (b : string) : parser :=
  Parser "Train a model on Kaggle using a script" OnError
    [ help_argument;
      Argument ["-n"; "--notebook_id"] Store true "Notebook name in kaggle"
               (PyStr (NOTEBOOK_ID constants)) None;
      Argument ["-u"; "--user"] Store true "Kaggle user" PyNone
               (Some (keys kaggle_users));
      Argument ["--branch"] Store true "Git branch name" (PyStr b) None;
      Argument ["--cpu"] StoreTrue false "Force CPU" (PyBool false) None;
      Argument ["-p"; "--push"] StoreTrue false "Push" (PyBool false) None;
      Argument ["-d"; "--download"] StoreTrue false "Download results"
               (PyBool false) None ].

Definition exp_str_of (args : Args) : string :=
  PyStr.join "_" (map PyStr.format_05d (exp args)).

Definition iteration_str_of (args : Args) : string :=
  PyStr.join "_" (map PyStr.format_05d (iteration args)).

Definition pipeline_of (args : Args) : option string :=
  if full args then Some "full"
  else if learning args then Some "learning"
  else if testing args then Some "testing"
  else None.

Definition tmp_dir_of (args : Args) : string :=
  "__tmp_" ++ exp_str_of args ++ "_" ++ iteration_str_of args.

Definition kernel_path_of (uname : string) (args : Args) : string :=
  ("__nb_" ++ uname) ++ "/" ++ exp_str_of args.

Definition notebook_path_of (uname : string) (args : Args) : string :=
  (kernel_path_of uname args ++ "/" ++ notebook_id args) ++ ".ipynb".

Definition metadata_path_of (uname : string) (args : Args) : string :=
  kernel_path_of uname args ++ "/kernel-metadata.json".

(** ** Reading a trace *)

(** The exception an operation answered with. *)
Definition raised (ev : Event) : option exn :=
  match ev with
  | Ev _ (Raise e) => Some e
  | Ev _ (Ok _) => None
  end.

(** The exceptions that the [try] of [get_git_branch_name] takes: a
    [CalledProcessError] of the [git] call. *)
Definition handled (ev : Event) : bool :=
  match ev with
  | Ev op (Raise e) =>
      match op with
      | CheckOutput _ => is_CalledProcessError e
      | _ => false
      end
  | Ev _ (Ok _) => false
  end.

Definition is_push (ev : Event) : bool :=
  match ev with
  | Ev (KernelsPush _) _ => true
  | _ => false
  end.

Definition opens_for_write (path : string) (ev : Event) : bool :=
  match ev with
  | Ev (OpenWrite p) _ => String.eqb p path
  | _ => false
  end.

Definition writes_text (path : string) (ev : Event) : bool :=
  match ev with
  | Ev (FileWrite p _) _ => String.eqb p path
  | _ => false
  end.

Definition dumps_json (path : string) (ev : Event) : bool :=
  match ev with
  | Ev (JsonDump p _ _) _ => String.eqb p path
  | _ => false
  end.

(** The operations on files opened for writing. *)
Definition writes_file (ev : Event) : bool :=
  match ev with
  | Ev (OpenWrite _) _ | Ev (FileWrite _ _) _ | Ev (JsonDump _ _ _) _ => true
  | _ => false
  end.

(** The operations that change directories or files or talk to the
    platform; reading a file, asking [git] for the branch and parsing
    [argv] do not. *)
Definition changes_world (ev : Event) : bool :=
  match ev with
  | Ev (CheckOutput _) _ | Ev (ParseArgs _ _) _ | Ev (OpenRead _) _
  | Ev (Readlines _) _ | Ev (PathExists _) _ => false
  | _ => true
  end.

Definition count (f : Event -> bool) (tr : Trace) : nat :=
  List.length (filter f tr).

(** In the events [new] of a run with result [r], an exception that an
    operation answered with and that no handler takes is the result. *)
Definition propagates {A : Type} (new : Trace) (r : result A) : Prop :=
  forall ev e, In ev new -> raised ev = Some e -> handled ev = false ->
               r = Raise e.

(** From every trace, [m] adds events in which exceptions propagate. *)
Definition sound {A : Type} (m : M A) : Prop :=
  forall tr0, exists new,
    fst (m tr0) = (tr0 ++ new)%list /\ propagates new (snd (m tr0)).

(** From every trace, [m] adds only events that satisfy [Q]. *)
Definition only {A : Type} (Q : Event -> Prop) (m : M A) : Prop :=
  forall tr0, exists new, fst (m tr0) = (tr0 ++ new)%list /\ Forall Q new.

(** ** A sample world

    Used to run the script on concrete inputs: every operation succeeds,
    [git] prints [git_out], [parse_args] returns [args], the template has the
    lines [template] and the written notebook exists. *)

Definition sample_env (git_out : result (list byte)) (args : result Args)
           (template : list string) : Env :=
  fun _ R op =>
    match op in Op R return result R with
    | CheckOutput _ => git_out
    | ParseArgs _ _ => args
    | Readlines _ => Ok template
    | PathExists _ => Ok true
    | LoadConfig _ => Ok tt
    | Makedirs _ => Ok tt
    | KernelsOutput _ _ => Ok tt
    | SubprocessRun _ => Ok tt
    | Rmtree _ => Ok tt
    | OpenRead _ => Ok tt
    | OpenWrite _ => Ok tt
    | FileWrite _ _ => Ok tt
    | JsonDump _ _ _ => Ok tt
    | KernelsPush _ => Ok tt
    end.

Definition sample_constants : Constants :=
  MkConstants "remote_training" "remote_training" "__output"
              ["owner/dataset"] "gituser" "gitrepo".

Definition sample_users : dict (dict string) :=
  [ ("alice", [("username", "alice_k"); ("key", "0123")]) ].

(** Bytes below 128 decode to the same code points. *)
Definition sample_decode (bs : list byte) : option string :=
  if forallb (fun b => Nat.ltb (Byte.to_nat b) 128) bs
  then Some (string_of_list_byte bs)
  else None.

(** [repr] of a string without quotes, backslashes or control characters. *)
Definition sample_repr_str (s : string) : string := "'" ++ s ++ "'".

Definition sample_args : Args :=
  MkArgs "remote_training" (Some "alice") "main" false true false
         [1%Z] [2%Z] true false false.

Definition sample_git : result (list byte) :=
  Ok (list_byte_of_string "main
").

Definition sample_template : list string :=
  ["a !!!exp!!! b !!!branch!!!
"; "x"].

(** The download and the push flag, with a pipeline flag. *)
Definition sample_download_args : Args :=
  MkArgs "remote_training" (Some "alice") "main" false true true
         [1%Z] [2%Z] true false false.

(** The download flag and no pipeline flag. *)
Definition sample_download_only : Args :=
  MkArgs "remote_training" (Some "alice") "main" false false true
         [1%Z] [2%Z] false false false.

(** No pipeline flag. *)
Definition sample_no_pipeline : Args :=
  MkArgs "remote_training" (Some "alice") "main" false true false
         [1%Z] [2%Z] false false false.

(** No user. *)
Definition sample_no_user : Args :=
  MkArgs "remote_training" None "main" false true false
         [1%Z] [2%Z] true false false.

(** [main] and its parsing of [argv] in the sample world, from the empty
    trace. *)
Definition sample_main (git_out : result (list byte)) (args : result Args)
           (template : list string) (argv : list string)
  : Trace * result unit :=
  main (sample_env git_out args template) sample_constants sample_users
       (fun p => Ok p) sample_decode sample_repr_str argv [].

Definition sample_cli (git_out : result (list byte)) (args : result Args)
           (template : list string) (argv : list string)
  : Trace * result Args :=
  cli_args (sample_env git_out args template) sample_constants sample_users
           (fun p => Ok p) sample_decode argv [].


(** ** Further readings of a trace *)

(** An event that lets the run go on: the operation answered with a value,
    or with the exception the [try] of [get_git_branch_name] takes. *)
Definition calm (ev : Event) : bool :=
  match raised ev with
  | None => true
  | Some _ => handled ev
  end.

(** The events [new] of a run with result [r] are calm up to the last one
    at most, and a last one that is not calm raised the result. *)
Definition stops {A : Type} (new : Trace) (r : result A) : Prop :=
  exists pre,
    Forall (fun ev => calm ev = true) pre /\
    (new = pre \/
     exists ev e, new = (pre ++ [ev])%list /\ raised ev = Some e /\
                  handled ev = false /\ r = Raise e).

(** From every trace, [m] adds events that stop at the first failure. *)
Definition halting {A : Type} (m : M A) : Prop :=
  forall tr0, exists new,
    fst (m tr0) = (tr0 ++ new)%list /\ stops new (snd (m tr0)).

Definition is_rmtree (ev : Event) : bool :=
  match ev with
  | Ev (Rmtree _) _ => true
  | _ => false
  end.

Definition is_json_dump (ev : Event) : bool :=
  match ev with
  | Ev (JsonDump _ _ _) _ => true
  | _ => false
  end.

(** [os.path.exists] answered [False]. *)
Definition not_found (ev : Event) : bool :=
  match ev with
  | Ev op a =>
      match op in Op R return result R -> bool with
      | PathExists _ =>
          fun a => match a with Ok b => negb b | Raise _ => false end
      | _ => fun _ => false
      end a
  end.

(** The directory and the exception of a fetch of the kernel output that
    raised. *)
Definition fetch_failure (ev : Event) : option (string * exn) :=
  match ev with
  | Ev (KernelsOutput _ dir) (Raise e) => Some (dir, e)
  | _ => None
  end.

(** The flags a parser has. *)
Definition flags_of (p : parser) : list string :=
  flat_map option_strings (arguments p).

(** The flags [init_parser] declares. *)
Definition init_flags : list string :=
  ["-n"; "--notebook_id"; "-u"; "--user"; "--branch"; "--cpu";
   "-p"; "--push"; "-d"; "--download"].

(** The number a text of decimal digits stands for. *)
Definition digits_value (s : string) : option Z :=
  option_map Z.of_uint (NilEmpty.uint_of_string s).

(** The number a text of digits with an optional minus sign in front
    stands for; it reads [f"{n:05d}"] back. *)
Definition read_int (s : string) : option Z :=
  match s with
  | String c r =>
      if Ascii.eqb c "-" then option_map Z.opp (digits_value r)
      else digits_value s
  | EmptyString => None
  end.

Definition without_char (c : ascii) (s : string) : Prop :=
  ~ In c (list_ascii_of_string s).

(** A name of one file in a folder: without a slash, and neither the
    folder itself nor the one above. *)
Definition file_name (s : string) : Prop :=
  without_char "/" s /\ s <> "." /\ s <> "..".

(** The parser and the arguments of a call of [parse_args]. *)
Definition parsed (ev : Event) : option (parser * list string) :=
  match ev with
  | Ev (ParseArgs p argv) _ => Some (p, argv)
  | _ => None
  end.

(** The six arguments of [init_parser] agree in two namespaces. *)
Definition same_six (a b : Args) : bool :=
  String.eqb (notebook_id a) (notebook_id b) &&
  match user a, user b with
  | Some x, Some y => String.eqb x y
  | None, None => true
  | _, _ => false
  end &&
  String.eqb (branch a) (branch b) &&
  Bool.eqb (cpu a) (cpu b) && Bool.eqb (push a) (push b) &&
  Bool.eqb (download a) (download b).

(** The sample world with a notebook that is found or not, and a fetch of
    the kernel output that answers [fetch]. *)
Definition sample_env_failing (git_out : result (list byte))
           (args : result Args) (template : list string) (found : bool)
           (fetch : result unit) : Env :=
  fun _ R op =>
    match op in Op R return result R with
    | CheckOutput _ => git_out
    | ParseArgs _ _ => args
    | Readlines _ => Ok template
    | PathExists _ => Ok found
    | LoadConfig _ => Ok tt
    | Makedirs _ => Ok tt
    | KernelsOutput _ _ => fetch
    | SubprocessRun _ => Ok tt
    | Rmtree _ => Ok tt
    | OpenRead _ => Ok tt
    | OpenWrite _ => Ok tt
    | FileWrite _ _ => Ok tt
    | JsonDump _ _ _ => Ok tt
    | KernelsPush _ => Ok tt
    end.

(** The sample world in which the template cannot be opened. *)
Definition sample_env_no_template : Env :=
  fun _ R op =>
    match op in Op R return result R with
    | CheckOutput _ => sample_git
    | ParseArgs _ _ => Ok sample_args
    | Readlines _ => Ok []
    | PathExists _ => Ok true
    | OpenRead _ => Raise (OtherError "FileNotFoundError")
    | LoadConfig _ => Ok tt
    | Makedirs _ => Ok tt
    | KernelsOutput _ _ => Ok tt
    | SubprocessRun _ => Ok tt
    | Rmtree _ => Ok tt
    | OpenWrite _ => Ok tt
    | FileWrite _ _ => Ok tt
    | JsonDump _ _ _ => Ok tt
    | KernelsPush _ => Ok tt
    end.

(** The arguments of another experiment. *)
Definition sample_other_args : Args :=
  MkArgs "remote_training" (Some "alice") "main" false true false
         [3%Z] [2%Z] true false false.


(** * Properties *)

(** ** The string helpers on examples *)

Example replace_ex1 : PyStr.replace "ab" "X" "abcabab" = "XcXX".
Proof. reflexivity. Qed.
Example replace_ex2 : PyStr.replace "aa" "b" "aaa" = "ba".
Proof. reflexivity. Qed.
Example replace_ex3 : PyStr.replace "" "-" "ab" = "-a-b-".
Proof. reflexivity. Qed.
Example format_ex1 : PyStr.format_05d 42 = "00042".
Proof. reflexivity. Qed.
Example format_ex2 : PyStr.format_05d (-1) = "-0001".
Proof. reflexivity. Qed.
Example format_ex3 : PyStr.format_05d 1234567 = "1234567".
Proof. reflexivity. Qed.
Example lower_ex : PyStr.lower "Remote_Training 01" = "remote_training 01".
Proof. reflexivity. Qed.
Example of_int_ex : PyStr.of_int 0 = "0" /\ PyStr.of_int (-15) = "-15".
Proof. split; reflexivity. Qed.


(** ** Strings *)

Lemma append_nil_r (s : string) : s ++ "" = s.
Proof. induction s as [|c s IH]; simpl; [reflexivity | now rewrite IH]. Qed.

Lemma append_assoc (a b c : string) : (a ++ b) ++ c = a ++ (b ++ c).
Proof. induction a as [|x a IH]; simpl; [reflexivity | now rewrite IH]. Qed.

Lemma length_append (a b : string) :
  String.length (a ++ b) = String.length a + String.length b.
Proof. induction a as [|x a IH]; simpl; [reflexivity | now rewrite IH]. Qed.

Lemma prefix_cons (a c : ascii) (p s : string) :
  prefix (String a p) (String c s) = Ascii.eqb a c && prefix p s.
Proof.
  simpl. destruct (ascii_dec a c) as [->|Hne].
  - now rewrite Ascii.eqb_refl.
  - apply Ascii.eqb_neq in Hne. now rewrite Hne.
Qed.

Lemma prefix_nil (s : string) : prefix "" s = true.
Proof. destruct s; reflexivity. Qed.

Lemma prefix_append (p r : string) : prefix p (p ++ r) = true.
Proof.
  induction p as [|a p IH]; simpl.
  - apply prefix_nil.
  - destruct (ascii_dec a a); [exact IH | congruence].
Qed.

Lemma prefix_weaken (q u x : string) :
  prefix q u = true -> prefix q (u ++ x) = true.
Proof.
  revert u. induction q as [|b q IH]; intros u H.
  - apply prefix_nil.
  - destruct u as [|a u]; [discriminate H|].
    change (prefix (String b q) (String a (u ++ x)) = true).
    rewrite prefix_cons in *. apply andb_true_iff in H as [-> H].
    simpl. now apply IH.
Qed.

(** A prefix of [u ++ x] lies within [u] or goes through all of it. *)
Lemma prefix_append_cases (q u x : string) :
  prefix q (u ++ x) = true ->
  prefix q u = true \/ exists q', q = u ++ q' /\ prefix q' x = true.
Proof.
  revert q. induction u as [|a u IH]; intros q H.
  - right. now exists q.
  - destruct q as [|b q]; [left; reflexivity|].
    change (prefix (String b q) (String a (u ++ x)) = true) in H.
    rewrite prefix_cons in H. apply andb_true_iff in H as [Hb H].
    apply Ascii.eqb_eq in Hb. subst b.
    destruct (IH _ H) as [Hq | [q' [-> Hq']]].
    + left. rewrite prefix_cons, Ascii.eqb_refl. exact Hq.
    + right. now exists q'.
Qed.

Lemma prefix_append_same (u q x : string) :
  prefix q x = true -> prefix (u ++ q) (u ++ x) = true.
Proof.
  intros H. induction u as [|a u IH]; simpl; [exact H|].
  destruct (ascii_dec a a); [exact IH | congruence].
Qed.

Lemma prefix_inv (p s : string) :
  prefix p s = true -> exists r, s = p ++ r.
Proof.
  revert s. induction p as [|a p IH]; intros s H.
  - now exists s.
  - destruct s as [|c s]; [discriminate H|].
    rewrite prefix_cons in H. apply andb_true_iff in H as [Hc H].
    apply Ascii.eqb_eq in Hc. subst c.
    destruct (IH _ H) as [r ->]. now exists r.
Qed.

(** Two prefixes of one string: one is a prefix of the other. *)
Lemma prefix_comparable (p q s : string) :
  prefix p s = true -> prefix q s = true ->
  prefix p q = true \/ prefix q p = true.
Proof.
  revert q s. induction p as [|a p IH]; intros q s Hp Hq.
  - left. apply prefix_nil.
  - destruct q as [|b q]; [right; reflexivity|].
    destruct s as [|c s]; [discriminate Hp|].
    rewrite prefix_cons in Hp, Hq.
    apply andb_true_iff in Hp as [Ha Hp], Hq as [Hb Hq].
    apply Ascii.eqb_eq in Ha, Hb. subst a b.
    rewrite !prefix_cons, Ascii.eqb_refl. simpl. eauto.
Qed.

Lemma drop_append (u r : string) : drop (String.length u) (u ++ r) = r.
Proof. induction u as [|a u IH]; simpl; [now destruct r | exact IH]. Qed.

Lemma drop_append_le (i : nat) (u r : string) :
  i <= String.length u -> drop i (u ++ r) = drop i u ++ r.
Proof.
  revert u. induction i as [|i IH]; intros u Hi; [reflexivity|].
  destruct u as [|a u]; simpl in *; [lia|]. apply IH. lia.
Qed.

Lemma length_drop (i : nat) (s : string) :
  String.length (drop i s) = String.length s - i.
Proof.
  revert s. induction i as [|i IH]; intros s; simpl.
  - destruct s; simpl; lia.
  - destruct s as [|c s]; simpl; [reflexivity | apply IH].
Qed.

Lemma drop_succ (i : nat) (c : ascii) (s : string) :
  drop (S i) (String c s) = drop i s.
Proof. reflexivity. Qed.

Lemma drop_drop (i j : nat) (s : string) : drop i (drop j s) = drop (j + i) s.
Proof.
  revert s. induction j as [|j IH]; intros s; [reflexivity|].
  destruct s as [|c s]; simpl; [now destruct i | apply IH].
Qed.

Lemma contains_prefix (x s : string) :
  prefix x s = true -> PyStr.contains x s = true.
Proof. intros H. destruct s; simpl in *; rewrite H; reflexivity. Qed.

Lemma contains_cons (x : string) (c : ascii) (s : string) :
  PyStr.contains x s = true -> PyStr.contains x (String c s) = true.
Proof.
  intros H. change (prefix x (String c s) || PyStr.contains x s = true).
  rewrite H. apply orb_true_r.
Qed.

Lemma contains_append_r (x u r : string) :
  PyStr.contains x r = true -> PyStr.contains x (u ++ r) = true.
Proof.
  intros H. induction u as [|a u IH]; [exact H|].
  simpl append. now apply contains_cons.
Qed.

Lemma contains_drop (x : string) (i : nat) (w : string) :
  prefix x (drop i w) = true -> PyStr.contains x w = true.
Proof.
  revert w. induction i as [|i IH]; intros w H.
  - now apply contains_prefix.
  - destruct w as [|c w]; [now apply contains_prefix|].
    apply contains_cons, IH, H.
Qed.

Lemma chars_append (a b : string) :
  list_ascii_of_string (a ++ b) =
  (list_ascii_of_string a ++ list_ascii_of_string b)%list.
Proof. induction a as [|x a IH]; simpl; [reflexivity | now rewrite IH]. Qed.

Lemma last_char_in (u : string) (c : ascii) :
  last_char u = Some c -> In c (list_ascii_of_string u).
Proof.
  induction u as [|a u IH]; [discriminate|].
  intros H. destruct u as [|b u].
  - injection H as ->. now left.
  - right. apply IH. exact H.
Qed.

Lemma last_char_drop (i : nat) (w : string) :
  i < String.length w -> last_char (drop i w) = last_char w.
Proof.
  revert w. induction i as [|i IH]; intros w Hi; [reflexivity|].
  destruct w as [|a w]; simpl in Hi; [lia|].
  rewrite drop_succ. destruct w as [|b w]; simpl in Hi; [lia|].
  rewrite IH by (simpl; lia). reflexivity.
Qed.

Lemma last_char_append (u : string) (c : ascii) :
  last_char (u ++ String c "") = Some c.
Proof.
  induction u as [|a u IH]; [reflexivity|].
  simpl append. destruct (u ++ String c "") eqn:E.
  - destruct u; discriminate E.
  - exact IH.
Qed.

(** ** The scan of [replace] and of [fill] *)

Lemma replace_scan_skip (old new u r : string) :
  PyStr.replace_scan old new (String.length u) (u ++ r) =
  PyStr.replace_scan old new 0 r.
Proof. induction u as [|a u IH]; simpl; [reflexivity | exact IH]. Qed.

Lemma replace_scan_hit (old new r : string) :
  old <> "" ->
  PyStr.replace_scan old new 0 (old ++ r) =
  new ++ PyStr.replace_scan old new 0 r.
Proof.
  intros Hne. destruct old as [|a o]; [congruence|].
  pose proof (prefix_append (String a o) r) as Hp.
  simpl append in *. cbn [PyStr.replace_scan]. rewrite Hp.
  cbn [String.length]. rewrite Nat.sub_1_r. cbn [Nat.pred].
  now rewrite replace_scan_skip.
Qed.

Lemma replace_scan_miss (old new : string) (c : ascii) (r : string) :
  prefix old (String c r) = false ->
  PyStr.replace_scan old new 0 (String c r) =
  String c (PyStr.replace_scan old new 0 r).
Proof. intros H. cbn [PyStr.replace_scan]. now rewrite H. Qed.

(** A stretch in which [old] starts nowhere is copied. *)
Lemma replace_scan_chunk (old new u r : string) :
  (forall i, i < String.length u -> prefix old (drop i u ++ r) = false) ->
  PyStr.replace_scan old new 0 (u ++ r) =
  u ++ PyStr.replace_scan old new 0 r.
Proof.
  induction u as [|a u IH]; intros H; [reflexivity|].
  simpl append. rewrite replace_scan_miss.
  - f_equal. apply IH. intros i Hi. apply (H (S i)). simpl. lia.
  - apply (H 0). simpl. lia.
Qed.

Lemma fill_scan_skip (exprs : list (string * string)) (u r : string) :
  fill_scan exprs (String.length u) (u ++ r) = fill_scan exprs 0 r.
Proof. induction u as [|a u IH]; simpl; [reflexivity | exact IH]. Qed.

Lemma fill_hit (exprs : list (string * string)) (e : string * string)
      (r : string) :
  matching exprs (placeholder (fst e) ++ r) = Some e ->
  fill exprs (placeholder (fst e) ++ r) = snd e ++ fill exprs r.
Proof.
  unfold fill, placeholder. intros H. simpl append in *.
  cbn [fill_scan]. rewrite H. unfold placeholder.
  cbn [String.length append]. rewrite Nat.sub_1_r. cbn [Nat.pred].
  f_equal.
  exact (fill_scan_skip exprs ("!!" ++ fst e ++ "!!!") r).
Qed.

Lemma fill_miss (exprs : list (string * string)) (c : ascii) (r : string) :
  matching exprs (String c r) = None ->
  fill exprs (String c r) = String c (fill exprs r).
Proof. unfold fill. intros H. cbn [fill_scan]. now rewrite H. Qed.

(** A text in which no placeholder starts is left as it is. *)
Lemma fill_plain (exprs : list (string * string)) (s : string) :
  (forall i, starts_placeholder exprs (drop i s) = false) ->
  fill exprs s = s.
Proof.
  induction s as [|c s IH]; intros H; [reflexivity|].
  rewrite fill_miss.
  - f_equal. apply IH. intros i. exact (H (S i)).
  - specialize (H 0). unfold starts_placeholder in H. cbn [drop] in H.
    now destruct (matching exprs (String c s)).
Qed.

(** A placeholder alone is replaced by its value. *)
Lemma fill_placeholder (exprs : list (string * string))
      (e : string * string) :
  matching exprs (placeholder (fst e)) = Some e ->
  fill exprs (placeholder (fst e)) = snd e.
Proof.
  intros H. rewrite <- (append_nil_r (placeholder (fst e))) in H |- * at 1.
  rewrite fill_hit by exact H. apply append_nil_r.
Qed.

(** ** Dictionaries *)

Lemma dict_get_app {V : Type} (a b : dict V) (k : string) :
  dict_get (a ++ b)%list k =
  match dict_get a k with
  | Some v => Some v
  | None => dict_get b k
  end.
Proof.
  induction a as [|[k' v] a IH]; simpl; [reflexivity|].
  destruct (String.eqb k' k); [reflexivity | exact IH].
Qed.

Lemma dict_get_in {V : Type} (d : dict V) (k : string) (v : V) :
  dict_get d k = Some v -> In (k, v) d.
Proof.
  induction d as [|[k' v'] d IH]; simpl; [discriminate|].
  destruct (String.eqb_spec k' k) as [->|Hne].
  - intros [= ->]. now left.
  - intros H. right. now apply IH.
Qed.

Lemma dict_get_none {V : Type} (d : dict V) (k : string) :
  ~ In k (keys d) -> dict_get d k = None.
Proof.
  induction d as [|[k' v'] d IH]; simpl; [reflexivity|].
  intros H. destruct (String.eqb_spec k' k) as [->|Hne].
  - exfalso. apply H. now left.
  - apply IH. intros Hin. apply H. now right.
Qed.

Lemma dict_get_nodup {V : Type} (d : dict V) (k : string) (v : V) :
  NoDup (keys d) -> In (k, v) d -> dict_get d k = Some v.
Proof.
  induction d as [|[k' v'] d IH]; simpl; [contradiction|].
  intros Hnd [H|H].
  - injection H as -> ->. now rewrite String.eqb_refl.
  - inversion Hnd as [|? ? Hnotin Hnd']. subst.
    destruct (String.eqb_spec k' k) as [->|Hne].
    + exfalso. apply Hnotin. change (In (fst (k, v)) (map fst d)).
      now apply in_map.
    + now apply IH.
Qed.

(** ** One pass and eight passes agree *)

Arguments placeholder : simpl never.

Section Substitution.

Variable exprs : list (string * string).

Hypothesis keys_nodup : NoDup (keys exprs).
Hypothesis placeholders_distinct : distinct_placeholders exprs = true.
Hypothesis values_sealed :
  forall e, In e exprs -> sealed exprs (snd e) = true.
Hypothesis values_free : values_placeholder_free exprs = true.

Lemma placeholder_nonempty (n : string) : placeholder n <> "".
Proof. discriminate. Qed.

Lemma unique_match (e e' : string * string) (s : string) :
  In e exprs -> In e' exprs ->
  prefix (placeholder (fst e)) s = true ->
  prefix (placeholder (fst e')) s = true ->
  fst e = fst e'.
Proof.
  intros He He' Hp Hp'.
  unfold distinct_placeholders in placeholders_distinct.
  rewrite forallb_forall in placeholders_distinct.
  destruct (prefix_comparable _ _ _ Hp Hp') as [H|H].
  - pose proof (placeholders_distinct e He) as Hd.
    rewrite forallb_forall in Hd. specialize (Hd e' He').
    rewrite H in Hd. simpl in Hd. now apply String.eqb_eq.
  - pose proof (placeholders_distinct e' He') as Hd.
    rewrite forallb_forall in Hd. specialize (Hd e He).
    rewrite H in Hd. simpl in Hd. symmetry. now apply String.eqb_eq.
Qed.

Lemma matching_in (s : string) (e : string * string) :
  matching exprs s = Some e ->
  In e exprs /\ prefix (placeholder (fst e)) s = true.
Proof. intros H. now apply find_some in H. Qed.

Lemma matching_none (s : string) (e : string * string) :
  matching exprs s = None -> In e exprs ->
  prefix (placeholder (fst e)) s = false.
Proof. intros H He. exact (find_none _ _ H e He). Qed.

Lemma starts_placeholder_false (s : string) (e : string * string) :
  starts_placeholder exprs s = false -> In e exprs ->
  prefix (placeholder (fst e)) s = false.
Proof.
  unfold starts_placeholder. intros H He.
  destruct (matching exprs s) eqn:Hm; [discriminate|].
  now apply matching_none.
Qed.

(** Where the placeholder of [e] starts, [e] is the match. *)
Lemma matching_unique (s : string) (e : string * string) :
  In e exprs -> prefix (placeholder (fst e)) s = true ->
  matching exprs s = Some e.
Proof.
  intros He Hp. destruct (matching exprs s) as [e'|] eqn:Hm.
  - destruct (matching_in _ _ Hm) as [He' Hp'].
    pose proof (unique_match e e' s He He' Hp Hp') as Hfst.
    destruct e as [n v], e' as [n' v']. simpl in Hfst. subst n'.
    pose proof (dict_get_nodup exprs n v keys_nodup He) as H1.
    pose proof (dict_get_nodup exprs n v' keys_nodup He') as H2.
    congruence.
  - rewrite (matching_none _ _ Hm He) in Hp. discriminate.
Qed.

(** *** Characters of placeholders *)

Lemma placeholder_chars (e : string * string) :
  In e exprs -> only_placeholder_chars exprs (placeholder (fst e)).
Proof.
  intros He c Hc. unfold placeholder_char. apply existsb_exists.
  exists e. split; [exact He|]. apply existsb_exists.
  exists c. split; [exact Hc | apply Ascii.eqb_refl].
Qed.

Lemma only_placeholder_chars_tail (a : ascii) (q : string) :
  only_placeholder_chars exprs (String a q) -> only_placeholder_chars exprs q.
Proof. intros H c Hc. apply H. now right. Qed.

Lemma only_placeholder_chars_suffix (u q : string) :
  only_placeholder_chars exprs (u ++ q) -> only_placeholder_chars exprs q.
Proof.
  intros H c Hc. apply H. rewrite chars_append. apply in_or_app. now right.
Qed.

(** *** Lines as tokens *)

Lemma non_overlapping_drop (i : nat) (s : string) :
  non_overlapping exprs s = true -> non_overlapping exprs (drop i s) = true.
Proof.
  revert s. induction i as [|i IH]; intros s H; [exact H|].
  destruct s as [|c s]; [exact H|].
  cbn [non_overlapping] in H. apply andb_true_iff in H as [_ H].
  now apply IH.
Qed.

(** Every line without overlaps is the rendering of well-formed tokens. *)
Lemma tokens_exist (s : string) :
  non_overlapping exprs s = true ->
  exists ts, render [] ts = s /\ well_formed exprs ts.
Proof.
  remember (String.length s) as k eqn:Hk. revert s Hk.
  induction k as [k IH] using lt_wf_ind. intros s Hk Hno.
  destruct s as [|c s]; [now exists []|].
  destruct (matching exprs (String c s)) as [e|] eqn:Hm.
  - destruct (matching_in _ _ Hm) as [He Hp].
    destruct (prefix_inv _ _ Hp) as [r Hr].
    assert (Hr' : non_overlapping exprs r = true).
    { rewrite <- (drop_append (placeholder (fst e)) r), <- Hr.
      now apply non_overlapping_drop. }
    destruct (IH (String.length r)) with (s := r) as [ts [Hts Hwf]];
      [|reflexivity|exact Hr'|].
    { subst k. rewrite Hr, length_append. unfold placeholder. simpl. lia. }
    exists (Hole (fst e) :: ts). split.
    + cbn [render render_token dict_get]. now rewrite Hts, Hr.
    + cbn [well_formed]. split; [|split; [|exact Hwf]].
      * exists (snd e). now destruct e.
      * intros i Hi. rewrite Hts, <- Hr.
        cbn [non_overlapping] in Hno. rewrite Hm in Hno.
        apply andb_true_iff in Hno as [Hno _].
        rewrite forallb_forall in Hno.
        specialize (Hno i). rewrite negb_true_iff in Hno. apply Hno.
        apply in_seq. lia.
  - cbn [non_overlapping] in Hno. apply andb_true_iff in Hno as [_ Hno].
    destruct (IH (String.length s)) with (s := s) as [ts [Hts Hwf]];
      [subst k; simpl; lia|reflexivity|exact Hno|].
    exists (Txt c :: ts). split.
    + simpl. now rewrite Hts.
    + simpl. rewrite Hts. now split.
Qed.

Lemma render_all_hole (n v : string) (ts : list token) :
  In (n, v) exprs -> render exprs (Hole n :: ts) = v ++ render exprs ts.
Proof.
  intros He. cbn [render render_token].
  now rewrite (dict_get_nodup exprs n v keys_nodup He).
Qed.

(** The one-pass fill writes every hole by its value. *)
Lemma fill_render (ts : list token) :
  well_formed exprs ts -> fill exprs (render [] ts) = render exprs ts.
Proof.
  induction ts as [|[c|n] ts IH]; intros Hwf.
  - reflexivity.
  - destruct Hwf as [Hm Hwf]. cbn [render render_token append].
    rewrite fill_miss by exact Hm. now rewrite IH.
  - destruct Hwf as [[v He] [_ Hwf]].
    rewrite (render_all_hole n v ts He).
    cbn [render render_token dict_get].
    change (placeholder n) with (placeholder (fst (n, v))).
    rewrite fill_hit.
    + cbn [snd]. now rewrite IH.
    + apply matching_unique; [exact He|]. apply prefix_append.
Qed.

(** *** One replacement on a partly filled line *)

Lemma replace_placeholder (n v s : string) :
  PyStr.replace (placeholder n) v s =
  PyStr.replace_scan (placeholder n) v 0 s.
Proof. reflexivity. Qed.

Lemma sealed_first (w : string) :
  sealed exprs w = true ->
  exists a w', w = String a w' /\ placeholder_char exprs a = false.
Proof.
  unfold sealed. intros H. apply andb_true_iff in H as [H _].
  destruct w as [|a w']; [discriminate H|].
  exists a, w'. split; [reflexivity|]. now apply negb_true_iff.
Qed.

Lemma sealed_last (w : string) :
  sealed exprs w = true ->
  (exists c, last_char w = Some c /\ placeholder_char exprs c = false) \/
  PyStr.contains "!" w = false.
Proof.
  unfold sealed. intros H. apply andb_true_iff in H as [_ H].
  apply orb_true_iff in H as [H|H].
  - left. destruct (last_char w) as [c|]; [|discriminate H].
    exists c. split; [reflexivity|]. now apply negb_true_iff.
  - right. now apply negb_true_iff.
Qed.

(** A placeholder that starts in a partly filled line starts at the same
    place of the line as it was read: a value begins with a character
    that no placeholder has. *)
Lemma prefix_render_back (done : dict string) (ts : list token) :
  incl done exprs ->
  forall q, only_placeholder_chars exprs q ->
    prefix q (render done ts) = true -> prefix q (render [] ts) = true.
Proof.
  intros Hdone. induction ts as [|[c|n] ts IH]; intros q Hq H.
  - exact H.
  - cbn [render render_token append] in *.
    destruct q as [|b q]; [reflexivity|].
    rewrite prefix_cons in *. apply andb_true_iff in H as [-> H].
    simpl. apply IH; [|exact H].
    now apply only_placeholder_chars_tail in Hq.
  - cbn [render render_token dict_get] in *.
    destruct (dict_get done n) as [w|] eqn:Hd.
    + apply dict_get_in, Hdone, values_sealed in Hd. cbn [snd] in Hd.
      apply sealed_first in Hd. destruct Hd as [a [w' [-> Ha]]].
      destruct q as [|b q]; [apply prefix_nil|].
      simpl append in H. rewrite prefix_cons in H.
      apply andb_true_iff in H as [Hb _]. apply Ascii.eqb_eq in Hb.
      subst b. rewrite (Hq a) in Ha; [discriminate Ha | now left].
    + destruct (prefix_append_cases _ _ _ H) as [Hin | [q' [-> Hq']]].
      * now apply prefix_weaken.
      * apply prefix_append_same, IH; [|exact Hq'].
        now apply only_placeholder_chars_suffix in Hq.
Qed.

Lemma prefix_render_back_chunk (done : dict string) (ts : list token)
      (u q : string) :
  incl done exprs -> only_placeholder_chars exprs q ->
  prefix q (u ++ render done ts) = true ->
  prefix q (u ++ render [] ts) = true.
Proof.
  intros Hdone Hq H.
  destruct (prefix_append_cases _ _ _ H) as [Hin | [q' [-> Hq']]].
  - now apply prefix_weaken.
  - apply prefix_append_same, (prefix_render_back done); auto.
    now apply only_placeholder_chars_suffix in Hq.
Qed.

(** No placeholder starts inside a value, whatever follows it. *)
Lemma value_no_start (m w : string) (e : string * string) (i : nat)
      (x : string) :
  In (m, w) exprs -> In e exprs -> i < String.length w ->
  prefix (placeholder (fst e)) (drop i w ++ x) = false.
Proof.
  intros Hw He Hi.
  destruct (prefix (placeholder (fst e)) (drop i w ++ x)) eqn:H;
    [exfalso | reflexivity].
  destruct (prefix_append_cases _ _ _ H) as [Hin | [q' [Hq _]]].
  - apply contains_drop in Hin.
    unfold values_placeholder_free in values_free.
    rewrite forallb_forall in values_free.
    specialize (values_free _ Hw). unfold placeholder_free in values_free.
    rewrite forallb_forall in values_free.
    specialize (values_free _ He). cbn [snd] in values_free.
    rewrite Hin in values_free. discriminate values_free.
  - destruct (sealed_last w (values_sealed _ Hw)) as [[c [Hc Hfc]]|Hbang].
    + rewrite <- (last_char_drop i w Hi) in Hc.
      apply last_char_in in Hc.
      assert (Hin : In c (list_ascii_of_string (placeholder (fst e)))).
      { rewrite Hq, chars_append. apply in_or_app. now left. }
      rewrite (placeholder_chars e He c Hin) in Hfc. discriminate Hfc.
    + assert (Hb : prefix "!" (drop i w) = true).
      { destruct (drop i w) as [|a u] eqn:Hu.
        - apply (f_equal String.length) in Hu.
          rewrite length_drop in Hu. simpl in Hu. lia.
        - unfold placeholder in Hq. simpl in Hq. injection Hq as <- _.
          rewrite prefix_cons, Ascii.eqb_refl. apply prefix_nil. }
      apply contains_drop in Hb. congruence.
Qed.

Lemma replace_render (done : dict string) (e : string * string)
      (ts : list token) :
  incl done exprs -> In e exprs -> dict_get done (fst e) = None ->
  well_formed exprs ts ->
  PyStr.replace (placeholder (fst e)) (snd e) (render done ts) =
  render (done ++ [e])%list ts.
Proof.
  intros Hdone He Hfresh. rewrite replace_placeholder.
  induction ts as [|[c|m] ts IH]; intros Hwf.
  - reflexivity.
  - destruct Hwf as [Hm Hwf]. cbn [render render_token append].
    rewrite replace_scan_miss; [now rewrite IH|].
    destruct (prefix (placeholder (fst e)) (String c (render done ts)))
      eqn:H; [exfalso | reflexivity].
    apply (prefix_render_back_chunk done ts (String c "")) in H;
      [|exact Hdone | now apply placeholder_chars].
    cbn [append] in H. now rewrite (matching_none _ _ Hm He) in H.
  - destruct Hwf as [[v Hv] [Hsep Hwf]].
    cbn [render render_token]. rewrite dict_get_app.
    destruct (dict_get done m) as [w|] eqn:Hd.
    + rewrite replace_scan_chunk; [now rewrite IH|].
      intros i Hi. apply (value_no_start m); auto.
      now apply Hdone, dict_get_in.
    + destruct e as [n v']. cbn [dict_get fst snd] in *.
      destruct (String.eqb_spec n m) as [<-|Hne].
      * rewrite replace_scan_hit by apply placeholder_nonempty.
        now rewrite IH.
      * rewrite replace_scan_chunk; [now rewrite IH|].
        intros i Hi.
        destruct (prefix (placeholder n)
                         (drop i (placeholder m) ++ render done ts))
          eqn:H; [exfalso | reflexivity].
        apply prefix_render_back_chunk in H;
          [|exact Hdone | exact (placeholder_chars (n, v') He)].
        rewrite <- drop_append_le in H by lia.
        destruct i as [|i].
        -- apply Hne.
           apply (unique_match (n, v') (m, v) _ He Hv H), prefix_append.
        -- rewrite (starts_placeholder_false _ (n, v')) in H;
             [discriminate H | apply Hsep; lia | exact He].
Qed.

Lemma contains_hole (n : string) (ts : list token) :
  In (Hole n) ts -> PyStr.contains (placeholder n) (render [] ts) = true.
Proof.
  induction ts as [|t ts IH]; intros H; [contradiction|].
  destruct H as [->|H].
  - apply contains_prefix. cbn [render render_token dict_get].
    apply prefix_append.
  - cbn [render]. now apply contains_append_r, IH.
Qed.

Lemma render_without_hole (done : dict string) (e : string * string)
      (ts : list token) :
  ~ In (Hole (fst e)) ts -> render (done ++ [e])%list ts = render done ts.
Proof.
  induction ts as [|[c|m] ts IH]; intros H.
  - reflexivity.
  - cbn [render render_token]. rewrite IH; [reflexivity|].
    intros Hin. apply H. now right.
  - cbn [render render_token]. rewrite dict_get_app.
    rewrite IH by (intros Hin; apply H; now right).
    destruct (dict_get done m); [reflexivity|].
    destruct e as [n v]. cbn [dict_get fst] in *.
    destruct (String.eqb_spec n m) as [Heq|Hne].
    + exfalso. apply H. left. now rewrite Heq.
    + reflexivity.
Qed.

Lemma step_render (done : dict string) (e : string * string)
      (ts : list token) :
  incl done exprs -> In e exprs -> dict_get done (fst e) = None ->
  well_formed exprs ts ->
  step (render [] ts) (render done ts) e = render (done ++ [e])%list ts.
Proof.
  intros Hdone He Hfresh Hwf. unfold step.
  destruct (PyStr.contains (placeholder (fst e)) (render [] ts)) eqn:Hc.
  - now apply replace_render.
  - symmetry. apply render_without_hole. intros Hin.
    apply contains_hole in Hin. congruence.
Qed.

Lemma fold_render (ts : list token) (rest : list (string * string)) :
  well_formed exprs ts ->
  forall done, exprs = (done ++ rest)%list ->
    fold_left (step (render [] ts)) rest (render done ts) =
    render exprs ts.
Proof.
  intros Hwf. induction rest as [|e rest IH]; intros done Hsplit.
  - rewrite app_nil_r in Hsplit. now subst.
  - cbn [fold_left]. rewrite step_render; auto.
    + apply IH. now rewrite <- app_assoc.
    + intros x Hx. rewrite Hsplit. apply in_or_app. now left.
    + rewrite Hsplit. apply in_or_app. right. now left.
    + apply dict_get_none. intros Hin.
      pose proof keys_nodup as Hnd. rewrite Hsplit in Hnd.
      unfold keys in Hnd. rewrite map_app in Hnd. cbn [map] in Hnd.
      apply NoDup_remove_2 in Hnd. apply Hnd, in_or_app. now left.
Qed.

(** The loop of [prepare_notebook] on a line computes the one-pass fill
    of the line. *)
Theorem substitute_line_fill (li : string) :
  non_overlapping exprs li = true ->
  substitute_line exprs li = fill exprs li.
Proof.
  intros Hno. destruct (tokens_exist li Hno) as [ts [<- Hwf]].
  rewrite (fill_render ts Hwf).
  exact (fold_render ts exprs Hwf [] eq_refl).
Qed.

End Substitution.

(** ** The rendered values *)

Lemma string_of_uint_chars (d : Decimal.uint) (c : ascii) :
  In c (list_ascii_of_string (NilEmpty.string_of_uint d)) ->
  decimal_char c = true.
Proof.
  induction d; simpl; intros H;
    try contradiction; destruct H as [<-|H]; auto.
Qed.

Lemma of_int_chars (n : Z) (c : ascii) :
  In c (list_ascii_of_string (PyStr.of_int n)) -> decimal_char c = true.
Proof.
  unfold PyStr.of_int, NilZero.string_of_int, NilZero.string_of_uint.
  destruct (Z.to_int n) as [d|d].
  - destruct d; try apply string_of_uint_chars.
    simpl. intros [<-|[]]. reflexivity.
  - intros [<-|H]; [reflexivity|].
    destruct d; try (revert H; apply string_of_uint_chars).
    simpl in H. destruct H as [<-|[]]. reflexivity.
Qed.

Lemma of_int_nonempty (n : Z) : PyStr.of_int n <> "".
Proof.
  unfold PyStr.of_int, NilZero.string_of_int, NilZero.string_of_uint.
  destruct (Z.to_int n) as [d|d]; [destruct d|]; discriminate.
Qed.

Lemma first_char_in (s : string) :
  s <> "" -> exists c, first_char s = Some c /\ In c (list_ascii_of_string s).
Proof.
  destruct s as [|c s]; [congruence|]. intros _. exists c. split; [reflexivity | now left].
Qed.

Lemma last_char_some (s : string) :
  s <> "" -> exists c, last_char s = Some c.
Proof.
  induction s as [|a s IH]; [congruence|]. intros _.
  destruct s as [|b s]; [now exists a|].
  destruct IH as [c Hc]; [discriminate|]. now exists c.
Qed.

Section Rendered.

Variable repr_str : string -> string.
Variables exp iteration : Z.
Variables branch git_user git_repo pipeline : string.
Variable output_dir : option string.
Variable dataset_files : option (list pyval).

Local Abbreviation exprs :=
  (expressions repr_str (PyInt exp) (PyInt iteration) branch git_user
               git_repo pipeline output_dir dataset_files).

Lemma expressions_keys : NoDup (keys exprs).
Proof.
  unfold keys. cbn [expressions map fst].
  repeat (constructor; [cbn [In]; intuition discriminate|]).
  constructor.
Qed.

Lemma expressions_distinct : distinct_placeholders exprs = true.
Proof. reflexivity. Qed.

Lemma decimal_foreign (c : ascii) :
  decimal_char c = true -> placeholder_char exprs c = false.
Proof.
  unfold decimal_char. intros H. apply existsb_exists in H as [d [Hd Hc]].
  apply Ascii.eqb_eq in Hc. subst d.
  cbn [list_ascii_of_string In] in Hd.
  repeat (destruct Hd as [<-|Hd]; [reflexivity|]). contradiction.
Qed.

Lemma sealed_of_int (n : Z) : sealed exprs (PyStr.of_int n) = true.
Proof.
  unfold sealed.
  destruct (first_char_in _ (of_int_nonempty n)) as [a [Ha Hain]].
  destruct (last_char_some _ (of_int_nonempty n)) as [z Hz].
  rewrite Ha, Hz. cbn [foreign].
  rewrite (decimal_foreign a (of_int_chars n a Hain)).
  rewrite (decimal_foreign z (of_int_chars n z (last_char_in _ _ Hz))).
  reflexivity.
Qed.

(** A text between two characters that no placeholder has. *)
Lemma sealed_between (a z : ascii) (s : string) :
  placeholder_char exprs a = false -> placeholder_char exprs z = false ->
  sealed exprs (String a (s ++ String z "")) = true.
Proof.
  intros Ha Hz. unfold sealed. cbn [first_char foreign]. rewrite Ha.
  change (String a (s ++ String z "")) with
    ((String a s) ++ String z "").
  rewrite last_char_append. cbn [foreign]. now rewrite Hz.
Qed.

Lemma sealed_quoted (s : string) : sealed exprs (quoted s) = true.
Proof. now apply (sealed_between "'" "'"). Qed.

Lemma sealed_list (xs : list pyval) :
  sealed exprs (format repr_str (PyList xs)) = true.
Proof. now apply (sealed_between "[" "]"). Qed.

Lemma expressions_sealed (e : string * string) :
  In e exprs -> sealed exprs (snd e) = true.
Proof.
  cbn [expressions In].
  intros [<-|[<-|[<-|[<-|[<-|[<-|[<-|[<-|[]]]]]]]]]; cbn [snd format repr].
  - apply sealed_of_int.
  - apply sealed_of_int.
  - apply sealed_quoted.
  - apply sealed_quoted.
  - apply sealed_quoted.
  - apply sealed_quoted.
  - destruct output_dir; [apply sealed_quoted | reflexivity].
  - destruct dataset_files; [apply sealed_list | reflexivity].
Qed.

(** With values free of placeholders, the loop on a line without
    overlapping placeholders is the one-pass fill. *)
Lemma expressions_line (li : string) :
  values_placeholder_free exprs = true ->
  non_overlapping exprs li = true ->
  substitute_line exprs li = fill exprs li.
Proof.
  intros Hfree. apply substitute_line_fill; auto.
  - apply expressions_keys.
  - apply expressions_sealed.
Qed.

Lemma expressions_lines (lines : list string) :
  values_placeholder_free exprs = true ->
  forallb (non_overlapping exprs) lines = true ->
  substitute exprs lines = fill_all exprs lines.
Proof.
  intros Hfree Hlines. unfold substitute, fill_all. f_equal.
  apply map_ext_in. intros li Hli. apply expressions_line; auto.
  rewrite forallb_forall in Hlines. now apply Hlines.
Qed.

End Rendered.

(** ** Running the script *)

Lemma bind_ok {A B : Type} (m : M A) (k : A -> M B) (tr0 tr : Trace) (b : B) :
  bind m k tr0 = (tr, Ok b) ->
  exists tr1 a, m tr0 = (tr1, Ok a) /\ k a tr1 = (tr, Ok b).
Proof.
  unfold bind. destruct (m tr0) as [tr1 [a|e]]; intros H.
  - now exists tr1, a.
  - discriminate H.
Qed.

Lemma bind_run {A B : Type} (m : M A) (k : A -> M B) (tr0 tr1 : Trace) (a : A) :
  m tr0 = (tr1, Ok a) -> bind m k tr0 = k a tr1.
Proof. unfold bind. now intros ->. Qed.

Lemma bind_raise {A B : Type} (m : M A) (k : A -> M B) (tr0 tr1 : Trace)
      (e : exn) :
  m tr0 = (tr1, Raise e) -> bind m k tr0 = (tr1, Raise e).
Proof. unfold bind. now intros ->. Qed.

Lemma lift_ok {A : Type} (r : result A) (tr0 tr : Trace) (a : A) :
  lift r tr0 = (tr, Ok a) -> tr = tr0 /\ r = Ok a.
Proof. unfold lift. now intros [= -> ->]. Qed.

Section Runs.

Variable env : Env.
Variable constants : Constants.
Variable kaggle_users : dict (dict string).
Variable get_parser : parser -> result parser.
Variable decode : list Byte.byte -> option string.
Variable repr_str : string -> string.

Lemma call_ok {R : Type} (op : Op R) (tr0 tr : Trace) (a : R) :
  call env op tr0 = (tr, Ok a) ->
  tr = (tr0 ++ [Ev op (Ok a)])%list /\ env tr0 R op = Ok a.
Proof. unfold call. intros [= <- H]. now rewrite H. Qed.

Lemma call_unit (op : Op unit) (tr0 tr : Trace) (u : unit) :
  call env op tr0 = (tr, Ok u) ->
  tr = (tr0 ++ [Ev op (Ok tt)])%list.
Proof. intros H. apply call_ok in H as [-> _]. now destruct u. Qed.

Lemma prepare_notebook_ok (out : string) (exp iteration : pyval)
      (branch git_user git_repo pipeline tpl : string)
      (output_dir : option string) (dataset_files : option (list pyval))
      (tr0 tr : Trace) (u : unit) :
  prepare_notebook env repr_str out exp iteration branch (Some git_user)
    (Some git_repo) pipeline tpl output_dir dataset_files tr0 = (tr, Ok u) ->
  exists lines,
    tr = (tr0 ++
          [ Ev (OpenRead tpl) (Ok tt);
            Ev (Readlines tpl) (Ok lines);
            Ev (OpenWrite out) (Ok tt);
            Ev (FileWrite out
                  (substitute
                     (expressions repr_str exp iteration branch git_user
                        git_repo pipeline output_dir dataset_files) lines))
               (Ok tt) ])%list.
Proof.
  unfold prepare_notebook. intros H.
  apply bind_ok in H as (tr1 & u1 & H1 & H).
  apply bind_ok in H as (tr2 & lines & H2 & H).
  apply bind_ok in H as (tr3 & u3 & H3 & H).
  apply call_unit in H1, H3, H. apply call_ok in H2 as [H2 _].
  subst. exists lines. now rewrite <- !app_assoc.
Qed.

(** *** The runs that return *)

Lemma launch_notebook_ok (args : Args) (tr0 tr : Trace) (u : unit) :
  download args = false ->
  launch env constants kaggle_users repr_str args tr0 = (tr, Ok u) ->
  exists pipeline kaggle_user uname config lines,
    pipeline_of args = Some pipeline /\
    lookup_user kaggle_users (user args) = Ok kaggle_user /\
    subscript kaggle_user "username" = Ok uname /\
    define_config constants args kaggle_user (exp_str_of args)
                  (notebook_id args) = Ok config /\
    tr = (tr0 ++
          [ Ev (LoadConfig kaggle_user) (Ok tt);
            Ev (Makedirs (kernel_path_of uname args)) (Ok tt);
            Ev (OpenRead (default_template_nb_path constants)) (Ok tt);
            Ev (Readlines (default_template_nb_path constants)) (Ok lines);
            Ev (OpenWrite (notebook_path_of uname args)) (Ok tt);
            Ev (FileWrite (notebook_path_of uname args)
                  (substitute
                     (expressions repr_str
                        (PyList (map PyInt (exp args)))
                        (PyList (map PyInt (iteration args)))
                        (branch args) (GIT_USER constants)
                        (GIT_REPO constants) pipeline
                        (Some (OUTPUT_FOLDER constants)) None)
                     lines))
               (Ok tt);
            Ev (PathExists (notebook_path_of uname args)) (Ok true);
            Ev (OpenWrite (metadata_path_of uname args)) (Ok tt);
            Ev (JsonDump (metadata_path_of uname args) config 4) (Ok tt) ] ++
          (if push args
           then [Ev (KernelsPush (kernel_path_of uname args)) (Ok tt)]
           else []))%list.
Proof.
  intros Hdl H. unfold launch in H. cbv zeta in H. rewrite Hdl in H.
  apply bind_ok in H as (tr1 & pipeline & Hp & H).
  assert (Hpipe : pipeline_of args = Some pipeline /\ tr1 = tr0).
  { unfold pipeline_of.
    destruct (full args), (learning args), (testing args);
      inversion Hp; subst; auto. }
  destruct Hpipe as [Hpipe ->]. clear Hp.
  apply bind_ok in H as (tr1 & ku & Hku & H). apply lift_ok in Hku as [-> Hku].
  apply bind_ok in H as (tr1 & uname & Hun & H). apply lift_ok in Hun as [-> Hun].
  apply bind_ok in H as (tr1 & u1 & H1 & H). apply call_unit in H1. subst tr1.
  apply bind_ok in H as (tr1 & u2 & H2 & H). apply call_unit in H2. subst tr1.
  apply bind_ok in H as (tr1 & config & Hc & H). apply lift_ok in Hc as [-> Hc].
  apply bind_ok in H as (tr1 & u3 & H3 & H).
  apply prepare_notebook_ok in H3 as [lines ->].
  apply bind_ok in H as (tr1 & ex & H4 & H). apply call_ok in H4 as [-> _].
  apply bind_ok in H as (tr1 & u5 & H5 & H).
  destruct ex; [|discriminate H5]. injection H5 as <- _.
  apply bind_ok in H as (tr1 & u6 & H6 & H). apply call_unit in H6. subst tr1.
  apply bind_ok in H as (tr1 & u7 & H7 & H). apply call_unit in H7. subst tr1.
  exists pipeline, ku, uname, config, lines.
  repeat split; auto.
  destruct (push args).
  - apply call_unit in H. subst tr. now rewrite <- !app_assoc.
  - injection H as <- _. now rewrite <- !app_assoc.
Qed.

Lemma launch_download_ok (args : Args) (tr0 tr : Trace) (u : unit) :
  download args = true ->
  launch env constants kaggle_users repr_str args tr0 = (tr, Ok u) ->
  exists pipeline kaggle_user uname,
    pipeline_of args = Some pipeline /\
    lookup_user kaggle_users (user args) = Ok kaggle_user /\
    subscript kaggle_user "username" = Ok uname /\
    tr = (tr0 ++
          [ Ev (LoadConfig kaggle_user) (Ok tt);
            Ev (Makedirs (tmp_dir_of args)) (Ok tt);
            Ev (KernelsOutput (uname ++ "/" ++ notebook_id args)%string
                              (tmp_dir_of args)) (Ok tt);
            Ev (SubprocessRun
                  ["tar"; "-xzf"; (tmp_dir_of args ++ "/output.tgz")%string;
                   OUTPUT_FOLDER constants]) (Ok tt);
            Ev (Rmtree (tmp_dir_of args)) (Ok tt) ])%list.
Proof.
  intros Hdl H. unfold launch in H. cbv zeta in H. rewrite Hdl in H.
  apply bind_ok in H as (tr1 & pipeline & Hp & H).
  assert (Hpipe : pipeline_of args = Some pipeline /\ tr1 = tr0).
  { unfold pipeline_of.
    destruct (full args), (learning args), (testing args);
      inversion Hp; subst; auto. }
  destruct Hpipe as [Hpipe ->]. clear Hp.
  apply bind_ok in H as (tr1 & ku & Hku & H). apply lift_ok in Hku as [-> Hku].
  apply bind_ok in H as (tr1 & uname & Hun & H). apply lift_ok in Hun as [-> Hun].
  apply bind_ok in H as (tr1 & u1 & H1 & H). apply call_unit in H1. subst tr1.
  apply bind_ok in H as (tr1 & u2 & H2 & H). apply call_unit in H2. subst tr1.
  apply bind_ok in H as (tr1 & uname' & Hun' & H).
  apply lift_ok in Hun' as [-> Hun']. assert (uname' = uname) by congruence.
  subst uname'.
  apply bind_ok in H as (tr1 & u3 & H3 & H). apply call_unit in H3. subst tr1.
  apply bind_ok in H as (tr1 & u4 & H4 & H). apply call_unit in H4. subst tr1.
  apply bind_ok in H as (tr1 & u5 & H5 & H). apply call_unit in H5. subst tr1.
  injection H as <- _.
  exists pipeline, ku, uname. repeat split; auto. now rewrite <- !app_assoc.
Qed.

(** *** Building the parser *)

Lemma git_branch_trace (tr0 : Trace) :
  exists git,
    fst (get_git_branch_name env decode tr0) =
    (tr0 ++ [Ev (CheckOutput git_branch_cmd) git])%list.
Proof.
  exists (env tr0 _ (CheckOutput git_branch_cmd)).
  unfold get_git_branch_name, try_except, bind, call, ret, raise.
  destruct (env tr0 _ (CheckOutput git_branch_cmd)) as [out|e].
  - now destruct (decode (strip out)).
  - now destruct (is_CalledProcessError e).
Qed.

Lemma init_parser_built (tr0 : Trace) :
  init_parser env constants kaggle_users decode None tr0 =
  match get_git_branch_name env decode tr0 with
  | (tr, Ok b) => (tr, Ok (built_parser constants kaggle_users b))
  | (tr, Raise e) => (tr, Raise e)
  end.
Proof.
  unfold init_parser. cbn -[get_git_branch_name].
  unfold bind at 1.
  now destruct (get_git_branch_name env decode tr0) as [tr [b|e]].
Qed.

Lemma cli_args_ok (argv : list string) (tr0 tr : Trace) (args : Args) :
  cli_args env constants kaggle_users get_parser decode argv tr0
  = (tr, Ok args) ->
  exists git b p,
    get_git_branch_name env decode tr0 =
      ((tr0 ++ [Ev (CheckOutput git_branch_cmd) git])%list, Ok b) /\
    get_parser (built_parser constants kaggle_users b) = Ok p /\
    tr = (tr0 ++ [ Ev (CheckOutput git_branch_cmd) git;
                   Ev (ParseArgs p argv) (Ok args) ])%list.
Proof.
  unfold cli_args. intros H.
  apply bind_ok in H as (tr1 & p0 & H0 & H).
  rewrite init_parser_built in H0.
  destruct (git_branch_trace tr0) as [git Hgit].
  destruct (get_git_branch_name env decode tr0) as [trg [b|e]];
    [|discriminate H0].
  injection H0 as <- <-. simpl in Hgit. subst trg.
  apply bind_ok in H as (tr1 & p & Hp & H). apply lift_ok in Hp as [-> Hp].
  apply call_ok in H as [-> _].
  exists git, b, p. repeat split; auto. now rewrite <- app_assoc.
Qed.

Lemma main_launch (argv : list string) (tr0 : Trace) (args : Args) :
  cli_args env constants kaggle_users get_parser decode argv [] =
    (tr0, Ok args) ->
  main env constants kaggle_users get_parser decode repr_str argv [] =
  launch env constants kaggle_users repr_str args tr0.
Proof. intros H. unfold main. now apply bind_run. Qed.

(** *** Exceptions propagate *)

Lemma sound_ret {A : Type} (a : A) : sound (ret a).
Proof.
  intros tr0. exists []. split; [now rewrite app_nil_r|]. intros ev e [].
Qed.

Lemma sound_raise {A : Type} (e : exn) : sound (@raise A e).
Proof.
  intros tr0. exists []. split; [now rewrite app_nil_r|]. intros ev e' [].
Qed.

Lemma sound_lift {A : Type} (r : result A) : sound (lift r).
Proof.
  intros tr0. exists []. split; [now rewrite app_nil_r|]. intros ev e' [].
Qed.

Lemma sound_assert (b : bool) (msg : string) : sound (assert b msg).
Proof. destruct b; [apply sound_ret | apply sound_raise]. Qed.

Lemma sound_call {R : Type} (op : Op R) : sound (call env op).
Proof.
  intros tr0. exists [Ev op (env tr0 R op)]. split; [reflexivity|].
  intros ev e [<-|[]] Hr _. cbn in *.
  destruct (env tr0 R op); [discriminate Hr | now injection Hr as ->].
Qed.

Lemma sound_bind {A B : Type} (m : M A) (k : A -> M B) :
  sound m -> (forall a, sound (k a)) -> sound (bind m k).
Proof.
  intros Hm Hk tr0. destruct (Hm tr0) as [n1 [E1 P1]]. unfold bind.
  destruct (m tr0) as [tr1 [a|e]]; cbn [fst snd] in *; subst tr1.
  - destruct (Hk a (tr0 ++ n1)%list) as [n2 [E2 P2]].
    exists (n1 ++ n2)%list. split; [now rewrite E2, app_assoc|].
    intros ev e Hin Hr Hh. apply in_app_or in Hin as [Hin|Hin].
    + discriminate (P1 ev e Hin Hr Hh).
    + exact (P2 ev e Hin Hr Hh).
  - exists n1. split; [reflexivity|]. intros ev e' Hin Hr Hh.
    specialize (P1 ev e' Hin Hr Hh). now injection P1 as ->.
Qed.

Lemma sound_git_branch_name : sound (get_git_branch_name env decode).
Proof.
  intros tr0. exists [Ev (CheckOutput git_branch_cmd)
                         (env tr0 _ (CheckOutput git_branch_cmd))].
  unfold get_git_branch_name, try_except, bind, call, ret, raise.
  destruct (env tr0 _ (CheckOutput git_branch_cmd)) as [out|e].
  - destruct (decode (strip out)); (split; [reflexivity|]);
      intros ev e' [<-|[]] Hr _; discriminate Hr.
  - destruct (is_CalledProcessError e) eqn:He; (split; [reflexivity|]);
      intros ev e' [<-|[]] Hr Hh; cbn in *.
    + congruence.
    + now injection Hr as ->.
Qed.

Ltac prove_sound :=
  repeat first
    [ apply sound_ret | apply sound_raise | apply sound_lift
    | apply sound_assert | apply sound_call | apply sound_git_branch_name
    | apply sound_bind; [|intros]
    | match goal with
      | |- sound (if ?b then _ else _) => destruct b
      | |- sound (match ?x with _ => _ end) => destruct x
      end ].

Lemma sound_init_parser (p : option parser) :
  sound (init_parser env constants kaggle_users decode p).
Proof. unfold init_parser. prove_sound. Qed.

Lemma sound_prepare_notebook (out : string) (exp iteration : pyval)
      (branch : string) (git_user git_repo : option string)
      (pipeline tpl : string) (output_dir : option string)
      (dataset_files : option (list pyval)) :
  sound (prepare_notebook env repr_str out exp iteration branch git_user
           git_repo pipeline tpl output_dir dataset_files).
Proof. unfold prepare_notebook. prove_sound. Qed.

Lemma sound_cli_args (argv : list string) :
  sound (cli_args env constants kaggle_users get_parser decode argv).
Proof.
  unfold cli_args. apply sound_bind; [apply sound_init_parser|].
  intros p. prove_sound.
Qed.

Lemma sound_launch (args : Args) :
  sound (launch env constants kaggle_users repr_str args).
Proof.
  unfold launch. cbv zeta.
  repeat first
    [ apply sound_prepare_notebook
    | apply sound_ret | apply sound_raise | apply sound_lift
    | apply sound_assert | apply sound_call
    | apply sound_bind; [|intros]
    | match goal with
      | |- sound (if ?b then _ else _) => destruct b
      end ].
Qed.

Lemma sound_main (argv : list string) :
  sound (main env constants kaggle_users get_parser decode repr_str argv).
Proof.
  unfold main. apply sound_bind; [apply sound_cli_args|].
  intros args. apply sound_launch.
Qed.

(** *** What kind of events a run has *)

Lemma only_ret {A : Type} (Q : Event -> Prop) (a : A) : only Q (ret a).
Proof. intros tr0. exists []. split; [now rewrite app_nil_r | constructor]. Qed.

Lemma only_raise {A : Type} (Q : Event -> Prop) (e : exn) :
  only Q (@raise A e).
Proof. intros tr0. exists []. split; [now rewrite app_nil_r | constructor]. Qed.

Lemma only_lift {A : Type} (Q : Event -> Prop) (r : result A) :
  only Q (lift r).
Proof. intros tr0. exists []. split; [now rewrite app_nil_r | constructor]. Qed.

Lemma only_assert (Q : Event -> Prop) (b : bool) (msg : string) :
  only Q (assert b msg).
Proof. destruct b; [apply only_ret | apply only_raise]. Qed.

Lemma only_call {R : Type} (Q : Event -> Prop) (op : Op R) :
  (forall r, Q (Ev op r)) -> only Q (call env op).
Proof.
  intros H tr0. exists [Ev op (env tr0 R op)]. split; [reflexivity|].
  constructor; [apply H | constructor].
Qed.

Lemma only_bind {A B : Type} (Q : Event -> Prop) (m : M A) (k : A -> M B) :
  only Q m -> (forall a, only Q (k a)) -> only Q (bind m k).
Proof.
  intros Hm Hk tr0. destruct (Hm tr0) as [n1 [E1 P1]]. unfold bind.
  destruct (m tr0) as [tr1 [a|e]]; cbn [fst snd] in *; subst tr1.
  - destruct (Hk a (tr0 ++ n1)%list) as [n2 [E2 P2]].
    exists (n1 ++ n2)%list. split; [now rewrite E2, app_assoc|].
    apply Forall_app. now split.
  - now exists n1.
Qed.

Ltac prove_only :=
  repeat first
    [ apply only_ret | apply only_raise | apply only_lift
    | apply only_assert
    | apply only_call; intros ?; cbn; now auto
    | apply only_bind; [|intros]
    | match goal with
      | |- only _ (if ?b then _ else _) => destruct b eqn:?
      end ].

(** With the download flag no file is opened for writing or written and
    nothing is pushed. *)
Lemma only_launch_download (args : Args) :
  download args = true ->
  only (fun ev => writes_file ev = false /\ is_push ev = false)
       (launch env constants kaggle_users repr_str args).
Proof.
  intros Hdl. unfold launch. cbv zeta. rewrite Hdl. prove_only.
Qed.

(** A push happens under the push flag and without the download flag. *)
Lemma only_launch_push (args : Args) :
  only (fun ev => is_push ev = true ->
                  push args = true /\ download args = false)
       (launch env constants kaggle_users repr_str args).
Proof.
  unfold launch, prepare_notebook. cbv zeta.
  destruct (download args) eqn:Hdl, (push args) eqn:Hpush; prove_only;
    apply only_call; intros r; cbn; intros H; auto; discriminate H.
Qed.

(** [launch] does not parse again. *)
Lemma launch_never_parses (args : Args) :
  only (fun ev => parsed ev = None)
       (launch env constants kaggle_users repr_str args).
Proof.
  unfold launch, prepare_notebook. cbv zeta. prove_only.
Qed.

Lemma count_app (f : Event -> bool) (a b : Trace) :
  count f (a ++ b)%list = count f a + count f b.
Proof. unfold count. now rewrite filter_app, length_app. Qed.

End Runs.

Lemma append_inv_head (a b c : string) : a ++ b = a ++ c -> b = c.
Proof. induction a as [|x a IH]; simpl; [auto | intros [= H]; auto]. Qed.

Lemma notebook_not_metadata (uname : string) (args : Args) :
  String.eqb (metadata_path_of uname args) (notebook_path_of uname args)
  = false.
Proof.
  apply String.eqb_neq. unfold metadata_path_of, notebook_path_of.
  rewrite !append_assoc. intros H. apply append_inv_head in H.
  injection H as H. apply (f_equal last_char) in H.
  change ".ipynb" with (".ipyn" ++ String "b" "") in H.
  rewrite <- append_assoc, last_char_append in H. discriminate H.
Qed.

(** ** The statements of the specification *)

Section Statements.

Variable env : Env.
Variable constants : Constants.
Variable kaggle_users : dict (dict string).
Variable get_parser : parser -> result parser.
Variable decode : list Byte.byte -> option string.
Variable repr_str : string -> string.

(** C1 (as amended).  When the template is read as [lines] and the files can
  be opened and written, [prepare_notebook] returns after a single write
  to [output_nb_path]; with [exp] and [iteration] integers, rendered
  values that contain no placeholder and lines in which no two
  placeholders overlap, the text written is the concatenation of the lines
  with every placeholder replaced by its rendered value (bare decimal text
  for [exp] and [iteration], single quotes around [branch], [git_user],
  [git_repo] and [pipeline], the text None for an [output_dir] or
  [dataset_files] that is [None]) and every other character kept. *)
Theorem prepare_notebook_fills_template
(output_nb_path : string) (exp iteration : Z)
(branch git_user git_repo pipeline template_nb_path : string)
(output_dir : option string) (dataset_files : option (list pyval))
(lines : list string) (tr0 : Trace) :
let exprs :=
  expressions repr_str (PyInt exp) (PyInt iteration) branch git_user
              git_repo pipeline output_dir dataset_files in
let tr1 := (tr0 ++ [Ev (OpenRead template_nb_path) (Ok tt)])%list in
let tr2 := (tr1 ++ [Ev (Readlines template_nb_path) (Ok lines)])%list in
let tr3 := (tr2 ++ [Ev (OpenWrite output_nb_path) (Ok tt)])%list in
env tr0 _ (OpenRead template_nb_path) = Ok tt ->
env tr1 _ (Readlines template_nb_path) = Ok lines ->
env tr2 _ (OpenWrite output_nb_path) = Ok tt ->
env tr3 _ (FileWrite output_nb_path (fill_all exprs lines)) = Ok tt ->
values_placeholder_free exprs = true ->
forallb (non_overlapping exprs) lines = true ->
prepare_notebook env repr_str output_nb_path (PyInt exp) (PyInt iteration)
  branch (Some git_user) (Some git_repo) pipeline template_nb_path
  output_dir dataset_files tr0
= ((tr3 ++ [Ev (FileWrite output_nb_path (fill_all exprs lines)) (Ok tt)])%list,
   Ok tt)
/\ exprs =
   [ ("exp", PyStr.of_int exp);
     ("iteration", PyStr.of_int iteration);
     ("branch", "'" ++ branch ++ "'");
     ("git_user", "'" ++ git_user ++ "'");
     ("git_repo", "'" ++ git_repo ++ "'");
     ("pipeline", "'" ++ pipeline ++ "'");
     ("output_dir",
       match output_dir with
       | None => "None"
       | Some d => "'" ++ d ++ "'"
       end);
     ("dataset_files",
       match dataset_files with
       | None => "None"
       | Some files => format repr_str (PyList files)
       end) ].
Proof.
intros exprs tr1 tr2 tr3 H1 H2 H3 H4 Hfree Hlines.
split; [|reflexivity].
pose proof (expressions_lines repr_str exp iteration branch git_user
              git_repo pipeline output_dir dataset_files lines Hfree Hlines)
  as Heq.
fold exprs in Heq.
unfold prepare_notebook, bind, call. cbv zeta.
rewrite H1. fold tr1. rewrite H2. fold tr2. rewrite H3. fold tr3.
fold exprs. rewrite Heq, H4. reflexivity.
Qed.

(** C2.  With a credentials dictionary that has a username,
  [define_config] returns a dictionary whose id is the username, a slash
  and [exp_str], whose title is the notebook id in lower case, whose code
  file is the notebook id with the suffix .ipynb, whose enable_gpu is
  "true" exactly when the cpu flag is off, whose three pipeline fields
  are "true" exactly when their flag is set, and whose is_private and
  enable_internet are "true" and enable_tpu "false". *)
Theorem define_config_fields
(args : Args) (kaggle_user : dict string) (exp_str notebook_id : string)
(username : string) :
dict_get kaggle_user "username" = Some username ->
exists config gpu fullp learningp testingp,
  define_config constants args kaggle_user exp_str notebook_id = Ok config /\
  dict_get config "id" = Some (JStr (username ++ "/" ++ exp_str)) /\
  dict_get config "title" = Some (JStr (PyStr.lower notebook_id)) /\
  dict_get config "code_file" = Some (JStr (notebook_id ++ ".ipynb")) /\
  dict_get config "enable_gpu" = Some (JStr gpu) /\
  (gpu = "true" <-> cpu args = false) /\
  dict_get config "full_pipeline" = Some (JStr fullp) /\
  (fullp = "true" <-> full args = true) /\
  dict_get config "learning_pipeline" = Some (JStr learningp) /\
  (learningp = "true" <-> learning args = true) /\
  dict_get config "testing_pipeline" = Some (JStr testingp) /\
  (testingp = "true" <-> testing args = true) /\
  dict_get config "is_private" = Some (JStr "true") /\
  dict_get config "enable_internet" = Some (JStr "true") /\
  dict_get config "enable_tpu" = Some (JStr "false").
Proof.
intros Hu. unfold define_config, subscript. rewrite Hu.
eexists. exists (if negb (cpu args) then "true" else "false").
exists (if full args then "true" else "false").
exists (if learning args then "true" else "false").
exists (if testing args then "true" else "false").
repeat split; try reflexivity;
  destruct (cpu args), (full args), (learning args), (testing args);
  cbn; congruence.
Qed.

Ltac unfold_launch H :=
  cbv beta iota zeta
      delta [launch prepare_notebook bind call lift ret raise assert] in H.

(** One case for every answer of the environment and every test of
    [launch]. *)
Ltac launch_cases H :=
  unfold_launch H;
  repeat
    (match type of H with
     | context [env ?t ?R ?o] =>
         let E := fresh "E" in destruct (env t R o) eqn:E
     | context [lookup_user ?u ?x] =>
         let E := fresh "E" in destruct (lookup_user u x) eqn:E
     | context [subscript ?u ?x] =>
         let E := fresh "E" in destruct (subscript u x) eqn:E
     | context [define_config ?a ?b ?c ?d ?e] =>
         let E := fresh "E" in destruct (define_config a b c d e) eqn:E
     | context [if ?b then _ else _] =>
         let E := fresh "E" in destruct b eqn:E
     end; unfold_launch H);
  repeat match goal with u : unit |- _ => destruct u end;
  injection H as <- <-.

(** The exception of the last event is one that an operation raised and
    no handler took. *)
Ltac last_event :=
  match goal with
  | E : env _ _ ?o = Raise ?e |- _ =>
      left; exists (Ev o (Raise e));
      split; [rewrite ?in_app_iff; cbn [In]; auto 20 | split; reflexivity]
  end.

Lemma define_config_raises (args : Args) (ku : dict string)
      (exp_str nid : string) (e : exn) :
  define_config constants args ku exp_str nid = Raise e ->
  subscript ku "username" = Raise e.
Proof.
  unfold define_config.
  destruct (subscript ku "username"); intros H;
    [discriminate H | now injection H as ->].
Qed.

(** What [launch] does with the exceptions raised in it. *)
Lemma launch_exceptions (git : result (list byte)) (p : parser)
      (argv : list string) (args : Args) (tr : Trace) (r : result unit) :
  launch env constants kaggle_users repr_str args
         [ Ev (CheckOutput git_branch_cmd) git;
           Ev (ParseArgs p argv) (Ok args) ] = (tr, r) ->
  ((pipeline_of args = None -> r = Raise NotImplementedError) /\
   (forall pl e, pipeline_of args = Some pl ->
                 lookup_user kaggle_users (user args) = Raise e ->
                 r = Raise e) /\
   (forall pl ku e, pipeline_of args = Some pl ->
                    lookup_user kaggle_users (user args) = Ok ku ->
                    subscript ku "username" = Raise e ->
                    r = Raise e) /\
   (existsb not_found tr = true -> r = Raise (AssertionError ""))) /\
  (forall e, r = Raise e ->
     (exists ev, In ev tr /\ raised ev = Some e /\ handled ev = false) \/
     (e = NotImplementedError /\ pipeline_of args = None) \/
     lookup_user kaggle_users (user args) = Raise e \/
     (exists ku, lookup_user kaggle_users (user args) = Ok ku /\
                 subscript ku "username" = Raise e) \/
     (e = AssertionError "" /\ existsb not_found tr = true)).
Proof.
  intros H. unfold pipeline_of. launch_cases H.
  all: try (match goal with
            | E : define_config _ _ _ _ _ = Raise _ |- _ =>
                apply define_config_raises in E; congruence
            end).
  all: split; [repeat split|].
  all: try (intros; discriminate).
  all: try (intros; congruence).
  all: try (intros ? He; injection He as <-).
  all: try last_event.
  all: try (right; left; split; reflexivity).
  all: try (right; right; left; reflexivity).
  all: try (right; right; right; left; eexists; split;
            [reflexivity | eassumption]).
  all: try (right; right; right; right; split; reflexivity).
Qed.

Lemma git_undecodable (tr0 : Trace) (out : list byte) :
  env tr0 _ (CheckOutput git_branch_cmd) = Ok out ->
  decode (strip out) = None ->
  snd (get_git_branch_name env decode tr0) = Raise UnicodeDecodeError.
Proof.
  intros Ho Hd.
  unfold get_git_branch_name, try_except, bind, call, raise.
  rewrite Ho, Hd. reflexivity.
Qed.

(** What the first three lines of [main] do with the exceptions raised in
    them. *)
Lemma cli_exceptions (argv : list string) (tr0 : Trace) (e : exn) :
  cli_args env constants kaggle_users get_parser decode argv [] =
    (tr0, Raise e) ->
  (forall out, env [] _ (CheckOutput git_branch_cmd) = Ok out ->
               decode (strip out) = None -> e = UnicodeDecodeError) /\
  (forall tr1 b e',
     get_git_branch_name env decode [] = (tr1, Ok b) ->
     get_parser (built_parser constants kaggle_users b) = Raise e' ->
     e = e') /\
  ((exists ev, In ev tr0 /\ raised ev = Some e /\ handled ev = false) \/
   (e = UnicodeDecodeError /\
    exists out, env [] _ (CheckOutput git_branch_cmd) = Ok out /\
                decode (strip out) = None) \/
   (exists p, get_parser p = Raise e)).
Proof.
  unfold cli_args. unfold bind at 1 2. rewrite init_parser_built.
  unfold get_git_branch_name, try_except, bind, call, lift, ret, raise.
  destruct (env [] _ (CheckOutput git_branch_cmd)) as [out|eg] eqn:Eg.
  - destruct (decode (strip out)) as [b|] eqn:Ed.
    + destruct (get_parser (built_parser constants kaggle_users b))
        as [p|ep] eqn:Ep.
      * destruct (env _ _ (ParseArgs p argv)) as [args|ea] eqn:Ea;
          intros H; [discriminate H|]. injection H as <- <-.
        repeat split.
        -- intros out' Ho. injection Ho as <-. congruence.
        -- intros tr1 b' e' Hb. injection Hb as _ <-. congruence.
        -- left. exists (Ev (ParseArgs p argv) (Raise ea)).
           cbn. auto.
      * intros H. injection H as <- <-. repeat split.
        -- intros out' Ho. injection Ho as <-. congruence.
        -- intros tr1 b' e' Hb. injection Hb as _ <-. congruence.
        -- right. right. now exists (built_parser constants kaggle_users b).
    + intros H. injection H as <- <-. repeat split.
      * intros tr1 b e' Hb. discriminate Hb.
      * right. left. split; [reflexivity|]. now exists out.
  - destruct (is_CalledProcessError eg) eqn:Ec.
    + destruct (get_parser (built_parser constants kaggle_users sentinel))
        as [p|ep] eqn:Ep.
      * destruct (env _ _ (ParseArgs p argv)) as [args|ea] eqn:Ea;
          intros H; [discriminate H|]. injection H as <- <-.
        repeat split.
        -- intros out' Ho. discriminate Ho.
        -- intros tr1 b' e' Hb. injection Hb as _ <-. congruence.
        -- left. exists (Ev (ParseArgs p argv) (Raise ea)).
           cbn. auto.
      * intros H. injection H as <- <-. repeat split.
        -- intros out' Ho. discriminate Ho.
        -- intros tr1 b' e' Hb. injection Hb as _ <-. congruence.
        -- right. right.
           now exists (built_parser constants kaggle_users sentinel).
    + intros H. injection H as <- <-. repeat split.
      * intros out' Ho. discriminate Ho.
      * intros tr1 b e' Hb. discriminate Hb.
      * left. exists (Ev (CheckOutput git_branch_cmd) (Raise eg)).
        cbn. rewrite Ec. auto.
Qed.

(** C3.  In every run of [main], an exception that an operation answers
  with is the result of [main], unless it is a [CalledProcessError] of the
  [git] call in [get_git_branch_name], the only exception a handler takes.
  The exceptions raised without an operation go out of [main] as well:
  [UnicodeDecodeError] of the branch name, an exception of [get_parser],
  [NotImplementedError] of the pipeline dispatch, [KeyError] of the user
  lookup, of the username and of [define_config], and [AssertionError]
  for a notebook that is not found.  [main] raises nothing else: an
  exception that leaves it is one of these. *)
Theorem exceptions_leave_main (argv : list string) (tr : Trace)
      (r : result unit) :
main env constants kaggle_users get_parser decode repr_str argv [] = (tr, r) ->
(forall ev e,
   In ev tr -> raised ev = Some e -> handled ev = false -> r = Raise e) /\
(forall ev e,
   handled ev = true -> raised ev = Some e ->
   exists cmd, ev = Ev (CheckOutput cmd) (Raise e) /\
               is_CalledProcessError e = true) /\
(forall tr0 args,
   cli_args env constants kaggle_users get_parser decode argv [] = (tr0, Ok args) ->
   (pipeline_of args = None -> r = Raise NotImplementedError) /\
   (forall p e, pipeline_of args = Some p ->
                lookup_user kaggle_users (user args) = Raise e ->
                r = Raise e)) /\
(forall out,
   env [] _ (CheckOutput git_branch_cmd) = Ok out ->
   decode (strip out) = None -> r = Raise UnicodeDecodeError) /\
(forall tr1 b e,
   get_git_branch_name env decode [] = (tr1, Ok b) ->
   get_parser (built_parser constants kaggle_users b) = Raise e ->
   r = Raise e) /\
(forall tr0 args,
   cli_args env constants kaggle_users get_parser decode argv [] = (tr0, Ok args) ->
   (forall p kaggle_user e,
      pipeline_of args = Some p ->
      lookup_user kaggle_users (user args) = Ok kaggle_user ->
      subscript kaggle_user "username" = Raise e ->
      r = Raise e) /\
   (forall p kaggle_user e,
      pipeline_of args = Some p ->
      lookup_user kaggle_users (user args) = Ok kaggle_user ->
      define_config constants args kaggle_user (exp_str_of args)
                    (notebook_id args) = Raise e ->
      r = Raise e) /\
   (existsb not_found tr = true -> r = Raise (AssertionError ""))) /\
(forall e,
   r = Raise e ->
   (exists ev, In ev tr /\ raised ev = Some e /\ handled ev = false) \/
   (e = UnicodeDecodeError /\
    exists out, env [] _ (CheckOutput git_branch_cmd) = Ok out /\
                decode (strip out) = None) \/
   (exists p, get_parser p = Raise e) \/
   (exists tr0 args,
      cli_args env constants kaggle_users get_parser decode argv [] =
        (tr0, Ok args) /\
      ((e = NotImplementedError /\ pipeline_of args = None) \/
       lookup_user kaggle_users (user args) = Raise e \/
       (exists kaggle_user,
          lookup_user kaggle_users (user args) = Ok kaggle_user /\
          subscript kaggle_user "username" = Raise e) \/
       (e = AssertionError "" /\ existsb not_found tr = true)))).
Proof.
intros Hrun. split; [|split].
- destruct (sound_main env constants kaggle_users get_parser decode
              repr_str argv []) as [new [Hfst Hprop]].
  rewrite Hrun in Hfst, Hprop. cbn in Hfst, Hprop. now subst.
- intros [R op [a|e0]] e Hh Hr; [discriminate Hh|].
  injection Hr as ->. destruct op; try discriminate Hh. eauto.
- destruct (cli_args env constants kaggle_users get_parser decode argv [])
    as [tr0 [args|e0]] eqn:Hcli.
  + rewrite (main_launch _ _ _ _ _ _ _ _ _ Hcli) in Hrun.
    destruct (cli_args_ok _ _ _ _ _ _ _ _ _ Hcli)
      as (git & b & p & Hgit & Hp & ->).
    cbn [app] in Hrun.
    destruct (launch_exceptions _ _ _ _ _ _ Hrun)
      as [(H1 & H2 & H3 & H4) H5].
    split; [|split; [|split; [|split]]].
    * intros tr0 args' H. injection H as _ <-. split; assumption.
    * intros out Ho Hd.
      pose proof (git_undecodable [] out Ho Hd) as Hu.
      rewrite Hgit in Hu. discriminate Hu.
    * intros tr1 b' e Hb. rewrite Hgit in Hb. injection Hb as _ <-.
      congruence.
    * intros tr0 args' H. injection H as _ <-.
      split; [exact H3|]. split; [|exact H4].
      intros pl ku e Hpl Hku Hd. apply (H3 pl ku e Hpl Hku).
      exact (define_config_raises _ _ _ _ _ Hd).
    * intros e He. destruct (H5 e He) as [H|H]; [now left|].
      right. right. right. eexists. exists args. split; [reflexivity|].
      exact H.
  + unfold main, bind in Hrun. rewrite Hcli in Hrun.
    injection Hrun as <- <-.
    destruct (cli_exceptions _ _ _ Hcli) as (H1 & H2 & H3).
    split; [|split; [|split; [|split]]].
    * intros tr1 args H. discriminate H.
    * intros out Ho Hd. now rewrite (H1 out Ho Hd).
    * intros tr1 b e Hb He. now rewrite (H2 tr1 b e Hb He).
    * intros tr1 args H. discriminate H.
    * intros e He. injection He as <-.
      destruct H3 as [H|[H|H]]; auto.
Qed.

(** C4.  A run of [main] that returns, without the download flag, is this
  sequence and nothing else: the branch name is asked for and [argv]
  parsed, the credentials are loaded and the kernel directory made, the
  template is read and the notebook written ([prepare_notebook]), the
  notebook is checked to exist, the kernel metadata is written, and the
  kernel is pushed when the push flag is set. *)
Theorem main_is_linear (argv : list string) (tr0 tr : Trace) (args : Args) :
cli_args env constants kaggle_users get_parser decode argv [] =
  (tr0, Ok args) ->
download args = false ->
main env constants kaggle_users get_parser decode repr_str argv [] =
  (tr, Ok tt) ->
exists git p pipeline kaggle_user uname config lines,
  pipeline_of args = Some pipeline /\
  lookup_user kaggle_users (user args) = Ok kaggle_user /\
  subscript kaggle_user "username" = Ok uname /\
  define_config constants args kaggle_user (exp_str_of args)
                (notebook_id args) = Ok config /\
  tr =
  ([ Ev (CheckOutput git_branch_cmd) git;
     Ev (ParseArgs p argv) (Ok args);
     Ev (LoadConfig kaggle_user) (Ok tt);
     Ev (Makedirs (kernel_path_of uname args)) (Ok tt);
     Ev (OpenRead (default_template_nb_path constants)) (Ok tt);
     Ev (Readlines (default_template_nb_path constants)) (Ok lines);
     Ev (OpenWrite (notebook_path_of uname args)) (Ok tt);
     Ev (FileWrite (notebook_path_of uname args)
           (substitute
              (expressions repr_str
                 (PyList (map PyInt (exp args)))
                 (PyList (map PyInt (iteration args)))
                 (branch args) (GIT_USER constants)
                 (GIT_REPO constants) pipeline
                 (Some (OUTPUT_FOLDER constants)) None)
              lines))
        (Ok tt);
     Ev (PathExists (notebook_path_of uname args)) (Ok true);
     Ev (OpenWrite (metadata_path_of uname args)) (Ok tt);
     Ev (JsonDump (metadata_path_of uname args) config 4) (Ok tt) ] ++
   (if push args
    then [Ev (KernelsPush (kernel_path_of uname args)) (Ok tt)]
    else []))%list.
Proof.
intros Hcli Hdl Hrun.
rewrite (main_launch _ _ _ _ _ _ _ _ _ Hcli) in Hrun.
apply cli_args_ok in Hcli as (git & b & p & _ & _ & ->).
destruct (launch_notebook_ok _ _ _ _ _ _ _ _ Hdl Hrun)
  as (pipeline & ku & uname & config & lines & H1 & H2 & H3 & H4 & ->).
exists git, p, pipeline, ku, uname, config, lines. repeat split; auto.
Qed.

(** C5 (as amended).  [init_parser], given no parser, asks for the branch
  name and returns the new parser with, after the help flag that every
  new parser has, exactly six arguments: -n/--notebook_id with the
  default [NOTEBOOK_ID], -u/--user with the keys of [kaggle_users] as
  choices, --branch with the branch name as default, and the toggles
  --cpu, -p/--push and -d/--download; so the flags of this parser are
  -h, --help and the ten flags of these six.  In every run of [main],
  [parse_args] is called with [argv] and with the parser that
  [get_parser] makes of this one, and with no other: the flags of the
  program are those of the parser of [get_parser]. *)
Theorem init_parser_flags (argv : list string) (tr0 : Trace) :
init_parser env constants kaggle_users decode None tr0 =
  match get_git_branch_name env decode tr0 with
  | (tr, Ok b) =>
      (tr,
       Ok (Parser "Train a model on Kaggle using a script" OnError
             [ help_argument;
               Argument ["-n"; "--notebook_id"] Store true
                        "Notebook name in kaggle"
                        (PyStr (NOTEBOOK_ID constants)) None;
               Argument ["-u"; "--user"] Store true "Kaggle user" PyNone
                        (Some (keys kaggle_users));
               Argument ["--branch"] Store true "Git branch name"
                        (PyStr b) None;
               Argument ["--cpu"] StoreTrue false "Force CPU"
                        (PyBool false) None;
               Argument ["-p"; "--push"] StoreTrue false "Push"
                        (PyBool false) None;
               Argument ["-d"; "--download"] StoreTrue false
                        "Download results" (PyBool false) None ]))
  | (tr, Raise e) => (tr, Raise e)
  end /\
(forall tr p,
   init_parser env constants kaggle_users decode None tr0 = (tr, Ok p) ->
   flags_of p = "-h" :: "--help" :: init_flags) /\
(forall tr r,
   main env constants kaggle_users get_parser decode repr_str argv [] =
     (tr, r) ->
   forall ev p argv',
     In ev tr -> parsed ev = Some (p, argv') ->
     argv' = argv /\
     exists tr1 b,
       get_git_branch_name env decode [] = (tr1, Ok b) /\
       get_parser (built_parser constants kaggle_users b) = Ok p).
Proof.
split; [|split].
- apply init_parser_built.
- intros tr p. rewrite init_parser_built.
  destruct (get_git_branch_name env decode tr0) as [t [b|e]];
    intros H; [|discriminate H].
  injection H as _ <-. reflexivity.
- intros tr r Hrun ev p argv' Hin Hp.
  unfold main in Hrun.
  assert (Hcli : forall tr1 x,
    cli_args env constants kaggle_users get_parser decode argv [] =
      (tr1, x) ->
    forall ev, In ev tr1 -> parsed ev = Some (p, argv') ->
    argv' = argv /\
    exists tr2 b,
      get_git_branch_name env decode [] = (tr2, Ok b) /\
      get_parser (built_parser constants kaggle_users b) = Ok p).
  { clear. intros tr1 x. unfold cli_args. unfold bind at 1 2.
    rewrite init_parser_built.
    destruct (git_branch_trace env decode []) as [git Hgit].
    destruct (get_git_branch_name env decode []) as [tg [b|e]] eqn:Eg;
      cbn [fst] in Hgit; subst tg.
    - unfold lift.
      destruct (get_parser (built_parser constants kaggle_users b))
        as [q|e] eqn:Eq.
      + unfold call. intros H. injection H as <- _.
        intros ev [<-|[<-|[]]] Hp; [discriminate Hp|].
        injection Hp as <- <-. split; [reflexivity|]. eauto.
      + intros H. injection H as <- _.
        intros ev [<-|[]] Hp. discriminate Hp.
    - intros H. injection H as <- _.
      intros ev [<-|[]] Hp. discriminate Hp. }
  unfold bind in Hrun.
  destruct (cli_args env constants kaggle_users get_parser decode argv [])
    as [tr1 [args|e]] eqn:Ecli.
  + destruct (launch_never_parses env constants kaggle_users repr_str args tr1) as [new [Hfst Hall]].
    rewrite Hrun in Hfst. cbn [fst] in Hfst. subst tr.
    apply in_app_or in Hin as [Hin|Hin].
    * exact (Hcli _ _ eq_refl ev Hin Hp).
    * rewrite Forall_forall in Hall. rewrite (Hall ev Hin) in Hp.
      discriminate Hp.
  + injection Hrun as <- _. exact (Hcli _ _ eq_refl ev Hin Hp).
Qed.

(** C6 (as amended).  In a run of [main] that has parsed its arguments:
  with the download flag, no file is opened for writing or written and
  nothing is pushed, and if the run returns it has made the temporary
  directory, fetched the kernel output into it, unpacked it and removed
  the directory, in this order; the push API is called only with the
  push flag and without the download flag, and in a run that returns it
  is called whenever the push flag is set and the download flag is
  not. *)
Theorem push_and_download_exclusive (argv : list string) (tr0 tr : Trace)
      (args : Args) (r : result unit) :
cli_args env constants kaggle_users get_parser decode argv [] =
  (tr0, Ok args) ->
main env constants kaggle_users get_parser decode repr_str argv [] = (tr, r) ->
(download args = true ->
 Forall (fun ev => writes_file ev = false /\ is_push ev = false) tr /\
 (r = Ok tt ->
  exists kaggle_user uname,
    lookup_user kaggle_users (user args) = Ok kaggle_user /\
    subscript kaggle_user "username" = Ok uname /\
    tr = (tr0 ++
          [ Ev (LoadConfig kaggle_user) (Ok tt);
            Ev (Makedirs (tmp_dir_of args)) (Ok tt);
            Ev (KernelsOutput (uname ++ "/" ++ notebook_id args)%string
                              (tmp_dir_of args)) (Ok tt);
            Ev (SubprocessRun
                  ["tar"; "-xzf"; (tmp_dir_of args ++ "/output.tgz")%string;
                   OUTPUT_FOLDER constants]) (Ok tt);
            Ev (Rmtree (tmp_dir_of args)) (Ok tt) ])%list)) /\
(existsb is_push tr = true -> push args = true /\ download args = false) /\
(r = Ok tt -> push args = true -> download args = false ->
 existsb is_push tr = true).
Proof.
intros Hcli Hrun.
rewrite (main_launch _ _ _ _ _ _ _ _ _ Hcli) in Hrun.
pose proof Hcli as Hcli'.
apply cli_args_ok in Hcli' as (git & b & p & _ & _ & Htr0).
cbn [app] in Htr0.
split; [|split].
- intros Hdl. split.
  + destruct (only_launch_download env constants kaggle_users repr_str
                args Hdl tr0) as [new [Hfst Hall]].
    rewrite Hrun in Hfst. cbn in Hfst. subst tr tr0.
    repeat constructor; auto.
  + intros ->.
    destruct (launch_download_ok _ _ _ _ _ _ _ _ Hdl Hrun)
      as (pl & ku & uname & _ & H1 & H2 & ->).
    now exists ku, uname.
- intros Hpush.
  destruct (only_launch_push env constants kaggle_users repr_str args tr0)
    as [new [Hfst Hall]].
  rewrite Hrun in Hfst. cbn in Hfst. subst tr tr0.
  apply existsb_exists in Hpush as [ev [Hin Hev]].
  destruct Hin as [<-|[<-|Hin]]; try discriminate Hev.
  rewrite Forall_forall in Hall. now apply (Hall ev).
- intros -> Hpush Hdl.
  destruct (launch_notebook_ok _ _ _ _ _ _ _ _ Hdl Hrun)
    as (pl & ku & uname & config & lines & _ & _ & _ & _ & ->).
  rewrite Hpush, !existsb_app. cbn. now rewrite !orb_true_r.
Qed.

(** C7 (as amended).  In a run of [main] without the download flag that
  returns, the notebook file is opened for writing once and written
  once, then the kernel metadata file is opened for writing once and
  written once; the two paths differ, and what follows the write of the
  notebook is the check that it exists, the write of the metadata and the
  push, none of which writes the notebook. *)
Theorem files_written_once (argv : list string) (tr0 tr : Trace)
      (args : Args) :
cli_args env constants kaggle_users get_parser decode argv [] =
  (tr0, Ok args) ->
download args = false ->
main env constants kaggle_users get_parser decode repr_str argv [] =
  (tr, Ok tt) ->
exists uname text config before after,
  let nb := notebook_path_of uname args in
  let meta := metadata_path_of uname args in
  nb <> meta /\
  tr = (before ++
        [ Ev (OpenWrite nb) (Ok tt); Ev (FileWrite nb text) (Ok tt) ] ++
        [ Ev (PathExists nb) (Ok true);
          Ev (OpenWrite meta) (Ok tt); Ev (JsonDump meta config 4) (Ok tt) ] ++
        after)%list /\
  Forall (fun ev => writes_file ev = false) before /\
  Forall (fun ev => writes_file ev = false) after /\
  count (opens_for_write nb) tr = 1 /\
  count (writes_text nb) tr = 1 /\
  count (dumps_json nb) tr = 0 /\
  count (opens_for_write meta) tr = 1 /\
  count (dumps_json meta) tr = 1 /\
  count (writes_text meta) tr = 0.
Proof.
intros Hcli Hdl Hrun.
rewrite (main_launch _ _ _ _ _ _ _ _ _ Hcli) in Hrun.
apply cli_args_ok in Hcli as (git & b & p & _ & _ & Htr0).
cbn [app] in Htr0.
destruct (launch_notebook_ok _ _ _ _ _ _ _ _ Hdl Hrun)
  as (pl & ku & uname & config & lines & _ & _ & _ & _ & ->).
subst tr0.
pose proof (notebook_not_metadata uname args) as Hne.
assert (Hne' : String.eqb (notebook_path_of uname args)
                          (metadata_path_of uname args) = false)
  by now rewrite String.eqb_sym.
eexists uname, _, config.
exists [ Ev (CheckOutput git_branch_cmd) git;
         Ev (ParseArgs p argv) (Ok args);
         Ev (LoadConfig ku) (Ok tt);
         Ev (Makedirs (kernel_path_of uname args)) (Ok tt);
         Ev (OpenRead (default_template_nb_path constants)) (Ok tt);
         Ev (Readlines (default_template_nb_path constants)) (Ok lines) ].
exists (if push args
        then [Ev (KernelsPush (kernel_path_of uname args)) (Ok tt)]
        else []).
cbv zeta. split; [|split; [|split; [|split]]].
- now apply String.eqb_neq.
- reflexivity.
- repeat constructor.
- destruct (push args); repeat constructor.
- unfold count. destruct (push args);
    cbn [app filter opens_for_write writes_text dumps_json];
    rewrite ?String.eqb_refl, ?Hne, ?Hne'; cbn; auto 10.
Qed.

(** C8.  When the [git] call answers with a [CalledProcessError],
  [get_git_branch_name] does not raise, it returns the sentinel text; the
  parser [init_parser] builds has this text as the default of --branch;
  and as the branch given to the substitution the text is put, in single
  quotes, where the template has the branch placeholder. *)
Theorem git_failure_gives_sentinel (tr0 : Trace) (e : exn) :
env tr0 _ (CheckOutput git_branch_cmd) = Raise e ->
is_CalledProcessError e = true ->
let text := "Error: Could not determine the Git branch name." in
let tr := (tr0 ++ [Ev (CheckOutput git_branch_cmd) (Raise e)])%list in
get_git_branch_name env decode tr0 = (tr, Ok text) /\
(exists p,
   init_parser env constants kaggle_users decode None tr0 = (tr, Ok p) /\
   In (Argument ["--branch"] Store true "Git branch name" (PyStr text) None)
      (arguments p)) /\
(forall exp iteration git_user git_repo pipeline output_dir dataset_files,
   substitute_line
     (expressions repr_str exp iteration text git_user git_repo pipeline
                  output_dir dataset_files)
     "branch = !!!branch!!!"
   = "branch = 'Error: Could not determine the Git branch name.'").
Proof.
intros He Hc text tr.
assert (Hg : get_git_branch_name env decode tr0 = (tr, Ok text)).
{ unfold get_git_branch_name, try_except, bind, call, ret.
  rewrite He, Hc. reflexivity. }
split; [exact Hg|]. split.
- exists (built_parser constants kaggle_users text). split.
  + rewrite init_parser_built, Hg. reflexivity.
  + cbn. auto.
- intros. reflexivity.
Qed.

(** C9.  When [argv] is parsed to arguments with none of the full, learning
  and testing flags, [main] raises [NotImplementedError] right after the
  parsing: the only operations of the run are the [git] call and
  [parse_args], no directory is made, no file opened or written, no call
  to the platform made. *)
Theorem no_pipeline_not_implemented (argv : list string) (tr0 : Trace)
      (args : Args) :
cli_args env constants kaggle_users get_parser decode argv [] =
  (tr0, Ok args) ->
full args = false -> learning args = false -> testing args = false ->
main env constants kaggle_users get_parser decode repr_str argv [] =
  (tr0, Raise NotImplementedError) /\
(exists git p,
   tr0 = [ Ev (CheckOutput git_branch_cmd) git;
           Ev (ParseArgs p argv) (Ok args) ]) /\
forallb (fun ev => negb (changes_world ev)) tr0 = true.
Proof.
intros Hcli Hf Hl Ht.
rewrite (main_launch _ _ _ _ _ _ _ _ _ Hcli).
apply cli_args_ok in Hcli as (git & b & p & _ & _ & ->).
split; [|split].
- unfold launch, bind, raise. cbv zeta. now rewrite Hf, Hl, Ht.
- now exists git, p.
- reflexivity.
Qed.

(** C10.  [prepare_notebook] with [git_user] or [git_repo] equal to [None]
  raises [AssertionError] and performs no operation: the trace is the one
  it was called with; so does the call that leaves both at their
  default. *)
Theorem prepare_notebook_requires_git
(output_nb_path : string) (exp iteration : pyval)
(branch pipeline template_nb_path : string)
(output_dir : option string) (dataset_files : option (list pyval))
(tr0 : Trace) :
(forall git_repo,
   prepare_notebook env repr_str output_nb_path exp iteration branch None
     git_repo pipeline template_nb_path output_dir dataset_files tr0
   = (tr0, Raise (AssertionError
                    "Please provide a git username for the repo"))) /\
(forall git_user,
   prepare_notebook env repr_str output_nb_path exp iteration branch
     (Some git_user) None pipeline template_nb_path output_dir
     dataset_files tr0
   = (tr0, Raise (AssertionError
                    "Please provide a git repo name for the repo"))) /\
prepare_notebook_defaults env constants repr_str output_nb_path exp
  iteration branch tr0
= (tr0, Raise (AssertionError "Please provide a git username for the repo")).
Proof. repeat split. Qed.

End Statements.

(** ** The statements on the sample world *)

Lemma prepare_notebook_fills_template_witness :
  prepare_notebook
    (sample_env sample_git (Ok sample_args) sample_template) sample_repr_str
    "out.ipynb" (PyInt 1) (PyInt 2) "main" (Some "u") (Some "r") "full"
    "template.ipynb" None None []
  = ([ Ev (OpenRead "template.ipynb") (Ok tt);
       Ev (Readlines "template.ipynb") (Ok sample_template);
       Ev (OpenWrite "out.ipynb") (Ok tt);
       Ev (FileWrite "out.ipynb" "a 1 b 'main'
x") (Ok tt) ], Ok tt).
Proof.
  apply (prepare_notebook_fills_template
           (sample_env sample_git (Ok sample_args) sample_template)
           sample_repr_str "out.ipynb" 1 2 "main" "u" "r" "full"
           "template.ipynb" None None sample_template []);
    vm_compute; reflexivity.
Defined.

(** C1 as it is stated fails where the branch name is itself a
    placeholder of the line: the value put for the branch is scanned again
    and the notebook does not have the rendered branch. *)
Lemma prepare_notebook_rescans_values :
  prepare_notebook
    (sample_env sample_git (Ok sample_args) ["!!!branch!!! !!!git_user!!!"])
    sample_repr_str "out.ipynb" (PyInt 1) (PyInt 2) "!!!git_user!!!"
    (Some "u") (Some "r") "full" "template.ipynb" None None []
  = ([ Ev (OpenRead "template.ipynb") (Ok tt);
       Ev (Readlines "template.ipynb") (Ok ["!!!branch!!! !!!git_user!!!"]);
       Ev (OpenWrite "out.ipynb") (Ok tt);
       Ev (FileWrite "out.ipynb" "''u'' 'u'") (Ok tt) ], Ok tt) /\
  fill_all
    (expressions sample_repr_str (PyInt 1) (PyInt 2) "!!!git_user!!!" "u" "r"
                 "full" None None)
    ["!!!branch!!! !!!git_user!!!"]
  = "'!!!git_user!!!' 'u'" /\
  "''u'' 'u'" <> "'!!!git_user!!!' 'u'".
Proof. repeat split; try (vm_compute; reflexivity). discriminate. Qed.

(** Where two placeholders overlap, the loop and the one-pass fill differ
    as well. *)
Example overlapping_placeholders :
  let exprs := expressions sample_repr_str (PyInt 1) (PyInt 2) "main" "u" "r"
                           "full" None None in
  non_overlapping exprs "!!!iteration!!!exp!!!" = false /\
  substitute_line exprs "!!!iteration!!!exp!!!" = "!!!iteration1" /\
  fill exprs "!!!iteration!!!exp!!!" = "2exp!!!".
Proof. repeat split; vm_compute; reflexivity. Qed.

Lemma define_config_fields_witness :
  exists config,
    define_config sample_constants sample_args
                  [("username", "alice_k"); ("key", "0123")]
                  "00001" "Remote_Training" = Ok config /\
    dict_get config "id" = Some (JStr "alice_k/00001") /\
    dict_get config "title" = Some (JStr "remote_training") /\
    dict_get config "code_file" = Some (JStr "Remote_Training.ipynb").
Proof.
  destruct (define_config_fields sample_constants sample_args
              [("username", "alice_k"); ("key", "0123")]
              "00001" "Remote_Training" "alice_k" eq_refl)
    as (config & gpu & f & l & t & H0 & H1 & H2 & H3 & _).
  exists config. repeat split; assumption.
Defined.

Lemma exceptions_leave_main_witness :
  snd (sample_main (Raise (CalledProcessError 128))
                   (Raise (OtherError "SystemExit")) [] ["--help"])
  = Raise (OtherError "SystemExit").
Proof.
  assert (Hrun :
    main (sample_env (Raise (CalledProcessError 128))
                     (Raise (OtherError "SystemExit")) [])
         sample_constants sample_users (fun p => Ok p) sample_decode
         sample_repr_str ["--help"] []
    = ([ Ev (CheckOutput git_branch_cmd) (Raise (CalledProcessError 128));
         Ev (ParseArgs (built_parser sample_constants sample_users sentinel)
                       ["--help"])
            (Raise (OtherError "SystemExit")) ],
       snd (sample_main (Raise (CalledProcessError 128))
                        (Raise (OtherError "SystemExit")) [] ["--help"])))
    by (vm_compute; reflexivity).
  apply (proj1 (exceptions_leave_main _ _ _ _ _ _ _ _ _ Hrun)
               (Ev (ParseArgs
                      (built_parser sample_constants sample_users sentinel)
                      ["--help"])
                   (Raise (OtherError "SystemExit")))).
  - right. left. reflexivity.
  - reflexivity.
  - reflexivity.
Defined.

Lemma main_is_linear_witness :
  List.length
    (fst (sample_main sample_git (Ok sample_args) sample_template
                      ["-u"; "alice"; "-p"])) = 12.
Proof.
  assert (Hcli :
    cli_args (sample_env sample_git (Ok sample_args) sample_template)
             sample_constants sample_users (fun p => Ok p) sample_decode
             ["-u"; "alice"; "-p"] []
    = (fst (sample_cli sample_git (Ok sample_args) sample_template
                       ["-u"; "alice"; "-p"]), Ok sample_args))
    by (vm_compute; reflexivity).
  assert (Hrun :
    main (sample_env sample_git (Ok sample_args) sample_template)
         sample_constants sample_users (fun p => Ok p) sample_decode
         sample_repr_str ["-u"; "alice"; "-p"] []
    = (fst (sample_main sample_git (Ok sample_args) sample_template
                        ["-u"; "alice"; "-p"]), Ok tt))
    by (vm_compute; reflexivity).
  destruct (main_is_linear _ _ _ _ _ _ _ _ _ _ Hcli eq_refl Hrun)
    as (git & p & pl & ku & uname & config & lines & _ & _ & _ & _ & H).
  rewrite H. reflexivity.
Defined.

Lemma init_parser_flags_witness :
  flags_of (built_parser sample_constants sample_users "main")
  = ["-h"; "--help"; "-n"; "--notebook_id"; "-u"; "--user"; "--branch";
     "--cpu"; "-p"; "--push"; "-d"; "--download"].
Proof.
  assert (Hrun :
    init_parser (sample_env sample_git (Ok sample_args) sample_template)
                sample_constants sample_users sample_decode None []
    = ([Ev (CheckOutput git_branch_cmd) sample_git],
       Ok (built_parser sample_constants sample_users "main")))
    by (vm_compute; reflexivity).
  exact (proj1 (proj2 (init_parser_flags
                         (sample_env sample_git (Ok sample_args)
                                     sample_template)
                         sample_constants sample_users (fun p => Ok p)
                         sample_decode sample_repr_str [] []))
               _ _ Hrun).
Defined.

(** C5 as it is stated fails twice.  The parser of [init_parser] has the
    flags -h and --help besides the ten of its six arguments.  And the six
    are not all that the command line gives to [main]: with the same
    values for the six, [main] launches the notebook when the namespace
    has [full] and raises [NotImplementedError] when it has no pipeline;
    [full] is an argument of the parser of [get_parser], and none of the
    six. *)
Lemma six_flags_are_not_all :
  (exists tr p,
     init_parser (sample_env sample_git (Ok sample_args) sample_template)
                 sample_constants sample_users sample_decode None []
     = (tr, Ok p) /\
     mem_string "--help" (flags_of p) = true /\
     mem_string "--help" init_flags = false /\
     List.length (arguments p) = 7) /\
  same_six sample_args sample_no_pipeline = true /\
  snd (sample_main sample_git (Ok sample_args) sample_template
                   ["-u"; "alice"; "-p"; "--full"]) = Ok tt /\
  snd (sample_main sample_git (Ok sample_no_pipeline) sample_template
                   ["-u"; "alice"; "-p"]) = Raise NotImplementedError.
Proof.
  split; [|repeat split; vm_compute; reflexivity].
  eexists. eexists. split; [vm_compute; reflexivity|].
  repeat split.
Qed.

Lemma push_and_download_exclusive_witness :
  Forall (fun ev => writes_file ev = false /\ is_push ev = false)
    (fst (sample_main sample_git (Ok sample_download_args) []
                      ["-u"; "alice"; "-d"; "-p"])).
Proof.
  assert (Hcli :
    cli_args (sample_env sample_git (Ok sample_download_args) [])
             sample_constants sample_users (fun p => Ok p) sample_decode
             ["-u"; "alice"; "-d"; "-p"] []
    = (fst (sample_cli sample_git (Ok sample_download_args) []
                       ["-u"; "alice"; "-d"; "-p"]), Ok sample_download_args))
    by (vm_compute; reflexivity).
  assert (Hrun :
    main (sample_env sample_git (Ok sample_download_args) [])
         sample_constants sample_users (fun p => Ok p) sample_decode
         sample_repr_str ["-u"; "alice"; "-d"; "-p"] []
    = (fst (sample_main sample_git (Ok sample_download_args) []
                        ["-u"; "alice"; "-d"; "-p"]), Ok tt))
    by (vm_compute; reflexivity).
  exact (proj1 (proj1 (push_and_download_exclusive _ _ _ _ _ _ _ _ _ _ _
                         Hcli Hrun) eq_refl)).
Defined.

(** C6 as it is stated fails where the download flag is set and no pipeline
    flag is: [main] stops at the dispatch and downloads nothing. *)
Lemma download_without_pipeline :
  download sample_download_only = true /\
  sample_main sample_git (Ok sample_download_only) [] ["-u"; "alice"; "-d"]
  = ([ Ev (CheckOutput git_branch_cmd) sample_git;
       Ev (ParseArgs (built_parser sample_constants sample_users "main")
                     ["-u"; "alice"; "-d"])
          (Ok sample_download_only) ],
     Raise NotImplementedError).
Proof. split; vm_compute; reflexivity. Qed.

Lemma files_written_once_witness :
  exists nb meta,
    nb <> meta /\
    count (opens_for_write nb)
      (fst (sample_main sample_git (Ok sample_args) sample_template
                        ["-u"; "alice"; "-p"])) = 1 /\
    count (dumps_json meta)
      (fst (sample_main sample_git (Ok sample_args) sample_template
                        ["-u"; "alice"; "-p"])) = 1.
Proof.
  assert (Hcli :
    cli_args (sample_env sample_git (Ok sample_args) sample_template)
             sample_constants sample_users (fun p => Ok p) sample_decode
             ["-u"; "alice"; "-p"] []
    = (fst (sample_cli sample_git (Ok sample_args) sample_template
                       ["-u"; "alice"; "-p"]), Ok sample_args))
    by (vm_compute; reflexivity).
  assert (Hrun :
    main (sample_env sample_git (Ok sample_args) sample_template)
         sample_constants sample_users (fun p => Ok p) sample_decode
         sample_repr_str ["-u"; "alice"; "-p"] []
    = (fst (sample_main sample_git (Ok sample_args) sample_template
                        ["-u"; "alice"; "-p"]), Ok tt))
    by (vm_compute; reflexivity).
  destruct (files_written_once _ _ _ _ _ _ _ _ _ _ Hcli eq_refl Hrun)
    as (uname & text & config & before & after
        & Hne & _ & _ & _ & H1 & _ & _ & _ & H2 & _).
  exists (notebook_path_of uname sample_args),
         (metadata_path_of uname sample_args).
  repeat split; assumption.
Defined.

(** C7 as it is stated fails on a run without the download flag that stops
    before the notebook: here no user was given, the lookup raises
    [KeyError] and neither file is opened or written. *)
Lemma run_without_user_writes_nothing :
  download sample_no_user = false /\
  sample_main sample_git (Ok sample_no_user) sample_template ["--full"]
  = ([ Ev (CheckOutput git_branch_cmd) sample_git;
       Ev (ParseArgs (built_parser sample_constants sample_users "main")
                     ["--full"])
          (Ok sample_no_user) ],
     Raise (KeyError None)) /\
  count writes_file
    (fst (sample_main sample_git (Ok sample_no_user) sample_template
                      ["--full"])) = 0.
Proof. repeat split; vm_compute; reflexivity. Qed.

Lemma git_failure_gives_sentinel_witness :
  get_git_branch_name
    (sample_env (Raise (CalledProcessError 128)) (Ok sample_args) [])
    sample_decode []
  = ([Ev (CheckOutput git_branch_cmd) (Raise (CalledProcessError 128))],
     Ok "Error: Could not determine the Git branch name.").
Proof.
  exact (proj1 (git_failure_gives_sentinel
                  (sample_env (Raise (CalledProcessError 128))
                              (Ok sample_args) [])
                  sample_constants sample_users sample_decode sample_repr_str
                  [] (CalledProcessError 128) eq_refl eq_refl)).
Defined.

Lemma no_pipeline_not_implemented_witness :
  main (sample_env sample_git (Ok sample_no_pipeline) sample_template)
       sample_constants sample_users (fun p => Ok p) sample_decode
       sample_repr_str ["-u"; "alice"] []
  = (fst (sample_cli sample_git (Ok sample_no_pipeline) sample_template
                     ["-u"; "alice"]),
     Raise NotImplementedError).
Proof.
  assert (Hcli :
    cli_args (sample_env sample_git (Ok sample_no_pipeline) sample_template)
             sample_constants sample_users (fun p => Ok p) sample_decode
             ["-u"; "alice"] []
    = (fst (sample_cli sample_git (Ok sample_no_pipeline) sample_template
                       ["-u"; "alice"]), Ok sample_no_pipeline))
    by (vm_compute; reflexivity).
  exact (proj1 (no_pipeline_not_implemented _ _ _ _ _ _ _ _ _
                  Hcli eq_refl eq_refl eq_refl)).
Defined.

(** * Further properties *)

(** ** More on the substitution *)

Lemma step_absent (li cur : string) (e : string * string) :
  PyStr.contains (placeholder (fst e)) li = false -> step li cur e = cur.
Proof. unfold step. now intros ->. Qed.

Lemma substitute_line_without_placeholder
  (exprs : list (string * string)) (li : string) :
  placeholder_free exprs li = true -> substitute_line exprs li = li.
Proof.
  unfold placeholder_free, substitute_line. intros H.
  rewrite forallb_forall in H.
  assert (G : forall rest cur,
             incl rest exprs -> fold_left (step li) rest cur = cur).
  { induction rest as [|e rest IH]; intros cur Hin; [reflexivity|].
    cbn [fold_left]. rewrite step_absent.
    - apply IH. intros x Hx. apply Hin. now right.
    - apply negb_true_iff, H, Hin. now left. }
  apply G, incl_refl.
Qed.

(** X1.  Lines that contain none of the placeholders are copied as they
    are, whatever the values: the text written is the concatenation of the
    lines.  Every line is handled on its own, so a placeholder that only
    comes about across a line break is not replaced. *)
Theorem substitute_without_placeholders (exprs : list (string * string))
        (lines : list string) :
  forallb (placeholder_free exprs) lines = true ->
  substitute exprs lines = PyStr.join "" lines.
Proof.
  intros H. unfold substitute. f_equal.
  rewrite <- (map_id lines) at 2. apply map_ext_in. intros li Hli.
  apply substitute_line_without_placeholder.
  rewrite forallb_forall in H. now apply H.
Qed.

Lemma drop_append_ge (i : nat) (u r : string) :
  String.length u <= i -> drop i (u ++ r) = drop (i - String.length u) r.
Proof.
  revert i. induction u as [|a u IH]; intros i Hi.
  - cbn [append String.length]. now rewrite Nat.sub_0_r.
  - destruct i as [|i]; cbn [String.length] in *; [lia|].
    cbn [append drop Nat.sub]. apply IH. lia.
Qed.

Lemma contains_nowhere (x s : string) :
  (forall i, prefix x (drop i s) = false) -> PyStr.contains x s = false.
Proof.
  induction s as [|c s IH]; intros H.
  - cbn [PyStr.contains]. rewrite (H 0 : prefix x "" = false). reflexivity.
  - cbn [PyStr.contains]. rewrite (H 0 : prefix x (String c s) = false).
    cbn [orb]. apply IH. intros i. exact (H (S i)).
Qed.

Section Filled.

Variable exprs : list (string * string).

Hypothesis keys_nodup : NoDup (keys exprs).
Hypothesis placeholders_distinct : distinct_placeholders exprs = true.
Hypothesis values_sealed :
  forall e, In e exprs -> sealed exprs (snd e) = true.
Hypothesis values_free : values_placeholder_free exprs = true.

(** In a line with every hole filled, no placeholder starts anywhere. *)
Lemma render_no_start (ts : list token) (e : string * string) :
  well_formed exprs ts -> In e exprs ->
  forall i, prefix (placeholder (fst e)) (drop i (render exprs ts)) = false.
Proof.
  intros Hwf He. induction ts as [|t ts IH]; intros i.
  - destruct i; reflexivity.
  - cbn [render].
    destruct (Nat.lt_ge_cases i (String.length (render_token exprs t)))
      as [Hi|Hi].
    + rewrite drop_append_le by lia. destruct t as [c|n].
      * destruct Hwf as [Hm Hwf]. cbn [render_token String.length] in *.
        assert (i = 0) by lia. subst i. cbn [drop].
        destruct (prefix (placeholder (fst e))
                         (String c "" ++ render exprs ts)) eqn:H;
          [exfalso | reflexivity].
        apply (prefix_render_back_chunk exprs values_sealed exprs ts) in H;
          [| apply incl_refl | now apply placeholder_chars].
        cbn [append] in H. now rewrite (matching_none _ _ _ Hm He) in H.
      * destruct Hwf as [[v Hv] [_ Hwf]]. cbn [render_token] in *.
        rewrite (dict_get_nodup exprs n v keys_nodup Hv) in *.
        now apply (value_no_start exprs values_sealed values_free n v).
    + rewrite drop_append_ge by lia. apply IH.
      destruct t; [apply Hwf | apply Hwf].
Qed.

Lemma fill_placeholder_free (li : string) :
  non_overlapping exprs li = true ->
  placeholder_free exprs (fill exprs li) = true.
Proof.
  intros Hno. destruct (tokens_exist exprs li Hno) as [ts [<- Hwf]].
  rewrite (fill_render exprs keys_nodup placeholders_distinct ts Hwf).
  unfold placeholder_free. apply forallb_forall. intros e He.
  apply negb_true_iff, contains_nowhere. now apply render_no_start.
Qed.

End Filled.

(** X3.  With integers for [exp] and [iteration], values that contain no
    placeholder and a line without overlapping placeholders, the line that
    [prepare_notebook] makes contains no placeholder any more, and
    substituting in it again changes nothing. *)
Theorem prepared_line_is_final
  (repr_str : string -> string) (exp iteration : Z)
  (branch git_user git_repo pipeline : string)
  (output_dir : option string) (dataset_files : option (list pyval))
  (li : string) :
  let exprs :=
    expressions repr_str (PyInt exp) (PyInt iteration) branch git_user
                git_repo pipeline output_dir dataset_files in
  values_placeholder_free exprs = true ->
  non_overlapping exprs li = true ->
  placeholder_free exprs (substitute_line exprs li) = true /\
  substitute_line exprs (substitute_line exprs li) = substitute_line exprs li.
Proof.
  intros exprs Hfree Hno.
  assert (H : placeholder_free exprs (substitute_line exprs li) = true).
  { unfold exprs. rewrite expressions_line by assumption.
    apply fill_placeholder_free; auto.
    - apply expressions_keys.
    - apply expressions_sealed. }
  split; [exact H|]. now apply substitute_line_without_placeholder.
Qed.

(** X2.  The test on the line as it was read selects the expressions once
    and for all: the line becomes what [str.replace] makes of it, in the
    order of the expressions, for those whose placeholder the line had when
    it was read; a placeholder that only a value brings in is not
    replaced by an expression the line did not have. *)
Theorem substitute_line_relevant (exprs : list (string * string))
        (li : string) :
  substitute_line exprs li =
  fold_left
    (fun cur e => PyStr.replace (placeholder (fst e)) (snd e) cur)
    (filter (fun e => PyStr.contains (placeholder (fst e)) li) exprs)
    li.
Proof.
  unfold substitute_line. generalize li at 2 4 as cur.
  induction exprs as [|e exprs IH]; intros cur; [reflexivity|].
  cbn [fold_left filter]. unfold step at 2.
  destruct (PyStr.contains (placeholder (fst e)) li); cbn [fold_left];
    apply IH.
Qed.

(** ** No operation after a failure *)

Section Halting.

Variable env : Env.
Variable constants : Constants.
Variable kaggle_users : dict (dict string).
Variable get_parser : parser -> result parser.
Variable decode : list byte -> option string.
Variable repr_str : string -> string.

Lemma stops_nil {A : Type} (r : result A) : stops [] r.
Proof. exists []. split; [constructor | now left]. Qed.

Lemma stops_ok_calm {A : Type} (new : Trace) (a : A) :
  stops new (Ok a) -> Forall (fun ev => calm ev = true) new.
Proof.
  intros [pre [Hpre [->|(ev & e & _ & _ & _ & H)]]]; [exact Hpre|].
  discriminate H.
Qed.

Lemma halting_ret {A : Type} (a : A) : halting (ret a).
Proof. intros tr0. exists []. split; [now rewrite app_nil_r | apply stops_nil]. Qed.

Lemma halting_raise {A : Type} (e : exn) : halting (@raise A e).
Proof. intros tr0. exists []. split; [now rewrite app_nil_r | apply stops_nil]. Qed.

Lemma halting_lift {A : Type} (r : result A) : halting (lift r).
Proof. intros tr0. exists []. split; [now rewrite app_nil_r | apply stops_nil]. Qed.

Lemma halting_assert (b : bool) (msg : string) : halting (assert b msg).
Proof. destruct b; [apply halting_ret | apply halting_raise]. Qed.

Lemma halting_call {R : Type} (op : Op R) : halting (call env op).
Proof.
  intros tr0. exists [Ev op (env tr0 R op)]. split; [reflexivity|].
  cbn [snd call]. destruct (env tr0 R op) as [a|e].
  - exists [Ev op (Ok a)]. split; [repeat constructor | now left].
  - destruct (handled (Ev op (Raise e))) eqn:Hh.
    + exists [Ev op (Raise e)]. split; [|now left].
      repeat constructor. unfold calm. cbn [raised]. exact Hh.
    + exists []. split; [constructor|]. right.
      exists (Ev op (Raise e)), e. auto.
Qed.

Lemma halting_bind {A B : Type} (m : M A) (k : A -> M B) :
  halting m -> (forall a, halting (k a)) -> halting (bind m k).
Proof.
  intros Hm Hk tr0. destruct (Hm tr0) as [n1 [E1 S1]]. unfold bind.
  destruct (m tr0) as [tr1 [a|e]]; cbn [fst snd] in *; subst tr1.
  - apply stops_ok_calm in S1.
    destruct (Hk a (tr0 ++ n1)%list) as [n2 [E2 [pre [Hpre S2]]]].
    exists (n1 ++ n2)%list. split; [now rewrite E2, app_assoc|].
    exists (n1 ++ pre)%list. split; [apply Forall_app; now split|].
    destruct S2 as [->|(ev & e & -> & H1 & H2 & H3)]; [now left|].
    right. exists ev, e. rewrite app_assoc. auto.
  - exists n1. split; [reflexivity|].
    destruct S1 as [pre [Hpre S1]]. exists pre. split; [exact Hpre|].
    destruct S1 as [->|(ev & e' & -> & H1 & H2 & H3)]; [now left|].
    right. exists ev, e'. injection H3 as ->. auto.
Qed.

Lemma halting_git_branch_name : halting (get_git_branch_name env decode).
Proof.
  intros tr0. exists [Ev (CheckOutput git_branch_cmd)
                         (env tr0 _ (CheckOutput git_branch_cmd))].
  unfold get_git_branch_name, try_except, bind, call, ret, raise.
  destruct (env tr0 _ (CheckOutput git_branch_cmd)) as [out|e].
  - split; [now destruct (decode (strip out))|].
    exists [Ev (CheckOutput git_branch_cmd) (Ok out)].
    split; [repeat constructor | now left].
  - destruct (is_CalledProcessError e) eqn:He; (split; [reflexivity|]).
    + exists [Ev (CheckOutput git_branch_cmd) (Raise e)].
      split; [repeat constructor; exact He | now left].
    + exists []. split; [constructor|]. right.
      exists (Ev (CheckOutput git_branch_cmd) (Raise e)), e. auto.
Qed.

Ltac prove_halting :=
  repeat first
    [ apply halting_ret | apply halting_raise | apply halting_lift
    | apply halting_assert | apply halting_call
    | apply halting_git_branch_name
    | apply halting_bind; [|intros]
    | match goal with
      | |- halting (if ?b then _ else _) => destruct b
      | |- halting (match ?x with _ => _ end) => destruct x
      end ].

Lemma halting_main (argv : list string) :
  halting (main env constants kaggle_users get_parser decode repr_str argv).
Proof.
  unfold main, cli_args, init_parser, launch, prepare_notebook. cbv zeta.
  prove_halting.
Qed.

(** X5.  [main] performs no operation after one has failed: in every run
    all events but the last are answered with a value (or are the [git]
    failure that [get_git_branch_name] takes), and if the last one raised,
    its exception is the result; nothing is retried or cleaned up. *)
Theorem main_stops_at_failure (argv : list string) (tr : Trace)
        (r : result unit) :
  main env constants kaggle_users get_parser decode repr_str argv [] = (tr, r) ->
  exists pre,
    Forall (fun ev => calm ev = true) pre /\
    (tr = pre \/
     exists ev e, tr = (pre ++ [ev])%list /\ raised ev = Some e /\
                  handled ev = false /\ r = Raise e).
Proof.
  intros H. destruct (halting_main argv []) as [new [Hfst Hstops]].
  rewrite H in Hfst, Hstops. cbn in Hfst, Hstops. now subst.
Qed.

End Halting.

(** ** The runs of [main], failed ones too *)

Lemma file_name_suffix (s ext : string) :
  without_char "/" s -> without_char "/" ext ->
  2 < String.length ext -> file_name (s ++ ext).
Proof.
  intros Hs He Hl. split; [|split].
  - unfold without_char in *. rewrite chars_append, in_app_iff. tauto.
  - intros H. apply (f_equal String.length) in H.
    rewrite length_append in H. cbn in H. lia.
  - intros H. apply (f_equal String.length) in H.
    rewrite length_append in H. cbn in H. lia.
Qed.

Lemma without_char_literal (c : ascii) (s : string) :
  forallb (fun x => negb (Ascii.eqb x c)) (list_ascii_of_string s) = true ->
  without_char c s.
Proof.
  intros H Hin. rewrite forallb_forall in H. specialize (H c Hin).
  now rewrite Ascii.eqb_refl in H.
Qed.

Section Paths.

Variable env : Env.
Variable constants : Constants.
Variable kaggle_users : dict (dict string).
Variable get_parser : parser -> result parser.
Variable decode : list byte -> option string.
Variable repr_str : string -> string.

Ltac reduce_run H :=
  cbv beta iota zeta
      delta [launch prepare_notebook bind call lift ret raise assert] in H.

Ltac split_run H :=
  reduce_run H;
  repeat
    (match type of H with
     | context [env ?t ?R ?o] =>
         let E := fresh "E" in destruct (env t R o) eqn:E
     | context [lookup_user ?u ?x] =>
         let E := fresh "E" in destruct (lookup_user u x) eqn:E
     | context [subscript ?u ?x] =>
         let E := fresh "E" in destruct (subscript u x) eqn:E
     | context [define_config ?a ?b ?c ?d ?e] =>
         let E := fresh "E" in destruct (define_config a b c d e) eqn:E
     | context [if ?b then _ else _] =>
         let E := fresh "E" in destruct b eqn:E
     end; reduce_run H);
  repeat match goal with u : unit |- _ => destruct u end;
  injection H as <- <-.

Ltac flat_trace := rewrite <- ?app_assoc; cbn [app].

(** X4.  [prepare_notebook] with a git user and repository stops at the
    first operation that raises, with that exception: the output file is
    opened only after the template has been opened and read, so a template
    that cannot be read leaves the output untouched, and the text of the
    one write is the substituted template. *)
Theorem prepare_notebook_stops_at_failure (out : string) (exp iteration : pyval)
      (branch git_user git_repo pipeline tpl : string)
      (output_dir : option string) (dataset_files : option (list pyval))
      (tr0 tr : Trace) (r : result unit) :
  prepare_notebook env repr_str out exp iteration branch (Some git_user)
    (Some git_repo) pipeline tpl output_dir dataset_files tr0 = (tr, r) ->
  (exists e, r = Raise e /\
     tr = (tr0 ++ [Ev (OpenRead tpl) (Raise e)])%list) \/
  (exists e, r = Raise e /\
     tr = (tr0 ++ [Ev (OpenRead tpl) (Ok tt);
                   Ev (Readlines tpl) (Raise e)])%list) \/
  (exists lines e, r = Raise e /\
     tr = (tr0 ++ [Ev (OpenRead tpl) (Ok tt);
                   Ev (Readlines tpl) (Ok lines);
                   Ev (OpenWrite out) (Raise e)])%list) \/
  (exists lines,
     tr = (tr0 ++ [Ev (OpenRead tpl) (Ok tt);
                   Ev (Readlines tpl) (Ok lines);
                   Ev (OpenWrite out) (Ok tt);
                   Ev (FileWrite out
                         (substitute
                            (expressions repr_str exp iteration branch
                               git_user git_repo pipeline output_dir
                               dataset_files) lines)) r])%list).
Proof.
  intros H. split_run H; flat_trace;
    first [ left; solve [eauto 6]
          | right; left; solve [eauto 6]
          | right; right; left; solve [eauto 6]
          | right; right; right; solve [eauto 6] ].
Qed.

Lemma cli_trace (argv : list string) (tr0 : Trace) (args : Args) :
  cli_args env constants kaggle_users get_parser decode argv [] =
    (tr0, Ok args) ->
  exists git p, tr0 = [ Ev (CheckOutput git_branch_cmd) git;
                        Ev (ParseArgs p argv) (Ok args) ].
Proof.
  intros H. apply cli_args_ok in H as (git & b & p & _ & _ & ->).
  now exists git, p.
Qed.

(** X6.  In every run of [main], failed ones too, the kernel metadata is
    written only after the notebook has been written and found, and the
    kernel is pushed only after the notebook and the metadata have been
    written without an exception. *)
Theorem push_needs_both_files (argv : list string) (tr0 tr : Trace)
        (args : Args) (r : result unit) :
  cli_args env constants kaggle_users get_parser decode argv [] =
    (tr0, Ok args) ->
  main env constants kaggle_users get_parser decode repr_str argv [] = (tr, r) ->
  (existsb is_json_dump tr = true ->
   exists uname text,
     In (Ev (FileWrite (notebook_path_of uname args) text) (Ok tt)) tr /\
     In (Ev (PathExists (notebook_path_of uname args)) (Ok true)) tr) /\
  (existsb is_push tr = true ->
   exists uname text config,
     In (Ev (FileWrite (notebook_path_of uname args) text) (Ok tt)) tr /\
     In (Ev (JsonDump (metadata_path_of uname args) config 4) (Ok tt)) tr).
Proof.
  intros Hcli Hrun.
  rewrite (main_launch _ _ _ _ _ _ _ _ _ Hcli) in Hrun.
  destruct (cli_trace _ _ _ Hcli) as (git & p & ->).
  split_run Hrun; flat_trace; (split; intros Hex; try discriminate Hex);
    match goal with
    | E : subscript _ "username" = Ok ?u |- _ => exists u
    end; repeat eexists; cbn [In]; eauto 20.
Qed.

(** X7.  When [os.path.exists] answers [False] for the notebook just
    written, [main] raises [AssertionError] at once: this is the last
    event, the notebook was written before it, no metadata is written and
    nothing is pushed. *)
Theorem missing_notebook_asserts (argv : list string) (tr0 tr : Trace)
        (args : Args) (r : result unit) :
  cli_args env constants kaggle_users get_parser decode argv [] =
    (tr0, Ok args) ->
  main env constants kaggle_users get_parser decode repr_str argv [] = (tr, r) ->
  existsb not_found tr = true ->
  r = Raise (AssertionError "") /\
  existsb is_json_dump tr = false /\
  existsb is_push tr = false /\
  exists pre ev uname text,
    tr = (pre ++ [ev])%list /\ not_found ev = true /\
    In (Ev (FileWrite (notebook_path_of uname args) text) (Ok tt)) pre.
Proof.
  intros Hcli Hrun.
  rewrite (main_launch _ _ _ _ _ _ _ _ _ Hcli) in Hrun.
  destruct (cli_trace _ _ _ Hcli) as (git & p & ->).
  split_run Hrun; flat_trace; intros Hex; try discriminate Hex.
  all: repeat split.
  all: eexists (_ :: _ :: _ :: _ :: _ :: _ :: _ :: _ :: []).
  all: match goal with
       | E : subscript _ "username" = Ok ?u |- _ =>
           exists (Ev (PathExists (notebook_path_of u args)) (Ok false)), u
       end.
  all: eexists; split; [reflexivity|]; split; [reflexivity|].
  all: cbn [In]; auto 20.
Qed.

(** X8.  With the download flag the temporary directory is removed only
    as the last operation, after it was made and the kernel output was
    fetched and unpacked; a fetch that raises ends the run with its
    exception, and the directory made for it is not removed. *)
Theorem failed_download_keeps_directory (argv : list string)
        (tr0 tr : Trace) (args : Args) (r : result unit) :
  cli_args env constants kaggle_users get_parser decode argv [] =
    (tr0, Ok args) ->
  download args = true ->
  main env constants kaggle_users get_parser decode repr_str argv [] = (tr, r) ->
  (existsb is_rmtree tr = true ->
   exists pre uname,
     tr = (pre ++ [Ev (Rmtree (tmp_dir_of args)) r])%list /\
     In (Ev (Makedirs (tmp_dir_of args)) (Ok tt)) pre /\
     In (Ev (KernelsOutput (uname ++ "/" ++ notebook_id args)%string
                           (tmp_dir_of args)) (Ok tt)) pre /\
     In (Ev (SubprocessRun
               ["tar"; "-xzf"; (tmp_dir_of args ++ "/output.tgz")%string;
                OUTPUT_FOLDER constants]) (Ok tt)) pre) /\
  (forall ev dir e,
     In ev tr -> fetch_failure ev = Some (dir, e) ->
     r = Raise e /\ dir = tmp_dir_of args /\
     In (Ev (Makedirs dir) (Ok tt)) tr /\ existsb is_rmtree tr = false).
Proof.
  intros Hcli Hdl Hrun.
  rewrite (main_launch _ _ _ _ _ _ _ _ _ Hcli) in Hrun.
  destruct (cli_trace _ _ _ Hcli) as (git & p & ->).
  reduce_run Hrun. rewrite Hdl in Hrun.
  split_run Hrun; flat_trace; split;
    try (intros Hex; discriminate Hex);
    try (intros ev dir e' Hin Hf; cbn [In] in Hin;
         repeat (destruct Hin as [<-|Hin]; [try discriminate Hf|]);
         try contradiction).
  all: try (intros _;
            eexists (_ :: _ :: _ :: _ :: _ :: _ :: []); eexists;
            split; [reflexivity|]; cbn [In]; auto 20).
  all: try (injection Hf as <- <-; repeat split; cbn [In]; auto 20).
Qed.

(** X9.  With a pipeline flag, [main] raises [KeyError] right after the
    parsing, before the credentials are loaded or anything else is done:
    for no user ([None]), for a user that is no key of [kaggle_users], and
    for credentials without a username. *)
Theorem missing_user_key_error (argv : list string) (tr0 : Trace)
        (args : Args) (pipeline : string) :
  cli_args env constants kaggle_users get_parser decode argv [] =
    (tr0, Ok args) ->
  pipeline_of args = Some pipeline ->
  let run := main env constants kaggle_users get_parser decode repr_str
                  argv [] in
  (user args = None -> run = (tr0, Raise (KeyError None))) /\
  (forall name,
     user args = Some name -> dict_get kaggle_users name = None ->
     run = (tr0, Raise (KeyError (Some name)))) /\
  (forall name kaggle_user,
     user args = Some name ->
     dict_get kaggle_users name = Some kaggle_user ->
     dict_get kaggle_user "username" = None ->
     run = (tr0, Raise (KeyError (Some "username")))).
Proof.
  intros Hcli Hp run. unfold run.
  rewrite (main_launch _ _ _ _ _ _ _ _ _ Hcli).
  assert (Hpipe :
    (if full args then ret "full"
     else if learning args then ret "learning"
          else if testing args then ret "testing"
               else raise NotImplementedError) tr0 = (tr0, Ok pipeline)).
  { unfold pipeline_of in Hp.
    destruct (full args), (learning args), (testing args);
      try discriminate Hp; injection Hp as <-; reflexivity. }
  unfold launch. cbv zeta. rewrite (bind_run _ _ _ _ _ Hpipe).
  unfold bind, lift, lookup_user, subscript.
  split; [|split].
  - now intros ->.
  - intros name -> Hn. now rewrite Hn.
  - intros name ku -> Hn Hu. now rewrite Hn, Hu.
Qed.

(** X10.  In a run without the download flag that returns, for a notebook
    id without a slash, everything is written into one folder: the folder
    that was made is the one pushed, and every path opened for writing is
    the path of this folder, a slash and a file name, which has no slash
    and is not [.] or [..]; these are the kernel metadata file and the
    notebook, under the name the metadata gives as code_file. *)
Theorem pushed_folder_is_consistent (argv : list string) (tr0 tr : Trace)
        (args : Args) :
  cli_args env constants kaggle_users get_parser decode argv [] =
    (tr0, Ok args) ->
  download args = false ->
  without_char "/" (notebook_id args) ->
  main env constants kaggle_users get_parser decode repr_str argv [] =
    (tr, Ok tt) ->
  exists folder code_file text config,
    In (Ev (Makedirs folder) (Ok tt)) tr /\
    In (Ev (FileWrite (folder ++ "/" ++ code_file)%string text) (Ok tt)) tr /\
    In (Ev (JsonDump (folder ++ "/kernel-metadata.json")%string config 4)
           (Ok tt)) tr /\
    dict_get config "code_file" = Some (JStr code_file) /\
    file_name code_file /\
    (push args = true -> In (Ev (KernelsPush folder) (Ok tt)) tr) /\
    (forall path a, In (Ev (OpenWrite path) a) tr ->
       exists name, path = (folder ++ "/" ++ name)%string /\
                    file_name name).
Proof.
  intros Hcli Hdl Hid Hrun.
  rewrite (main_launch _ _ _ _ _ _ _ _ _ Hcli) in Hrun.
  destruct (cli_trace _ _ _ Hcli) as (git & p & ->).
  destruct (launch_notebook_ok _ _ _ _ _ _ _ _ Hdl Hrun)
    as (pl & ku & uname & config & lines & _ & _ & Hu & Hc & ->).
  exists (kernel_path_of uname args), (notebook_id args ++ ".ipynb").
  eexists. exists config.
  assert (Hnb : notebook_path_of uname args =
                kernel_path_of uname args ++ "/" ++ notebook_id args ++ ".ipynb").
  { unfold notebook_path_of. now rewrite !append_assoc. }
  assert (Hfile : file_name (notebook_id args ++ ".ipynb")).
  { apply file_name_suffix; [exact Hid| |cbn; lia].
    now apply without_char_literal. }
  assert (Hmeta : file_name "kernel-metadata.json").
  { split; [now apply without_char_literal|]. split; discriminate. }
  rewrite Hnb. unfold metadata_path_of.
  split; [cbn [In app]; auto 20|].
  split; [cbn [In app]; auto 20|].
  split; [cbn [In app]; auto 20|].
  split.
  - unfold define_config in Hc. rewrite Hu in Hc. injection Hc as <-.
    reflexivity.
  - split; [exact Hfile|]. split.
    + intros ->. cbn [In app]. auto 20.
    + intros path a Hin. cbn [In app] in Hin.
      destruct (push args); cbn [In app] in Hin;
        repeat (destruct Hin as [Hin|Hin];
                [try discriminate Hin; injection Hin as <-;
                 first [ exists (notebook_id args ++ ".ipynb");
                         split; [reflexivity | exact Hfile]
                       | exists "kernel-metadata.json";
                         split; [reflexivity | exact Hmeta] ]|]);
        contradiction.
Qed.

End Paths.

(** ** Parsers given to [init_parser] *)

Lemma mem_string_in (x : string) (l : list string) :
  mem_string x l = true <-> In x l.
Proof.
  unfold mem_string. rewrite existsb_exists. split.
  - intros [y [Hy Heq]]. apply String.eqb_eq in Heq. now subst.
  - intros H. exists x. split; [exact H | apply String.eqb_refl].
Qed.

Lemma taken_flag (p : parser) (f : string) :
  existsb (fun b => mem_string f (option_strings b)) (arguments p) =
  mem_string f (flags_of p).
Proof.
  unfold flags_of. induction (arguments p) as [|a l IH]; [reflexivity|].
  cbn [existsb flat_map]. rewrite IH. unfold mem_string.
  now rewrite existsb_app.
Qed.





(** The flags left by the handler ['resolve'] are flags the arguments had,
    and none that was taken. *)
Lemma remove_flags_flags (taken : list string) (args : list argument)
      (f : string) :
  In f (flat_map option_strings (flat_map (remove_flags taken) args)) ->
  In f (flat_map option_strings args) /\ mem_string f taken = false.
Proof.
  induction args as [|b args IH]; [intros []|].
  cbn [flat_map]. rewrite flat_map_app, !in_app_iff.
  intros [H|H].
  - enough (In f (option_strings b) /\ mem_string f taken = false)
      by tauto.
    unfold remove_flags in H.
    destruct (existsb _ (option_strings b)) eqn:E.
    + assert (Hk : In f (filter (fun f => negb (mem_string f taken))
                                (option_strings b))).
      { destruct (filter _ (option_strings b)) as [|k ks];
          [destruct H|].
        cbn [flat_map option_strings] in H. now rewrite app_nil_r in H. }
      apply filter_In in Hk as [Hin Hn]. split; [exact Hin|].
      now apply negb_true_iff.
    + cbn [flat_map] in H. rewrite app_nil_r in H. split; [exact H|].
      destruct (mem_string f taken) eqn:Hm; [|reflexivity].
      assert (existsb (fun f => mem_string f taken) (option_strings b)
              = true) by (apply existsb_exists; eauto).
      congruence.
  - destruct (IH H). tauto.
Qed.

(** With ['resolve'], no older argument keeps a flag of the new one. *)
Lemma resolve_clears (p : parser) (a : argument) (f : string) :
  In f (option_strings a) ->
  ~ In f (flat_map option_strings
            (flat_map (remove_flags (conflicts p a)) (arguments p))).
Proof.
  intros Ha Hin. apply remove_flags_flags in Hin as [Hin Hn].
  assert (Hc : In f (conflicts p a)).
  { unfold conflicts. apply filter_In. split; [exact Ha|].
    rewrite taken_flag. now apply mem_string_in. }
  apply mem_string_in in Hc. congruence.
Qed.





Lemma flags_of_add (descr : string) (h : handler) (args : list argument)
      (a : argument) :
  flags_of (Parser descr h (args ++ [a])) =
  (flags_of (Parser descr h args) ++ option_strings a)%list.
Proof.
  unfold flags_of. cbn [arguments]. rewrite flat_map_app. cbn [flat_map].
  now rewrite app_nil_r.
Qed.

Section Parser.

Variable env : Env.
Variable constants : Constants.
Variable kaggle_users : dict (dict string).
Variable decode : list byte -> option string.



End Parser.

(** X13.  [define_config] raises [KeyError] for credentials without a
    username; otherwise the dictionary has the same sixteen keys in the
    same order, each once, whatever the arguments are, with the dataset
    list of the constants as dataset_sources. *)
Theorem define_config_shape (constants : Constants) (args : Args)
        (kaggle_user : dict string) (exp_str notebook_id : string) :
  (dict_get kaggle_user "username" = None ->
   define_config constants args kaggle_user exp_str notebook_id =
   Raise (KeyError (Some "username"))) /\
  (forall config,
     define_config constants args kaggle_user exp_str notebook_id = Ok config ->
     keys config =
       [ "id"; "title"; "code_file"; "language"; "kernel_type";
         "is_private"; "enable_gpu"; "enable_tpu"; "enable_internet";
         "full_pipeline"; "learning_pipeline"; "testing_pipeline";
         "dataset_sources"; "competition_sources"; "kernel_sources";
         "model_sources" ] /\
     NoDup (keys config) /\
     dict_get config "dataset_sources" =
       Some (JList (map JStr (KAGGLE_DATASET_LIST constants))) /\
     dict_get config "language" = Some (JStr "python") /\
     dict_get config "kernel_type" = Some (JStr "notebook")).
Proof.
  unfold define_config, subscript. split.
  - now intros ->.
  - intros config H. destruct (dict_get kaggle_user "username");
      [|discriminate H].
    injection H as <-. repeat split.
    cbn [keys map fst].
    repeat (constructor; [cbn [In]; intuition discriminate|]). constructor.
Qed.

(** ** Reading [f"{n:05d}"] back *)

Lemma digits_value_zeros (k : nat) (s : string) :
  digits_value (PyStr.zeros k ++ s) = digits_value s.
Proof.
  induction k as [|k IH]; [reflexivity|].
  unfold digits_value in *. cbn [PyStr.zeros append NilEmpty.uint_of_string].
  destruct (NilEmpty.uint_of_string (PyStr.zeros k ++ s)) as [d|];
    destruct (NilEmpty.uint_of_string s) as [d'|]; cbn in *;
    try discriminate IH; [|reflexivity].
  injection IH as IH. now rewrite <- IH.
Qed.

Lemma digits_value_of_int (m : Z) :
  (0 <= m)%Z -> digits_value (PyStr.of_int m) = Some m.
Proof.
  intros Hm. destruct m as [|p|p]; [reflexivity| |lia].
  unfold PyStr.of_int, digits_value. cbn [Z.to_int NilZero.string_of_int].
  pose proof (DecimalPos.Unsigned.of_to p) as Hp.
  destruct (Pos.to_uint p) as [|d|d|d|d|d|d|d|d|d|d] eqn:E;
    [discriminate Hp|..];
    unfold NilZero.string_of_uint; rewrite NilEmpty.usu; cbn [option_map];
    unfold Z.of_uint; rewrite Hp; reflexivity.
Qed.

Lemma of_int_not_minus (m : Z) :
  (0 <= m)%Z ->
  exists c r, PyStr.of_int m = String c r /\ Ascii.eqb c "-" = false.
Proof.
  intros Hm. destruct m as [|p|p]; [now exists "0"%char, ""| |lia].
  unfold PyStr.of_int. cbn [Z.to_int NilZero.string_of_int].
  pose proof (DecimalPos.Unsigned.of_to p) as Hp.
  destruct (Pos.to_uint p) as [|d|d|d|d|d|d|d|d|d|d];
    [discriminate Hp|..]; cbn; eauto.
Qed.

Lemma read_int_format (n : Z) : read_int (PyStr.format_05d n) = Some n.
Proof.
  unfold PyStr.format_05d. destruct (Z.ltb_spec n 0) as [Hn|Hn].
  - cbn [append read_int]. cbn [Ascii.eqb Bool.eqb].
    rewrite digits_value_zeros, digits_value_of_int by lia.
    cbn [option_map]. f_equal. lia.
  - rewrite (Z.abs_eq n Hn).
    assert (H : read_int (PyStr.zeros (5 - String.length (PyStr.of_int n))
                          ++ PyStr.of_int n)
                = digits_value (PyStr.zeros (5 - String.length (PyStr.of_int n))
                                ++ PyStr.of_int n)).
    { destruct (5 - String.length (PyStr.of_int n)) as [|k]; [|reflexivity].
      cbn [PyStr.zeros append].
      destruct (of_int_not_minus n Hn) as (c & r & -> & Hc).
      cbn [read_int]. now rewrite Hc. }
    rewrite H, digits_value_zeros. now apply digits_value_of_int.
Qed.

Lemma length_zeros (k : nat) : String.length (PyStr.zeros k) = k.
Proof. induction k; cbn; auto. Qed.

Lemma format_05d_width (a : Z) : 5 <= String.length (PyStr.format_05d a).
Proof.
  unfold PyStr.format_05d. destruct (a <? 0)%Z.
  - cbn [append String.length]. rewrite length_append, length_zeros. lia.
  - rewrite length_append, length_zeros. lia.
Qed.

Lemma format_05d_eq (a b : Z) :
  PyStr.format_05d a = PyStr.format_05d b -> a = b.
Proof.
  intros H. apply (f_equal read_int) in H.
  rewrite !read_int_format in H. now injection H.
Qed.

(** X15.  [f"{n:05d}"] gives different numbers different texts, of five
    characters at least. *)
Theorem format_05d_injective (a b : Z) :
  a <> b ->
  PyStr.format_05d a <> PyStr.format_05d b /\
  5 <= String.length (PyStr.format_05d a).
Proof.
  intros Hab. split; [|apply format_05d_width].
  intros H. now apply Hab, format_05d_eq.
Qed.

(** ** Folders of different experiments *)

Lemma split_unique (c : ascii) (x x' r r' : string) :
  without_char c x -> without_char c x' ->
  x ++ String c r = x' ++ String c r' -> x = x' /\ r = r'.
Proof.
  revert x'. induction x as [|a x IH]; intros x' Hx Hx' H.
  - destruct x' as [|a' x']; cbn in H.
    + injection H as ->. auto.
    + injection H as <- _. exfalso. apply Hx'. now left.
  - destruct x' as [|a' x']; cbn in H.
    + injection H as -> _. exfalso. apply Hx. now left.
    + injection H as <- H.
      destruct (IH x') as [-> ->]; auto.
      * intros Hin. apply Hx. now right.
      * intros Hin. apply Hx'. now right.
Qed.

Lemma join_cons (x y : string) (l : list string) :
  PyStr.join "_" (x :: y :: l) = x ++ String "_" (PyStr.join "_" (y :: l)).
Proof. reflexivity. Qed.

Lemma join_injective (l1 l2 : list string) :
  (forall x, In x l1 -> x <> "" /\ without_char "_" x) ->
  (forall x, In x l2 -> x <> "" /\ without_char "_" x) ->
  PyStr.join "_" l1 = PyStr.join "_" l2 -> l1 = l2.
Proof.
  revert l2. induction l1 as [|x l1 IH]; intros l2 H1 H2 H.
  - destruct l2 as [|y l2]; [reflexivity|]. exfalso.
    destruct (H2 y (or_introl eq_refl)) as [Hy _].
    destruct l2 as [|z l2]; cbn in H; [now apply Hy|].
    destruct y; [now apply Hy | discriminate H].
  - destruct l2 as [|y l2].
    + exfalso. destruct (H1 x (or_introl eq_refl)) as [Hx _].
      destruct l1 as [|z l1]; cbn in H; [now apply Hx|].
      destruct x; [now apply Hx | discriminate H].
    + destruct (H1 x (or_introl eq_refl)) as [_ Hx].
      destruct (H2 y (or_introl eq_refl)) as [_ Hy].
      assert (H1' : forall z, In z l1 -> z <> "" /\ without_char "_" z)
        by (intros z Hz; apply H1; now right).
      assert (H2' : forall z, In z l2 -> z <> "" /\ without_char "_" z)
        by (intros z Hz; apply H2; now right).
      destruct l1 as [|x1 l1], l2 as [|y1 l2].
      * cbn in H. now subst.
      * exfalso. rewrite join_cons in H. change (PyStr.join "_" [x]) with x in H.
        apply Hx. rewrite H, chars_append. apply in_or_app. right. now left.
      * exfalso. rewrite join_cons in H. change (PyStr.join "_" [y]) with y in H.
        apply Hy. rewrite <- H, chars_append. apply in_or_app. right. now left.
      * rewrite !join_cons in H.
        destruct (split_unique _ _ _ _ _ Hx Hy H) as [-> Hr].
        f_equal. now apply IH.
Qed.

Lemma join_chars (l : list string) (c : ascii) :
  In c (list_ascii_of_string (PyStr.join "_" l)) ->
  c = "_"%char \/ exists x, In x l /\ In c (list_ascii_of_string x).
Proof.
  induction l as [|x l IH]; [intros []|].
  destruct l as [|y l].
  - intros H. right. exists x. split; [now left | exact H].
  - rewrite join_cons, chars_append. intros H.
    apply in_app_or in H as [H|[<-|H]].
    + right. exists x. split; [now left | exact H].
    + now left.
    + destruct (IH H) as [->|[z [Hz Hc]]]; [now left|].
      right. exists z. split; [now right | exact Hc].
Qed.

Lemma zeros_chars (k : nat) (c : ascii) :
  In c (list_ascii_of_string (PyStr.zeros k)) -> c = "0"%char.
Proof. induction k as [|k IH]; cbn; [tauto|]. intros [<-|H]; auto. Qed.

Lemma format_05d_chars (n : Z) (c : ascii) :
  In c (list_ascii_of_string (PyStr.format_05d n)) -> decimal_char c = true.
Proof.
  unfold PyStr.format_05d. destruct (n <? 0)%Z.
  - cbn [append list_ascii_of_string In]. intros [<-|H]; [reflexivity|].
    rewrite chars_append in H. apply in_app_or in H as [H|H].
    + now rewrite (zeros_chars _ _ H).
    + now apply of_int_chars in H.
  - rewrite chars_append. intros H. apply in_app_or in H as [H|H].
    + now rewrite (zeros_chars _ _ H).
    + now apply of_int_chars in H.
Qed.

Lemma format_05d_part (n : Z) :
  PyStr.format_05d n <> "" /\ without_char "_" (PyStr.format_05d n).
Proof.
  split.
  - intros H. pose proof (format_05d_width n) as Hl.
    rewrite H in Hl. cbn in Hl. lia.
  - intros H. apply format_05d_chars in H. discriminate H.
Qed.

Lemma exp_str_injective (a b : Args) :
  exp_str_of a = exp_str_of b -> exp a = exp b.
Proof.
  unfold exp_str_of. intros H. apply join_injective in H.
  - revert H. generalize (exp a) (exp b). intros l1.
    induction l1 as [|x l1 IH]; intros [|y l2] H; try discriminate H;
      [reflexivity|].
    cbn [map] in H. injection H as Hxy H. f_equal; [|now apply IH].
    now apply format_05d_eq.
  - intros x Hx. apply in_map_iff in Hx as [n [<- _]]. apply format_05d_part.
  - intros x Hx. apply in_map_iff in Hx as [n [<- _]]. apply format_05d_part.
Qed.

Lemma exp_str_no_slash (a : Args) : without_char "/" (exp_str_of a).
Proof.
  intros H. apply join_chars in H as [H|[x [Hx Hc]]]; [discriminate H|].
  apply in_map_iff in Hx as [n [<- _]]. apply format_05d_chars in Hc.
  discriminate Hc.
Qed.

Lemma append_inv_tail (a b c : string) : a ++ c = b ++ c -> a = b.
Proof.
  revert b. induction a as [|x a IH]; intros b H.
  - destruct b as [|y b]; [reflexivity|]. exfalso.
    apply (f_equal String.length) in H. cbn in H.
    rewrite length_append in H. lia.
  - destruct b as [|y b].
    + exfalso. apply (f_equal String.length) in H. cbn in H.
      rewrite length_append in H. lia.
    + cbn in H. injection H as -> H. f_equal. now apply IH.
Qed.

(** X16.  For one user and notebook ids without a slash, different
    lists of experiments write into different folders.  The kernel folder
    is the folder of the user, a slash and the text of the experiments,
    which is different for different lists and made of decimal digits,
    [-] and [_] only; the notebook and the metadata path are the kernel
    folder, a slash and a file name without a slash.  So the kernel
    folders, the notebook paths and the metadata paths differ. *)
Theorem experiments_have_own_folders (uname : string) (a b : Args) :
  exp a <> exp b ->
  without_char "/" (notebook_id a) ->
  without_char "/" (notebook_id b) ->
  (exists root dir_a dir_b,
     dir_a <> dir_b /\
     (forall c, In c (list_ascii_of_string dir_a) \/
                In c (list_ascii_of_string dir_b) ->
                decimal_char c = true \/ c = "_"%char) /\
     kernel_path_of uname a = root ++ "/" ++ dir_a /\
     kernel_path_of uname b = root ++ "/" ++ dir_b) /\
  (exists file_a file_b,
     file_name file_a /\ file_name file_b /\
     file_name "kernel-metadata.json" /\
     notebook_path_of uname a = kernel_path_of uname a ++ "/" ++ file_a /\
     notebook_path_of uname b = kernel_path_of uname b ++ "/" ++ file_b /\
     metadata_path_of uname a =
       kernel_path_of uname a ++ "/" ++ "kernel-metadata.json" /\
     metadata_path_of uname b =
       kernel_path_of uname b ++ "/" ++ "kernel-metadata.json") /\
  kernel_path_of uname a <> kernel_path_of uname b /\
  notebook_path_of uname a <> notebook_path_of uname b /\
  metadata_path_of uname a <> metadata_path_of uname b.
Proof.
  intros Hab Ha Hb.
  assert (Hk : kernel_path_of uname a <> kernel_path_of uname b).
  { unfold kernel_path_of. intros H.
    apply append_inv_head in H. injection H as H.
    now apply Hab, exp_str_injective. }
  assert (Hchars : forall x c,
    In c (list_ascii_of_string (exp_str_of x)) ->
    decimal_char c = true \/ c = "_"%char).
  { intros x c Hc. unfold exp_str_of in Hc.
    apply join_chars in Hc as [->|[y [Hy Hc]]]; [now right|].
    apply in_map_iff in Hy as [n [<- _]]. left.
    exact (format_05d_chars n c Hc). }
  assert (Hfile : forall x, without_char "/" (notebook_id x) ->
                            file_name (notebook_id x ++ ".ipynb")).
  { intros x Hx. apply file_name_suffix; [exact Hx| |cbn; lia].
    now apply without_char_literal. }
  split; [|split; [|split; [exact Hk|split]]].
  - exists ("__nb_" ++ uname), (exp_str_of a), (exp_str_of b).
    split; [intros H; now apply Hab, exp_str_injective|].
    split; [intros c [Hc|Hc]; eapply Hchars; eassumption|].
    split; reflexivity.
  - exists (notebook_id a ++ ".ipynb"), (notebook_id b ++ ".ipynb").
    split; [now apply Hfile|]. split; [now apply Hfile|].
    split.
    { split; [now apply without_char_literal|]. split; discriminate. }
    unfold notebook_path_of, metadata_path_of.
    rewrite !append_assoc. repeat split; reflexivity.
  - intros H.
    assert (Hn : forall x,
      notebook_path_of uname x =
      ("__nb_" ++ uname) ++
      String "/" (exp_str_of x ++ String "/" (notebook_id x ++ ".ipynb"))).
    { intros x. unfold notebook_path_of, kernel_path_of.
      now rewrite !append_assoc. }
    rewrite !Hn in H. apply append_inv_head in H. injection H as H.
    apply split_unique in H as [H _];
      [now apply Hab, exp_str_injective | apply exp_str_no_slash ..].
  - unfold metadata_path_of. intros H. apply append_inv_tail in H.
    now apply Hk.
Qed.

(** ** The branch name *)

Lemma lstrip_spaces (pre rest : list byte) :
  forallb is_space pre = true -> lstrip (pre ++ rest)%list = lstrip rest.
Proof.
  induction pre as [|b pre IH]; intros H; [reflexivity|].
  cbn [forallb] in H. apply andb_true_iff in H as [Hb H].
  cbn [app lstrip]. rewrite Hb. now apply IH.
Qed.

Lemma lstrip_all_spaces (bs : list byte) :
  forallb is_space bs = true -> lstrip bs = [].
Proof.
  intros H. rewrite <- (app_nil_r bs). now rewrite lstrip_spaces.
Qed.

Lemma lstrip_keeps (b : byte) (bs : list byte) :
  is_space b = false -> lstrip (b :: bs) = b :: bs.
Proof. intros H. cbn [lstrip]. now rewrite H. Qed.

Lemma forallb_rev {A : Type} (f : A -> bool) (l : list A) :
  forallb f (rev l) = forallb f l.
Proof.
  induction l as [|a l IH]; [reflexivity|].
  cbn [rev forallb]. rewrite forallb_app, IH. cbn [forallb].
  rewrite andb_true_r. apply andb_comm.
Qed.

(** [strip] takes the whitespace off both ends and nothing else. *)
Lemma strip_core (pre post core rest rest' : list byte) (first last : byte) :
  forallb is_space pre = true -> forallb is_space post = true ->
  core = first :: rest -> rev core = last :: rest' ->
  is_space first = false -> is_space last = false ->
  strip (pre ++ core ++ post)%list = core.
Proof.
  intros Hpre Hpost Hc Hr Hf Hl. unfold strip.
  rewrite lstrip_spaces by exact Hpre.
  assert (H1 : lstrip (core ++ post)%list = (core ++ post)%list).
  { rewrite Hc. cbn [app]. now apply lstrip_keeps. }
  rewrite H1, rev_app_distr.
  rewrite (lstrip_spaces (rev post) (rev core))
    by (rewrite forallb_rev; exact Hpost).
  rewrite Hr, lstrip_keeps by exact Hl.
  rewrite <- Hr. apply rev_involutive.
Qed.

Lemma strip_spaces (bs : list byte) :
  forallb is_space bs = true -> strip bs = [].
Proof.
  intros H. unfold strip. rewrite (lstrip_all_spaces bs) by exact H.
  reflexivity.
Qed.

Section Branch.

Variable env : Env.
Variable decode : list byte -> option string.

(** X14.  When [git] prints a name with ASCII whitespace around it, the
    branch name is the decoding of the name alone (of nothing, when only
    whitespace is printed), and [UnicodeDecodeError] when it cannot be
    decoded; an exception of the call that is no [CalledProcessError] is
    not taken by the handler. *)
Theorem git_branch_name_outcomes (tr0 : Trace) :
  (forall pre post core,
     forallb is_space pre = true -> forallb is_space post = true ->
     is_space (hd x00 core) = false ->
     is_space (List.last core x00) = false ->
     env tr0 _ (CheckOutput git_branch_cmd) = Ok (pre ++ core ++ post)%list ->
     get_git_branch_name env decode tr0 =
     ((tr0 ++ [Ev (CheckOutput git_branch_cmd)
                  (Ok (pre ++ core ++ post))])%list,
      match decode core with
      | Some branch_name => Ok branch_name
      | None => Raise UnicodeDecodeError
      end)) /\
  (forall e,
     env tr0 _ (CheckOutput git_branch_cmd) = Raise e ->
     is_CalledProcessError e = false ->
     get_git_branch_name env decode tr0 =
     ((tr0 ++ [Ev (CheckOutput git_branch_cmd) (Raise e)])%list, Raise e)).
Proof.
  split.
  - intros pre post core Hpre Hpost Hf Hl Henv.
    assert (Hs : strip (pre ++ core ++ post)%list = core).
    { destruct core as [|first rest].
      - cbn [app]. apply strip_spaces. rewrite forallb_app.
        now rewrite Hpre, Hpost.
      - destruct (rev (first :: rest)) as [|last rest'] eqn:Hr.
        + apply (f_equal (@List.length byte)) in Hr.
          rewrite length_rev in Hr. discriminate Hr.
        + apply (strip_core pre post _ rest rest' first last); auto.
          apply (f_equal (@rev byte)) in Hr. rewrite rev_involutive in Hr.
          rewrite Hr in Hl. cbn [rev] in Hl. now rewrite last_last in Hl. }
    unfold get_git_branch_name, try_except, bind, call, ret, raise.
    rewrite Henv, Hs. now destruct (decode core).
  - intros e Henv He.
    unfold get_git_branch_name, try_except, bind, call, ret, raise.
    now rewrite Henv, He.
Qed.

End Branch.

(** ** The further properties on the sample world *)

Lemma substitute_without_placeholders_witness :
  substitute
    (expressions sample_repr_str (PyInt 1) (PyInt 2) "main" "u" "r" "full"
                 None None)
    ["plain text
"; "x = !!!ex"; "p!!!
"]
  = PyStr.join "" ["plain text
"; "x = !!!ex"; "p!!!
"].
Proof.
  apply substitute_without_placeholders. vm_compute. reflexivity.
Defined.

Lemma prepared_line_is_final_witness :
  placeholder_free
    (expressions sample_repr_str (PyInt 1) (PyInt 2) "main" "u" "r" "full"
                 None None)
    (substitute_line
       (expressions sample_repr_str (PyInt 1) (PyInt 2) "main" "u" "r"
                    "full" None None)
       "a !!!exp!!! b !!!branch!!!") = true.
Proof.
  apply (prepared_line_is_final sample_repr_str 1 2 "main" "u" "r" "full"
           None None "a !!!exp!!! b !!!branch!!!");
    vm_compute; reflexivity.
Defined.

Lemma prepare_notebook_stops_at_failure_witness :
  existsb writes_file
    (fst (prepare_notebook sample_env_no_template sample_repr_str
            "out.ipynb" (PyInt 1) (PyInt 2) "main" (Some "u") (Some "r")
            "full" "template.ipynb" None None [])) = false.
Proof.
  assert (Hrun :
    prepare_notebook sample_env_no_template sample_repr_str
      "out.ipynb" (PyInt 1) (PyInt 2) "main" (Some "u") (Some "r")
      "full" "template.ipynb" None None []
    = (fst (prepare_notebook sample_env_no_template sample_repr_str
              "out.ipynb" (PyInt 1) (PyInt 2) "main" (Some "u") (Some "r")
              "full" "template.ipynb" None None []),
       Raise (OtherError "FileNotFoundError")))
    by (vm_compute; reflexivity).
  destruct (prepare_notebook_stops_at_failure _ _ _ _ _ _ _ _ _ _ _ _ _ _ _
              Hrun)
    as [(e & _ & H)|[(e & _ & H)|[(lines & e & _ & H)|(lines & H)]]];
    try (rewrite H; reflexivity);
    apply (f_equal (@List.length Event)) in H; vm_compute in H;
    discriminate H.
Defined.

Lemma main_stops_at_failure_witness :
  exists pre,
    Forall (fun ev => calm ev = true) pre /\
    (fst (sample_main (Raise (CalledProcessError 128))
                      (Raise (OtherError "SystemExit")) [] ["--help"]) = pre \/
     exists ev e,
       fst (sample_main (Raise (CalledProcessError 128))
                        (Raise (OtherError "SystemExit")) [] ["--help"])
       = (pre ++ [ev])%list /\
       raised ev = Some e /\ handled ev = false /\
       snd (sample_main (Raise (CalledProcessError 128))
                        (Raise (OtherError "SystemExit")) [] ["--help"])
       = Raise e).
Proof.
  apply (main_stops_at_failure
           (sample_env (Raise (CalledProcessError 128))
                       (Raise (OtherError "SystemExit")) [])
           sample_constants sample_users (fun p => Ok p) sample_decode
           sample_repr_str ["--help"]).
  vm_compute. reflexivity.
Defined.

Lemma push_needs_both_files_witness :
  exists uname text config,
    In (Ev (FileWrite (notebook_path_of uname sample_args) text) (Ok tt))
       (fst (sample_main sample_git (Ok sample_args) sample_template
                         ["-u"; "alice"; "-p"])) /\
    In (Ev (JsonDump (metadata_path_of uname sample_args) config 4) (Ok tt))
       (fst (sample_main sample_git (Ok sample_args) sample_template
                         ["-u"; "alice"; "-p"])).
Proof.
  assert (Hcli :
    cli_args (sample_env sample_git (Ok sample_args) sample_template)
             sample_constants sample_users (fun p => Ok p) sample_decode
             ["-u"; "alice"; "-p"] []
    = (fst (sample_cli sample_git (Ok sample_args) sample_template
                       ["-u"; "alice"; "-p"]), Ok sample_args))
    by (vm_compute; reflexivity).
  assert (Hrun :
    main (sample_env sample_git (Ok sample_args) sample_template)
         sample_constants sample_users (fun p => Ok p) sample_decode
         sample_repr_str ["-u"; "alice"; "-p"] []
    = (fst (sample_main sample_git (Ok sample_args) sample_template
                        ["-u"; "alice"; "-p"]), Ok tt))
    by (vm_compute; reflexivity).
  apply (proj2 (push_needs_both_files _ _ _ _ _ _ _ _ _ _ _ Hcli Hrun)).
  vm_compute. reflexivity.
Defined.

Lemma missing_notebook_asserts_witness :
  snd (main (sample_env_failing sample_git (Ok sample_args) sample_template
                                false (Ok tt))
            sample_constants sample_users (fun p => Ok p) sample_decode
            sample_repr_str ["-u"; "alice"; "-p"] [])
  = Raise (AssertionError "").
Proof.
  assert (Hcli :
    cli_args (sample_env_failing sample_git (Ok sample_args) sample_template
                                 false (Ok tt))
             sample_constants sample_users (fun p => Ok p) sample_decode
             ["-u"; "alice"; "-p"] []
    = (fst (cli_args (sample_env_failing sample_git (Ok sample_args)
                        sample_template false (Ok tt))
                     sample_constants sample_users (fun p => Ok p)
                     sample_decode ["-u"; "alice"; "-p"] []),
       Ok sample_args))
    by (vm_compute; reflexivity).
  assert (Hrun :
    main (sample_env_failing sample_git (Ok sample_args) sample_template
                             false (Ok tt))
         sample_constants sample_users (fun p => Ok p) sample_decode
         sample_repr_str ["-u"; "alice"; "-p"] []
    = (fst (main (sample_env_failing sample_git (Ok sample_args)
                    sample_template false (Ok tt))
                 sample_constants sample_users (fun p => Ok p) sample_decode
                 sample_repr_str ["-u"; "alice"; "-p"] []),
       snd (main (sample_env_failing sample_git (Ok sample_args)
                    sample_template false (Ok tt))
                 sample_constants sample_users (fun p => Ok p) sample_decode
                 sample_repr_str ["-u"; "alice"; "-p"] [])))
    by (vm_compute; reflexivity).
  apply (missing_notebook_asserts _ _ _ _ _ _ _ _ _ _ _ Hcli Hrun).
  vm_compute. reflexivity.
Defined.

Lemma failed_download_keeps_directory_witness :
  existsb is_rmtree
    (fst (main (sample_env_failing sample_git (Ok sample_download_args) []
                  true (Raise (OtherError "ApiException")))
               sample_constants sample_users (fun p => Ok p) sample_decode
               sample_repr_str ["-u"; "alice"; "-d"] [])) = false.
Proof.
  assert (Hcli :
    cli_args (sample_env_failing sample_git (Ok sample_download_args) []
                true (Raise (OtherError "ApiException")))
             sample_constants sample_users (fun p => Ok p) sample_decode
             ["-u"; "alice"; "-d"] []
    = (fst (cli_args (sample_env_failing sample_git
                        (Ok sample_download_args) [] true
                        (Raise (OtherError "ApiException")))
                     sample_constants sample_users (fun p => Ok p)
                     sample_decode ["-u"; "alice"; "-d"] []),
       Ok sample_download_args))
    by (vm_compute; reflexivity).
  assert (Hrun :
    main (sample_env_failing sample_git (Ok sample_download_args) []
            true (Raise (OtherError "ApiException")))
         sample_constants sample_users (fun p => Ok p) sample_decode
         sample_repr_str ["-u"; "alice"; "-d"] []
    = (fst (main (sample_env_failing sample_git (Ok sample_download_args) []
                    true (Raise (OtherError "ApiException")))
                 sample_constants sample_users (fun p => Ok p) sample_decode
                 sample_repr_str ["-u"; "alice"; "-d"] []),
       Raise (OtherError "ApiException")))
    by (vm_compute; reflexivity).
  apply (proj2 (failed_download_keeps_directory _ _ _ _ _ _ _ _ _ _ _
                  Hcli eq_refl Hrun)
               (Ev (KernelsOutput "alice_k/remote_training"
                                  (tmp_dir_of sample_download_args))
                   (Raise (OtherError "ApiException")))
               (tmp_dir_of sample_download_args)
               (OtherError "ApiException")).
  - vm_compute. do 4 right. left. reflexivity.
  - reflexivity.
Defined.

Lemma missing_user_key_error_witness :
  main (sample_env sample_git (Ok sample_no_user) sample_template)
       sample_constants sample_users (fun p => Ok p) sample_decode
       sample_repr_str ["--full"] []
  = (fst (sample_cli sample_git (Ok sample_no_user) sample_template
                     ["--full"]),
     Raise (KeyError None)).
Proof.
  assert (Hcli :
    cli_args (sample_env sample_git (Ok sample_no_user) sample_template)
             sample_constants sample_users (fun p => Ok p) sample_decode
             ["--full"] []
    = (fst (sample_cli sample_git (Ok sample_no_user) sample_template
                       ["--full"]), Ok sample_no_user))
    by (vm_compute; reflexivity).
  apply (proj1 (missing_user_key_error _ _ _ _ _ sample_repr_str _ _ _
                  "full" Hcli eq_refl)).
  reflexivity.
Defined.

Lemma pushed_folder_is_consistent_witness :
  exists folder,
    In (Ev (KernelsPush folder) (Ok tt))
       (fst (sample_main sample_git (Ok sample_args) sample_template
                         ["-u"; "alice"; "-p"])) /\
    forall path a,
      In (Ev (OpenWrite path) a)
         (fst (sample_main sample_git (Ok sample_args) sample_template
                           ["-u"; "alice"; "-p"])) ->
      exists name, path = folder ++ "/" ++ name /\ file_name name.
Proof.
  assert (Hcli :
    cli_args (sample_env sample_git (Ok sample_args) sample_template)
             sample_constants sample_users (fun p => Ok p) sample_decode
             ["-u"; "alice"; "-p"] []
    = (fst (sample_cli sample_git (Ok sample_args) sample_template
                       ["-u"; "alice"; "-p"]), Ok sample_args))
    by (vm_compute; reflexivity).
  assert (Hrun :
    main (sample_env sample_git (Ok sample_args) sample_template)
         sample_constants sample_users (fun p => Ok p) sample_decode
         sample_repr_str ["-u"; "alice"; "-p"] []
    = (fst (sample_main sample_git (Ok sample_args) sample_template
                        ["-u"; "alice"; "-p"]), Ok tt))
    by (vm_compute; reflexivity).
  assert (Hid : without_char "/" (notebook_id sample_args))
    by (apply without_char_literal; reflexivity).
  destruct (pushed_folder_is_consistent _ _ _ _ _ _ _ _ _ _
              Hcli eq_refl Hid Hrun)
    as (folder & code_file & text & config
        & _ & _ & _ & _ & _ & Hpush & Hopen).
  exists folder. split; [apply Hpush; reflexivity | exact Hopen].
Defined.



Lemma define_config_shape_witness :
  define_config sample_constants sample_args [("key", "0123")] "00001"
                "remote_training"
  = Raise (KeyError (Some "username")).
Proof.
  apply (proj1 (define_config_shape sample_constants sample_args
                  [("key", "0123")] "00001" "remote_training")).
  reflexivity.
Defined.

Lemma git_branch_name_outcomes_witness :
  get_git_branch_name
    (sample_env sample_git (Ok sample_args) sample_template) sample_decode []
  = ([Ev (CheckOutput git_branch_cmd) sample_git], Ok "main").
Proof.
  apply (proj1 (git_branch_name_outcomes
                  (sample_env sample_git (Ok sample_args) sample_template)
                  sample_decode [])
               [] [x0a] (list_byte_of_string "main"));
    reflexivity.
Defined.

Lemma format_05d_injective_witness :
  PyStr.format_05d 1 <> PyStr.format_05d 2 /\
  5 <= String.length (PyStr.format_05d 1).
Proof. apply (format_05d_injective 1 2). discriminate. Defined.

Lemma experiments_have_own_folders_witness :
  kernel_path_of "alice_k" sample_args <>
  kernel_path_of "alice_k" sample_other_args /\
  notebook_path_of "alice_k" sample_args <>
  notebook_path_of "alice_k" sample_other_args /\
  metadata_path_of "alice_k" sample_args <>
  metadata_path_of "alice_k" sample_other_args.
Proof.
  apply (experiments_have_own_folders "alice_k" sample_args
           sample_other_args).
  - discriminate.
  - apply without_char_literal. reflexivity.
  - apply without_char_literal. reflexivity.
Defined.
